(** * stsci-announce: validated announcements, rendering and polling

    A shallow embedding of the two revisions of [index.ts] of the
    stsci-announce JupyterLab extension:

    - [Simple] and [SimplePoller] embed the revision whose [escapeHtml]
      reads [innerText] and whose validation failures go through
      [log_and_throw];
    - [Hardened] and [HardenedPoller] embed the revision with DOMPurify,
      the [ValidationError] class and the retry backoff.

    The data model of the two revisions differs in four places only: what
    [escapeHtml] reads back, how a validation failure is thrown, and how
    the message text and the block title are sanitized.

    Conventions of the embedding.

    - A JavaScript string is a [string]; one [ascii] stands for one UTF-16
      code unit, so the embedding covers the code units below 256.
    - A JavaScript number that the code computes with (delays, HTTP status)
      is a [Z]; every value involved is an integer far below 2^53.
    - A thrown exception is the left injection of a sum.
    - Console output is not modelled.
    - The limits of the engine are not modelled: no conversion or loop
      runs out of stack or memory. *)

From Stdlib Require Import String Ascii List ZArith Bool Lia Arith DecimalString.
Import ListNotations.
Local Open Scope string_scope.
Local Open Scope list_scope.

Set Implicit Arguments.
Set Warnings "-register-all".


(* ===================================================================== *)
(** * JavaScript values, strings and exceptions *)
(* ===================================================================== *)

(** The values [response.json()] can produce, plus [undefined], which is
    what reading a missing property yields.  A number is carried as its
    ECMAScript [ToString] rendering: the code under study never computes
    with a number taken from the payload. *)
Inductive JSValue : Type :=
| JUndefined
| JNull
| JBool (b : bool)
| JNum (repr : string)
| JStr (s : string)
| JArr (elems : list JSValue)
| JObj (props : list (string * JSValue)).

(** The exception classes that occur. *)
Inductive Exn : Type :=
| ValidationError (message : string)   (* class ValidationError extends Error *)
| Error (message : string)             (* new Error(message) *)
| TypeError (message : string)         (* property read on null/undefined, value with
                                          no string form, failed fetch *)
| SyntaxError (message : string).      (* response.json() on a body that is not JSON *)

(** [e instanceof ValidationError] *)
Definition instanceof_ValidationError (e : Exn) : bool :=
  match e with ValidationError _ => true | _ => false end.

Definition Result (A : Type) : Type := (Exn + A)%type.

Definition isOk {A} (r : Result A) : bool :=
  match r with inr _ => true | inl _ => false end.

(** The property names the code reads from payload values.  None of them
    is a property of [Object.prototype], [Array.prototype],
    [String.prototype], [Number.prototype] or [Boolean.prototype], so a
    read on a primitive, on an array, or on an object without the own
    property yields [undefined]. *)
Inductive Field : Type :=
| f_blocks | f_messages | f_title | f_popup
| f_username | f_timestamp | f_expires | f_level | f_message.

Definition field_name (f : Field) : string :=
  match f with
  | f_blocks => "blocks" | f_messages => "messages" | f_title => "title"
  | f_popup => "popup" | f_username => "username" | f_timestamp => "timestamp"
  | f_expires => "expires" | f_level => "level" | f_message => "message"
  end.

Fixpoint lookup (k : string) (props : list (string * JSValue)) : JSValue :=
  match props with
  | [] => JUndefined
  | (k', v) :: rest => if String.eqb k k' then v else lookup k rest
  end.

(** [v.f]: a [TypeError] on [null] and [undefined], the own property of an
    object, [undefined] otherwise. *)
Definition get (v : JSValue) (f : Field) : Result JSValue :=
  match v with
  | JUndefined => inl (TypeError ("Cannot read properties of undefined (reading '" ++ field_name f ++ "')"))
  | JNull => inl (TypeError ("Cannot read properties of null (reading '" ++ field_name f ++ "')"))
  | JObj props => inr (lookup (field_name f) props)
  | _ => inr JUndefined
  end.

(** [Array.isArray(v)], returning the elements. *)
Definition asArray (v : JSValue) : option (list JSValue) :=
  match v with JArr l => Some l | _ => None end.

(** [typeof v === 'string' && p(v)] *)
Definition string_and (v : JSValue) (p : string -> bool) : bool :=
  match v with JStr s => p s | _ => false end.

(** [arr.includes(v)] for an array literal of strings ([SameValueZero]
    equates a string only with an equal string). *)
Definition includes (arr : list string) (v : JSValue) : bool :=
  match v with JStr s => existsb (String.eqb s) arr | _ => false end.

(** A computation that may throw: sequencing. *)
Definition and_then {A B} (r : Result A) (k : A -> Result B) : Result B :=
  match r with
  | inl e => inl e
  | inr a => k a
  end.

Notation "x <~ r ;; k" := (and_then r (fun x => k))
  (at level 61, r at next level, right associativity).

(** [props] has an own property named [k]. *)
Definition has_own (k : string) (props : list (string * JSValue)) : bool :=
  existsb (fun kv => String.eqb k (fst kv)) props.

(** The elements of an array as [Array.prototype.join] converts them: in
    order, [null] and [undefined] to the empty string, the others by
    [convert]; the first conversion that throws ends the loop. *)
Definition join_parts (convert : JSValue -> Result string)
  : list JSValue -> Result (list string) :=
  fix parts (l : list JSValue) : Result (list string) :=
    match l with
    | [] => inr []
    | e :: rest =>
        part <~ match e with
                | JUndefined | JNull => inr EmptyString
                | _ => convert e
                end ;;
        more <~ parts rest ;;
        inr (part :: more)
    end.

(** ECMAScript [ToString], which the DOM applies to the argument of
    [createTextNode].

    - An object goes through [OrdinaryToPrimitive] with hint string: its
      [toString] is called when it is callable, then its [valueOf].  A
      value of a payload is never callable, so an object with an own
      property [toString] hides [Object.prototype.toString] and is left
      with [valueOf], which returns no primitive (the inherited one
      returns the object, an own one is not callable): a [TypeError].
      Without an own [toString] the result is ["[object Object]"].
    - An array goes through [Array.prototype.join] with a comma. *)
Fixpoint ToString (v : JSValue) : Result string :=
  match v with
  | JUndefined => inr "undefined"
  | JNull => inr "null"
  | JBool true => inr "true"
  | JBool false => inr "false"
  | JNum repr => inr repr
  | JStr s => inr s
  | JArr elems =>
      parts <~ join_parts ToString elems ;;
      inr (String.concat "," parts)
  | JObj props =>
      if has_own "toString" props
      then inl (TypeError "Cannot convert object to primitive value")
      else inr "[object Object]"
  end.

(** ** String helpers *)

Definition LF : ascii := ascii_of_nat 10.
Definition CR : ascii := ascii_of_nat 13.
Definition NBSP : ascii := ascii_of_nat 160.
Definition nl : string := String LF EmptyString.
Definition dquote : string := String (ascii_of_nat 34) EmptyString.

Fixpoint spaces (n : nat) : string :=
  match n with O => EmptyString | S k => String " " (spaces k) end.

(** [s.split(sep)[0]] for a one-character separator: the text before the
    first occurrence of [sep], all of [s] when there is none. *)
Fixpoint split_first (sep : ascii) (s : string) : string :=
  match s with
  | EmptyString => EmptyString
  | String c rest => if Ascii.eqb c sep then EmptyString else String c (split_first sep rest)
  end.

Definition in_range (lo hi : nat) (c : ascii) : bool :=
  (lo <=? nat_of_ascii c)%nat && (nat_of_ascii c <=? hi)%nat.

(** [s.toUpperCase()], exact on ASCII text.  The code applies it to
    [this.level] only, which construction restricts to six ASCII words. *)
Definition upper_char (c : ascii) : ascii :=
  if in_range 97 122 c then ascii_of_nat (nat_of_ascii c - 32) else c.

Fixpoint toUpperCase (s : string) : string :=
  match s with
  | EmptyString => EmptyString
  | String c rest => String (upper_char c) (toUpperCase rest)
  end.

(** Does the character occur in the string? *)
Fixpoint occurs (c : ascii) (s : string) : bool :=
  match s with
  | EmptyString => false
  | String d rest => Ascii.eqb d c || occurs c rest
  end.

(** [Number.prototype.toString] of an integer. *)
Definition Z_toString (z : Z) : string := NilZero.string_of_int (Z.to_int z).

(* ===================================================================== *)
(** * Regular expressions *)
(* ===================================================================== *)

(** The patterns of the source are anchored on both sides, use no
    back-reference and no look-around, and are only queried with
    [RegExp.prototype.test]; whether [test] succeeds is then membership of
    the whole string in the regular language of the pattern, decided here
    by derivatives. *)
Module Regex.

Inductive regex : Type :=
| Void                              (* matches nothing *)
| Eps                               (* the empty string *)
| Class (p : ascii -> bool)         (* one character satisfying p *)
| Cat (r1 r2 : regex)
| Alt (r1 r2 : regex)
| Star (r : regex).

Fixpoint nullable (r : regex) : bool :=
  match r with
  | Void => false
  | Eps => true
  | Class _ => false
  | Cat r1 r2 => nullable r1 && nullable r2
  | Alt r1 r2 => nullable r1 || nullable r2
  | Star _ => true
  end.

Fixpoint deriv (c : ascii) (r : regex) : regex :=
  match r with
  | Void => Void
  | Eps => Void
  | Class p => if p c then Eps else Void
  | Cat r1 r2 =>
      if nullable r1
      then Alt (Cat (deriv c r1) r2) (deriv c r2)
      else Cat (deriv c r1) r2
  | Alt r1 r2 => Alt (deriv c r1) (deriv c r2)
  | Star r1 => Cat (deriv c r1) (Star r1)
  end.

Fixpoint matches (r : regex) (s : string) : bool :=
  match s with
  | EmptyString => nullable r
  | String c rest => matches (deriv c r) rest
  end.

(** Pattern syntax of the source. *)
Definition Lit (c : ascii) : regex := Class (Ascii.eqb c).   (* a literal character *)
Definition Opt (r : regex) : regex := Alt r Eps.              (* (r)? *)
Definition Plus (r : regex) : regex := Cat r (Star r).        (* r+ *)
Definition cats (rs : list regex) : regex := fold_right Cat Eps rs.

(** [\d] *)
Definition digit : ascii -> bool := in_range 48 57.
(** [.] without the [s] flag: anything but a line terminator (of which
    only LF and CR are below 256). *)
Definition any_char (c : ascii) : bool := negb (Ascii.eqb c LF || Ascii.eqb c CR).
Definition D : regex := Class digit.
Definition Dot : regex := Class any_char.

(** The standard meaning of a pattern, as a relation. *)
Inductive lang : regex -> string -> Prop :=
| L_Eps : lang Eps EmptyString
| L_Class p c : p c = true -> lang (Class p) (String c EmptyString)
| L_Cat r1 r2 s1 s2 : lang r1 s1 -> lang r2 s2 -> lang (Cat r1 r2) (s1 ++ s2)
| L_AltL r1 r2 s : lang r1 s -> lang (Alt r1 r2) s
| L_AltR r1 r2 s : lang r2 s -> lang (Alt r1 r2) s
| L_StarNil r : lang (Star r) EmptyString
| L_StarCons r s1 s2 : lang r s1 -> lang (Star r) s2 -> lang (Star r) (s1 ++ s2).

End Regex.

(** [/^[a-zA-Z0-9_@.-]+$/] *)
Definition username_char (c : ascii) : bool :=
  in_range 97 122 c || in_range 65 90 c || in_range 48 57 c
  || Ascii.eqb c "_"%char || Ascii.eqb c "@"%char || Ascii.eqb c "."%char || Ascii.eqb c "-"%char.

Definition re_username : Regex.regex := Regex.Plus (Regex.Class username_char).

(** [/^\d\d\d\d-\d\d-\d\dT\d\d:\d\d(:\d\d(.\d\d\d(\d\d\d)?)?)?$/] *)
Definition re_timestamp : Regex.regex :=
  let D := Regex.D in
  let Lit := Regex.Lit in
  Regex.cats
    [ D; D; D; D; Lit "-"%char; D; D; Lit "-"%char; D; D; Lit "T"%char; D; D; Lit ":"%char; D; D;
      Regex.Opt (Regex.cats
        [ Lit ":"%char; D; D;
          Regex.Opt (Regex.cats
            [ Regex.Dot; D; D; D;
              Regex.Opt (Regex.cats [ D; D; D ]) ]) ]) ].

(** [/^\d+-\d\d:\d\d:\d\d$/] (one revision writes the hyphen as [\-]) *)
Definition re_expires : Regex.regex :=
  let D := Regex.D in
  let Lit := Regex.Lit in
  Regex.cats [ Regex.Plus D; Lit "-"%char; D; D; Lit ":"%char; D; D; Lit ":"%char; D; D ].

(** [re.test(s)] for an anchored pattern without flags. *)
Definition RegExp_test (re : Regex.regex) (s : string) : bool := Regex.matches re s.

(* ===================================================================== *)
(** * The part of the browser DOM that [escapeHtml] uses *)
(* ===================================================================== *)

(** Modelled from the HTML Standard: fragment serialisation (the
    [innerHTML] getter) and the [innerText] getter of an element that is
    not being rendered. *)
Module DOM.

Inductive Node : Type :=
| Text (data : string)
| Element (localName : string) (childNodes : list Node).

Definition createElement (localName : string) : Node := Element localName [].
Definition createTextNode (data : string) : Node := Text data.

Definition appendChild (parent child : Node) : Node :=
  match parent with
  | Element name kids => Element name (kids ++ [child])
  | Text _ => parent
  end.

(** "Escaping a string" outside attribute mode. *)
Definition escape_char (c : ascii) : string :=
  if Ascii.eqb c "&"%char then "&amp;"
  else if Ascii.eqb c NBSP then "&nbsp;"
  else if Ascii.eqb c "<"%char then "&lt;"
  else if Ascii.eqb c ">"%char then "&gt;"
  else String c EmptyString.

Fixpoint escape_string (s : string) : string :=
  match s with
  | EmptyString => EmptyString
  | String c rest => escape_char c ++ escape_string rest
  end.

Fixpoint serialize (n : Node) : string :=
  match n with
  | Text data => escape_string data
  | Element name kids =>
      "<" ++ name ++ ">" ++ String.concat EmptyString (map serialize kids)
      ++ "</" ++ name ++ ">"
  end.

Definition innerHTML (n : Node) : string :=
  match n with
  | Element _ kids => String.concat EmptyString (map serialize kids)
  | Text _ => EmptyString
  end.

Fixpoint textContent (n : Node) : string :=
  match n with
  | Text data => data
  | Element _ kids => String.concat EmptyString (map textContent kids)
  end.

(** The [div] that [escapeHtml] creates is never attached to a
    document, so it is not being rendered and [innerText] returns its
    descendant text content. *)
Definition innerText (n : Node) : string := textContent n.

End DOM.

(* ===================================================================== *)
(** * Exceptions and construction traces *)
(* ===================================================================== *)

(** Every [new] expression of [jsonToAnnouncementsData] is recorded, at the
    moment the constructor is entered, so that the order of checks and
    constructions can be stated. *)
Inductive Call : Type :=
| NewMessage (username timestamp expires level message : JSValue)
| NewMessageBlock (title : JSValue) (messages : nat)
| NewAnnouncementsData (popup timestamp : JSValue) (blocks : nat).

(** A computation that may throw and that appends to the trace. *)
Definition Traced (A : Type) : Type := list Call -> Result A * list Call.

Definition ret {A} (a : A) : Traced A := fun tr => (inr a, tr).

Definition throw {A} (e : Exn) : Traced A := fun tr => (inl e, tr).

Definition bind {A B} (m : Traced A) (k : A -> Traced B) : Traced B :=
  fun tr =>
    match m tr with
    | (inr a, tr') => k a tr'
    | (inl e, tr') => (inl e, tr')
    end.

(** An expression that may throw but constructs nothing. *)
Definition lift {A} (r : Result A) : Traced A := fun tr => (r, tr).

(** [new C(args)]: record the call, then run the constructor. *)
Definition construct {A} (c : Call) (r : Result A) : Traced A :=
  fun tr => (r, tr ++ [c]).

Notation "x <- m ;; k" := (bind m (fun x => k))
  (at level 61, m at next level, right associativity).

(** [arr.map(f)]: the callback runs on the elements in order and the first
    exception ends the loop. *)
Fixpoint mapM {A B} (f : A -> Traced B) (l : list A) : Traced (list B) :=
  match l with
  | [] => ret []
  | a :: rest => b <- f a ;; bs <- mapM f rest ;; ret (b :: bs)
  end.

(** The result of a traced computation started on the empty trace. *)
Definition run {A} (m : Traced A) : Result A := fst (m []).

(** The six levels of [Message]. *)
Definition levels : list string :=
  ["debug"; "info"; "notice"; "warning"; "error"; "critical"].

(* ===================================================================== *)
(** * The simple revision: data model and parser *)
(* ===================================================================== *)

Module Simple.

(** [escapeHtml]: a text node in a fresh [div], read back with
    [innerText]. *)
Definition escapeHtml (html : string) : string :=
  let div := DOM.createElement "div" in
  let div := DOM.appendChild div (DOM.createTextNode html) in
  DOM.innerText div.

(** [log_and_throw(msg)]: logs, then [throw new Error(msg)]. *)
Definition log_and_throw {A} (msg : string) : Result A := inl (Error msg).

Module Message.

Record t : Type := {
  username : string;
  timestamp : string;
  expires : string;
  level : string;
  message : string
}.

Definition new (username timestamp expires level message : JSValue) : Result t :=
  if negb (string_and username (fun u =>
             (0 <? String.length u)%nat && (String.length u <=? 32)%nat
             && RegExp_test re_username u))
  then log_and_throw "Bad message username."
  else if negb (string_and timestamp (RegExp_test re_timestamp))
  then log_and_throw "Bad message timestamp."
  else if negb (string_and expires (RegExp_test re_expires))
  then log_and_throw "Bad expires time."
  else if negb (includes levels level)
  then log_and_throw "Bad level setting."
  else if negb (string_and message (fun m =>
             (0 <? String.length m)%nat && (String.length m <=? 1024)%nat))
  then log_and_throw "Bad message content."
  else
    username' <~ ToString username ;;
    timestamp' <~ ToString timestamp ;;
    expires' <~ ToString expires ;;
    level' <~ ToString level ;;
    message' <~ ToString message ;;
    inr {| username := escapeHtml username';
           timestamp := escapeHtml timestamp';
           expires := escapeHtml expires';
           level := escapeHtml level';
           message := escapeHtml message' |}.

Definition fmtTimestamp (this : t) : string :=
  "<td class='announce-timestamp'>[" ++ split_first "." (timestamp this) ++ "]</td>".

Definition fmtLevel (this : t) : string :=
  "<td class='announce-" ++ level this ++ "'>" ++ toUpperCase (level this) ++ "</td>".

Definition fmtMessage (this : t) : string :=
  "<td class='announce-text'>" ++ message this ++ "</td>".

Definition toHtml (this : t) : string :=
  "<tr>" ++ fmtTimestamp this ++ " " ++ fmtLevel this ++ " <td> &nbsp; </td> "
  ++ fmtMessage this ++ "</tr>".

End Message.

Module MessageBlock.

Record t : Type := {
  title : string;
  messages : list Message.t
}.

(** The parameter [messages] is only ever the result of mapping
    [new Message] over an array, so [Array.isArray(messages)] and
    [messages.every(msg => msg instanceof Message)] hold by typing. *)
Definition new (title : JSValue) (messages : list Message.t) : Result t :=
  match title with
  | JStr ttl =>
      if (String.length ttl <=? 0)%nat || (128 <? String.length ttl)%nat
      then log_and_throw "Bad title."
      else if (length messages <=? 0)%nat || (16 <? length messages)%nat
      then log_and_throw "Bad messages array."
      else inr {| title := escapeHtml ttl; messages := messages |}
  | _ => log_and_throw "Bad title."
  end.

Definition toHtml (this : t) : string :=
  if (length (messages this) =? 0)%nat then EmptyString
  else
    "<table class=" ++ dquote ++ "announcement-block" ++ dquote ++ ">" ++ nl
    ++ spaces 24 ++ "<theader>" ++ nl
    ++ spaces 28 ++ "<p class='announce-block-title'>" ++ title this ++ "</p>" ++ nl
    ++ spaces 24 ++ "</theader>" ++ nl
    ++ spaces 24 ++ "<tbody>" ++ nl
    ++ spaces 28 ++ String.concat nl (map Message.toHtml (messages this)) ++ nl
    ++ spaces 24 ++ "</tbody>" ++ nl
    ++ spaces 20 ++ "</table>".

End MessageBlock.

Module AnnouncementsData.

Record t : Type := {
  popup : bool;
  timestamp : string;
  blocks : list MessageBlock.t
}.

(** [blocks] is always the result of mapping [new MessageBlock] over an
    array, so the two checks on it hold by typing.  [timestamp] is not
    validated; [createTextNode] converts it to a string, which throws for
    a value that has no string form. *)
Definition new (popup timestamp : JSValue) (blocks : list MessageBlock.t) : Result t :=
  match popup with
  | JBool p =>
      timestamp' <~ ToString timestamp ;;
      inr {| popup := p;
             timestamp := escapeHtml timestamp';
             blocks := blocks |}
  | _ => log_and_throw "Bad popup type."
  end.

Definition toHtml (this : t) : string :=
  if (length (blocks this) =? 0)%nat then EmptyString
  else
    "<div class=" ++ dquote ++ "announcement" ++ dquote ++ ">" ++ nl
    ++ spaces 16 ++ String.concat nl (map MessageBlock.toHtml (blocks this)) ++ nl
    ++ spaces 24 ++ "<p/>" ++ nl
    ++ spaces 12 ++ "</div>".

End AnnouncementsData.

(** The callback of [bdmessages.map]. *)
Definition messageOf (msg : JSValue) : Traced Message.t :=
  username <- lift (get msg f_username) ;;
  timestamp <- lift (get msg f_timestamp) ;;
  expires <- lift (get msg f_expires) ;;
  level <- lift (get msg f_level) ;;
  message <- lift (get msg f_message) ;;
  construct (NewMessage username timestamp expires level message)
            (Message.new username timestamp expires level message).

(** The callback of [jsonData.blocks.map]. *)
Definition blockOf (blockData : JSValue) : Traced MessageBlock.t :=
  bdmessages <- lift (get blockData f_messages) ;;
  match asArray bdmessages with
  | None => lift (log_and_throw "Bad messages array.")
  | Some msgs =>
      if (length msgs <=? 0)%nat || (16 <? length msgs)%nat
      then lift (log_and_throw "Bad messages array.")
      else
        messages <- mapM messageOf msgs ;;
        title <- lift (get blockData f_title) ;;
        construct (NewMessageBlock title (length messages))
                  (MessageBlock.new title messages)
  end.

Definition jsonToAnnouncementsData (jsonData : JSValue) : Traced AnnouncementsData.t :=
  jblocks <- lift (get jsonData f_blocks) ;;
  match asArray jblocks with
  | None => lift (log_and_throw "Bad blocks array.")
  | Some blockDatas =>
      blocks <- mapM blockOf blockDatas ;;
      popup <- lift (get jsonData f_popup) ;;
      timestamp <- lift (get jsonData f_timestamp) ;;
      construct (NewAnnouncementsData popup timestamp (length blocks))
                (AnnouncementsData.new popup timestamp blocks)
  end.

End Simple.

(* ===================================================================== *)
(** * Host effects shared by both pollers *)
(* ===================================================================== *)

(** What one run of the fetch in [updateAnnouncements] can observe. *)
Inductive FetchOutcome : Type :=
| Rejected                              (* the promise of [fetch] rejects *)
| Response (status : Z) (statusText : string)
           (json : option JSValue).     (* [None]: [response.json()] rejects *)

(** [response.ok] *)
Definition ok (status : Z) : bool := (200 <=? status)%Z && (status <=? 299)%Z.

(** Calls into the host that a poll cycle makes. *)
Inductive Effect : Type :=
| SetTimeout_update (ms : Z)   (* setTimeout(() => this.updateAnnouncements(url, n), ms) *)
| SetTimeout_revert (ms : Z)   (* the timer of showRecoveryNotification *)
| RegisterStatusItem           (* statusbar.registerStatusItem('new-announcement', ...) *)
| ShowDialog (body : string)   (* showDialog over body.innerHTML = last_rendered *)
| Dispose.                     (* openAnnouncementButton.dispose() *)

Definition isShowDialog (e : Effect) : bool :=
  match e with ShowDialog _ => true | _ => false end.

(** The delays of the [updateAnnouncements] timers set by a cycle. *)
Fixpoint scheduled (effs : list Effect) : list Z :=
  match effs with
  | [] => []
  | SetTimeout_update ms :: rest => ms :: scheduled rest
  | _ :: rest => scheduled rest
  end.

(** The texts a button can carry, in source order:
    [''], ['Announcements'], the warning sign with ['Click for
    Announcements'], the retry sign with ['Announcements (Retrying...)'],
    the cross with ['Announcements (Unavailable)'], the check mark with
    ['Announcements Restored']. *)
Inductive ButtonText : Type :=
| TextEmpty | TextAnnouncements | TextClickForAnnouncements
| TextRetrying | TextUnavailable | TextRestored.

(** [node.style.color]: [''], ['orange'], ['red'], ['green']. *)
Inductive Color : Type := ColorNone | Orange | Red | Green.

(** [node.title]: unset, ['Click to view announcements'], [`Announcement
    service experiencing issues. Retrying in ${retryDelay / 1000}s...`]
    (carrying [retryDelay]), ['Announcement service unavailable. Will
    retry periodically.'], ['Announcement service has been restored']. *)
Inductive Tooltip : Type :=
| TipNone | TipNormal | TipRetrying (retryDelay : Z) | TipUnavailable | TipRestored.

(** A command on a poller: the new state and the host calls made. *)
Definition Cmd (S : Type) : Type := S -> S * list Effect.

Definition skip {S} : Cmd S := fun s => (s, []).

Definition modify {S} (f : S -> S) : Cmd S := fun s => (f s, []).

Definition emit {S} (e : S -> Effect) : Cmd S := fun s => (s, [e s]).

Definition andThen {S} (c1 c2 : Cmd S) : Cmd S :=
  fun s =>
    let (s1, e1) := c1 s in
    let (s2, e2) := c2 s1 in
    (s2, e1 ++ e2).

Definition ifThenElse {S} (b : S -> bool) (c1 c2 : Cmd S) : Cmd S :=
  fun s => if b s then c1 s else c2 s.

Definition when {S} (b : S -> bool) (c : Cmd S) : Cmd S := ifThenElse b c skip.

(** Evaluate an argument in the current state, then call. *)
Definition reading {S A} (arg : S -> A) (k : A -> Cmd S) : Cmd S :=
  fun s => k (arg s) s.

Notation "c1 ;;; c2" := (andThen c1 c2) (at level 62, right associativity).

(** How control leaves the [try] block of [updateAnnouncements]. *)
Inductive TryExit (S : Type) : Type :=
| Threw (e : Exn)                    (* an exception reaches [catch] *)
| Returned (r : S * list Effect)     (* a [return] inside [try] *)
| Completed (r : S * list Effect).   (* control falls out of [try] *)
Arguments Threw {S} e.
Arguments Returned {S} r.
Arguments Completed {S} r.

(* ===================================================================== *)
(** * The simple revision: poller *)
(* ===================================================================== *)

Module SimplePoller.
Import Simple.

Record Button : Type := {
  textContent : ButtonText;
  isDisposed : bool
}.

Record t : Type := {
  openAnnouncementButton : option Button;
  last_rendered : string;
  newAnnouncement : bool
}.

Definition new : t :=
  {| openAnnouncementButton := None;
     last_rendered := EmptyString;
     newAnnouncement := false |}.

Definition set_button (b : option Button) (this : t) : t :=
  {| openAnnouncementButton := b;
     last_rendered := last_rendered this;
     newAnnouncement := newAnnouncement this |}.

Definition set_last_rendered (r : string) (this : t) : t :=
  {| openAnnouncementButton := openAnnouncementButton this;
     last_rendered := r;
     newAnnouncement := newAnnouncement this |}.

Definition set_newAnnouncement (b : bool) (this : t) : t :=
  {| openAnnouncementButton := openAnnouncementButton this;
     last_rendered := last_rendered this;
     newAnnouncement := b |}.

Definition hasButton (this : t) : bool :=
  match openAnnouncementButton this with Some _ => true | None => false end.

(** [this.openAnnouncementButton.node.textContent = txt] *)
Definition set_textContent (txt : ButtonText) (this : t) : t :=
  match openAnnouncementButton this with
  | Some b => set_button (Some {| textContent := txt; isDisposed := isDisposed b |}) this
  | None => this
  end.

Definition createAnnouncementsButton (newAnn : bool) : Cmd t :=
  when (fun this => negb (hasButton this))
       (modify (set_button (Some {| textContent := TextEmpty; isDisposed := false |}))
        ;;; emit (fun _ => RegisterStatusItem))
  ;;; modify (set_textContent (if negb newAnn then TextAnnouncements
                               else TextClickForAnnouncements)).

Definition openAnnouncements : Cmd t :=
  modify (set_newAnnouncement false)
  ;;; emit (fun this => ShowDialog (last_rendered this)).

(** The [onclick] handler of the button. *)
Definition onclick : Cmd t :=
  modify (set_newAnnouncement false)
  ;;; openAnnouncements
  ;;; reading newAnnouncement createAnnouncementsButton.

(** The statements of the [try] block after [announcements] is parsed. *)
Definition show (announcements : AnnouncementsData.t) : Cmd t :=
  let rendered := AnnouncementsData.toHtml announcements in
  when (fun this => negb (String.eqb rendered (last_rendered this)))
       (modify (set_newAnnouncement true) ;;; modify (set_last_rendered rendered))
  ;;; ifThenElse (fun this => (0 <? String.length (last_rendered this))%nat)
        (reading newAnnouncement createAnnouncementsButton
         ;;; when (fun this => newAnnouncement this && AnnouncementsData.popup announcements)
                  openAnnouncements)
        (when hasButton (modify (set_textContent TextEmpty))).

Definition try_block (outcome : FetchOutcome) (this : t) : TryExit t :=
  match outcome with
  | Rejected => Threw (TypeError "Failed to fetch")
  | Response _ _ None => Threw (SyntaxError "Unexpected token")
  | Response _ _ (Some jsonData) =>
      match run (jsonToAnnouncementsData jsonData) with
      | inl e => Threw e
      | inr announcements => Completed (show announcements this)
      end
  end.

Definition dispose (this : t) : t :=
  match openAnnouncementButton this with
  | Some b => set_button (Some {| textContent := textContent b; isDisposed := true |}) this
  | None => this
  end.

Definition catch_block (e : Exn) : Cmd t :=
  when hasButton (modify dispose ;;; emit (fun _ => Dispose)).

(** One cycle of [updateAnnouncements(url, n)] on the fetch outcome. *)
Definition updateAnnouncements (n : Z) (outcome : FetchOutcome) : Cmd t :=
  fun this =>
    match try_block outcome this with
    | Threw e => (catch_block e ;;; emit (fun _ => SetTimeout_update n)) this
    | Returned r => r
    | Completed (this', effs) => (this', effs ++ [SetTimeout_update n])
    end.

End SimplePoller.

(* ===================================================================== *)
(** * The hardened revision: data model and parser *)
(* ===================================================================== *)

Module Hardened.

(** [DOMPurify.sanitize(html, config)] with the configuration and the
    [afterSanitizeAttributes] hook of the source: a function from strings
    to strings supplied by the DOMPurify library. *)
Class DOMPurify : Type := { DOMPurify_sanitize : string -> string }.

Definition sanitizeHtml `{DOMPurify} (html : string) : string :=
  DOMPurify_sanitize html.

(** [escapeHtml]: a text node in a fresh [div], read back with
    [innerHTML]. *)
Definition escapeHtml (html : string) : string :=
  let div := DOM.createElement "div" in
  let div := DOM.appendChild div (DOM.createTextNode html) in
  DOM.innerHTML div.

Module Message.

Record t : Type := {
  username : string;
  timestamp : string;
  expires : string;
  level : string;
  message : string
}.

Definition new `{DOMPurify} (username timestamp expires level message : JSValue)
  : Result t :=
  if negb (string_and username (fun u =>
             (0 <? String.length u)%nat && (String.length u <=? 32)%nat
             && RegExp_test re_username u))
  then inl (ValidationError "Bad message username.")
  else if negb (string_and timestamp (RegExp_test re_timestamp))
  then inl (ValidationError "Bad message timestamp.")
  else if negb (string_and expires (RegExp_test re_expires))
  then inl (ValidationError "Bad expires time.")
  else if negb (includes levels level)
  then inl (ValidationError "Bad level setting.")
  else if negb (string_and message (fun m =>
             (0 <? String.length m)%nat && (String.length m <=? 1024)%nat))
  then inl (ValidationError "Bad message content.")
  else
    username' <~ ToString username ;;
    timestamp' <~ ToString timestamp ;;
    expires' <~ ToString expires ;;
    level' <~ ToString level ;;
    message' <~ ToString message ;;
    inr {| username := escapeHtml username';
           timestamp := escapeHtml timestamp';
           expires := escapeHtml expires';
           level := escapeHtml level';
           message := sanitizeHtml message' |}.

Definition fmtTimestamp (this : t) : string :=
  "<td class='announce-timestamp'>[" ++ split_first "." (timestamp this) ++ "]</td>".

Definition fmtLevel (this : t) : string :=
  "<td class='announce-" ++ level this ++ "'>" ++ toUpperCase (level this) ++ "</td>".

Definition fmtMessage (this : t) : string :=
  "<td class='announce-text'>" ++ message this ++ "</td>".

Definition toHtml (this : t) : string :=
  "<tr>" ++ fmtTimestamp this ++ " " ++ fmtLevel this ++ " <td> &nbsp; </td> "
  ++ fmtMessage this ++ "</tr>".

End Message.

Module MessageBlock.

Record t : Type := {
  title : string;
  messages : list Message.t
}.

(** The parameter [messages] is only ever the result of mapping
    [new Message] over an array, so [Array.isArray(messages)] and
    [messages.every(msg => msg instanceof Message)] hold by typing. *)
Definition new `{DOMPurify} (title : JSValue) (messages : list Message.t) : Result t :=
  match title with
  | JStr ttl =>
      if (String.length ttl <=? 0)%nat || (128 <? String.length ttl)%nat
      then inl (ValidationError "Bad title.")
      else if (length messages <=? 0)%nat || (16 <? length messages)%nat
      then inl (ValidationError "Bad messages array.")
      else inr {| title := sanitizeHtml ttl; messages := messages |}
  | _ => inl (ValidationError "Bad title.")
  end.

Definition toHtml (this : t) : string :=
  if (length (messages this) =? 0)%nat then EmptyString
  else
    "<table class=" ++ dquote ++ "announcement-block" ++ dquote ++ ">" ++ nl
    ++ spaces 24 ++ "<theader>" ++ nl
    ++ spaces 28 ++ "<p class='announce-block-title'>" ++ title this ++ "</p>" ++ nl
    ++ spaces 24 ++ "</theader>" ++ nl
    ++ spaces 24 ++ "<tbody>" ++ nl
    ++ spaces 28 ++ String.concat nl (map Message.toHtml (messages this)) ++ nl
    ++ spaces 24 ++ "</tbody>" ++ nl
    ++ spaces 20 ++ "</table>".

End MessageBlock.

Module AnnouncementsData.

Record t : Type := {
  popup : bool;
  timestamp : string;
  blocks : list MessageBlock.t
}.

(** [blocks] is always the result of mapping [new MessageBlock] over an
    array, so the two checks on it hold by typing.  [timestamp] is not
    validated; [createTextNode] converts it to a string, which throws for
    a value that has no string form. *)
Definition new (popup timestamp : JSValue) (blocks : list MessageBlock.t) : Result t :=
  match popup with
  | JBool p =>
      timestamp' <~ ToString timestamp ;;
      inr {| popup := p;
             timestamp := escapeHtml timestamp';
             blocks := blocks |}
  | _ => inl (ValidationError "Bad popup type.")
  end.

Definition toHtml (this : t) : string :=
  if (length (blocks this) =? 0)%nat then EmptyString
  else
    "<div class=" ++ dquote ++ "announcement" ++ dquote ++ ">" ++ nl
    ++ spaces 16 ++ String.concat nl (map MessageBlock.toHtml (blocks this)) ++ nl
    ++ spaces 24 ++ "<p/>" ++ nl
    ++ spaces 12 ++ "</div>".

End AnnouncementsData.

(** The callback of [bdmessages.map]. *)
Definition messageOf `{DOMPurify} (msg : JSValue) : Traced Message.t :=
  username <- lift (get msg f_username) ;;
  timestamp <- lift (get msg f_timestamp) ;;
  expires <- lift (get msg f_expires) ;;
  level <- lift (get msg f_level) ;;
  message <- lift (get msg f_message) ;;
  construct (NewMessage username timestamp expires level message)
            (Message.new username timestamp expires level message).

(** The callback of [jsonData.blocks.map]. *)
Definition blockOf `{DOMPurify} (blockData : JSValue) : Traced MessageBlock.t :=
  bdmessages <- lift (get blockData f_messages) ;;
  match asArray bdmessages with
  | None => throw (ValidationError "Bad messages array.")
  | Some msgs =>
      if (length msgs <=? 0)%nat || (16 <? length msgs)%nat
      then throw (ValidationError "Bad messages array.")
      else
        messages <- mapM messageOf msgs ;;
        title <- lift (get blockData f_title) ;;
        construct (NewMessageBlock title (length messages))
                  (MessageBlock.new title messages)
  end.

Definition jsonToAnnouncementsData `{DOMPurify} (jsonData : JSValue)
  : Traced AnnouncementsData.t :=
  jblocks <- lift (get jsonData f_blocks) ;;
  match asArray jblocks with
  | None => throw (ValidationError "Bad blocks array.")
  | Some blockDatas =>
      blocks <- mapM blockOf blockDatas ;;
      popup <- lift (get jsonData f_popup) ;;
      timestamp <- lift (get jsonData f_timestamp) ;;
      construct (NewAnnouncementsData popup timestamp (length blocks))
                (AnnouncementsData.new popup timestamp blocks)
  end.

End Hardened.

(* ===================================================================== *)
(** * The hardened revision: poller with retry backoff *)
(* ===================================================================== *)

Module HardenedPoller.
Import Hardened.

Inductive ServiceState : Type := normal | degraded | failed.

Definition isNormal (st : ServiceState) : bool :=
  match st with normal => true | _ => false end.

Record Button : Type := {
  textContent : ButtonText;
  color : Color;
  title : Tooltip
}.

Record t : Type := {
  openAnnouncementButton : option Button;
  last_rendered : string;
  newAnnouncement : bool;
  retryDelay : Z;
  maxRetryDelay : Z;
  initialRetryDelay : Z;
  serviceState : ServiceState
}.

(** The constructor. *)
Definition new : t :=
  {| openAnnouncementButton := None;
     last_rendered := EmptyString;
     newAnnouncement := false;
     initialRetryDelay := 10000;
     maxRetryDelay := 600000;
     retryDelay := 10000;
     serviceState := normal |}.

Definition set_button (b : option Button) (this : t) : t :=
  {| openAnnouncementButton := b;
     last_rendered := last_rendered this;
     newAnnouncement := newAnnouncement this;
     retryDelay := retryDelay this;
     maxRetryDelay := maxRetryDelay this;
     initialRetryDelay := initialRetryDelay this;
     serviceState := serviceState this |}.

Definition set_last_rendered (r : string) (this : t) : t :=
  {| openAnnouncementButton := openAnnouncementButton this;
     last_rendered := r;
     newAnnouncement := newAnnouncement this;
     retryDelay := retryDelay this;
     maxRetryDelay := maxRetryDelay this;
     initialRetryDelay := initialRetryDelay this;
     serviceState := serviceState this |}.

Definition set_newAnnouncement (b : bool) (this : t) : t :=
  {| openAnnouncementButton := openAnnouncementButton this;
     last_rendered := last_rendered this;
     newAnnouncement := b;
     retryDelay := retryDelay this;
     maxRetryDelay := maxRetryDelay this;
     initialRetryDelay := initialRetryDelay this;
     serviceState := serviceState this |}.

Definition set_retryDelay (d : Z) (this : t) : t :=
  {| openAnnouncementButton := openAnnouncementButton this;
     last_rendered := last_rendered this;
     newAnnouncement := newAnnouncement this;
     retryDelay := d;
     maxRetryDelay := maxRetryDelay this;
     initialRetryDelay := initialRetryDelay this;
     serviceState := serviceState this |}.

Definition set_serviceState (st : ServiceState) (this : t) : t :=
  {| openAnnouncementButton := openAnnouncementButton this;
     last_rendered := last_rendered this;
     newAnnouncement := newAnnouncement this;
     retryDelay := retryDelay this;
     maxRetryDelay := maxRetryDelay this;
     initialRetryDelay := initialRetryDelay this;
     serviceState := st |}.

Definition hasButton (this : t) : bool :=
  match openAnnouncementButton this with Some _ => true | None => false end.

(** Assignments to the properties of [this.openAnnouncementButton.node]. *)
Definition update_button (f : Button -> Button) (this : t) : t :=
  match openAnnouncementButton this with
  | Some b => set_button (Some (f b)) this
  | None => this
  end.

Definition set_textContent (txt : ButtonText) : t -> t :=
  update_button (fun b => {| textContent := txt; color := color b; title := title b |}).

Definition set_color (c : Color) : t -> t :=
  update_button (fun b => {| textContent := textContent b; color := c; title := title b |}).

Definition set_title (tip : Tooltip) : t -> t :=
  update_button (fun b => {| textContent := textContent b; color := color b; title := tip |}).

Definition isPermissionError (status : Z) : bool :=
  (status =? 401)%Z || (status =? 403)%Z || (status =? 407)%Z.

Definition shouldRetry (status : Z) : bool :=
  isPermissionError status || ((500 <=? status)%Z && (status <? 600)%Z).

Definition updateButtonForServiceState : Cmd t :=
  when hasButton
    (reading serviceState (fun st =>
       match st with
       | normal =>
           ifThenElse (fun this => negb (newAnnouncement this))
             (modify (set_textContent TextAnnouncements))
             (modify (set_textContent TextClickForAnnouncements))
           ;;; modify (set_color ColorNone)
       | degraded =>
           modify (set_textContent TextRetrying) ;;; modify (set_color Orange)
       | failed =>
           modify (set_textContent TextUnavailable) ;;; modify (set_color Red)
       end)).

Definition updateButtonTooltip : Cmd t :=
  when hasButton
    (reading serviceState (fun st =>
       match st with
       | normal => modify (set_title TipNormal)
       | degraded => reading retryDelay (fun d => modify (set_title (TipRetrying d)))
       | failed => modify (set_title TipUnavailable)
       end)).

(** The callback of the 3000 ms timer of [showRecoveryNotification]. *)
Definition revert : Cmd t := updateButtonForServiceState ;;; updateButtonTooltip.

Definition showRecoveryNotification : Cmd t :=
  when hasButton
    (modify (set_textContent TextRestored)
     ;;; modify (set_color Green)
     ;;; modify (set_title TipRestored)
     ;;; emit (fun _ => SetTimeout_revert 3000)).

Definition createAnnouncementsButton (newAnn : bool) : Cmd t :=
  when (fun this => negb (hasButton this))
       (modify (set_button (Some {| textContent := TextEmpty;
                                    color := ColorNone;
                                    title := TipNone |}))
        ;;; emit (fun _ => RegisterStatusItem))
  ;;; modify (set_textContent (if negb newAnn then TextAnnouncements
                               else TextClickForAnnouncements)).

Definition openAnnouncements : Cmd t :=
  modify (set_newAnnouncement false)
  ;;; emit (fun this => ShowDialog (last_rendered this)).

(** The [onclick] handler of the button. *)
Definition onclick : Cmd t :=
  modify (set_newAnnouncement false)
  ;;; openAnnouncements
  ;;; reading newAnnouncement createAnnouncementsButton.

(** The branch of a response that is not ok and not to be retried; it ends
    in [return]. *)
Definition nonRetryable (n : Z) : Cmd t :=
  reading initialRetryDelay (fun d => modify (set_retryDelay d))
  ;;; reading (fun this => negb (isNormal (serviceState this))) (fun wasServiceDegraded =>
        modify (set_serviceState normal)
        ;;; when (fun _ => wasServiceDegraded) showRecoveryNotification)
  ;;; when hasButton (modify (set_textContent TextEmpty))
  ;;; emit (fun _ => SetTimeout_update n).

(** The statements of the [try] block after [announcements] is parsed. *)
Definition show (announcements : AnnouncementsData.t) : Cmd t :=
  let rendered := AnnouncementsData.toHtml announcements in
  reading (fun this => negb (isNormal (serviceState this))) (fun wasServiceDegraded =>
    modify (set_serviceState normal)
    ;;; reading initialRetryDelay (fun d => modify (set_retryDelay d))
    ;;; when (fun this => negb (String.eqb rendered (last_rendered this)))
             (modify (set_newAnnouncement true) ;;; modify (set_last_rendered rendered))
    ;;; ifThenElse (fun this => (0 <? String.length (last_rendered this))%nat)
          (reading newAnnouncement createAnnouncementsButton
           ;;; ifThenElse (fun _ => wasServiceDegraded)
                 showRecoveryNotification
                 (updateButtonForServiceState ;;; updateButtonTooltip)
           ;;; when (fun this => newAnnouncement this && AnnouncementsData.popup announcements)
                    openAnnouncements)
          (when hasButton (modify (set_textContent TextEmpty)))).

Definition try_block `{DOMPurify} (n : Z) (outcome : FetchOutcome) (this : t) : TryExit t :=
  match outcome with
  | Rejected => Threw (TypeError "Failed to fetch")
  | Response status statusText json =>
      if negb (ok status) && shouldRetry status
      then Threw (Error ("HTTP " ++ Z_toString status ++ ": " ++ statusText))
      else if negb (ok status)
      then Returned (nonRetryable n this)
      else
        match json with
        | None => Threw (SyntaxError "Unexpected token")
        | Some jsonData =>
            match run (jsonToAnnouncementsData jsonData) with
            | inl e => Threw e
            | inr announcements => Completed (show announcements this)
            end
        end
  end.

Definition catch_block (n : Z) (e : Exn) : Cmd t :=
  if instanceof_ValidationError e
  then emit (fun _ => SetTimeout_update n)
  else
    ifThenElse (fun this => (retryDelay this >=? maxRetryDelay this)%Z)
      (modify (set_serviceState failed)
       ;;; when (fun this => negb (hasButton this)) (createAnnouncementsButton false)
       ;;; updateButtonForServiceState
       ;;; updateButtonTooltip
       ;;; reading initialRetryDelay (fun d => modify (set_retryDelay d))
       ;;; emit (fun _ => SetTimeout_update n))
      (modify (set_serviceState degraded)
       ;;; when (fun this => negb (hasButton this)) (createAnnouncementsButton false)
       ;;; updateButtonForServiceState
       ;;; updateButtonTooltip
       ;;; emit (fun this => SetTimeout_update (retryDelay this))
       ;;; modify (fun this =>
             set_retryDelay (Z.min (retryDelay this * 2) (maxRetryDelay this)) this)).

(** One cycle of [updateAnnouncements(url, n)] on the fetch outcome. *)
Definition updateAnnouncements `{DOMPurify} (n : Z) (outcome : FetchOutcome) : Cmd t :=
  fun this =>
    match try_block n outcome this with
    | Threw e => catch_block n e this
    | Returned r => r
    | Completed (this', effs) => (this', effs ++ [SetTimeout_update n])
    end.

(** Consecutive cycles, one per fetch outcome, with the host calls of
    each cycle. *)
Fixpoint cycles `{DOMPurify} (n : Z) (outcomes : list FetchOutcome) (this : t)
  : t * list (list Effect) :=
  match outcomes with
  | [] => (this, [])
  | o :: rest =>
      let (this1, effs) := updateAnnouncements n o this in
      let (this2, more) := cycles n rest this1 in
      (this2, effs :: more)
  end.

End HardenedPoller.

(* ===================================================================== *)
(** * Vocabulary of the statements *)
(* ===================================================================== *)

(** ** Shapes of strings *)

(** The text of a value that is a string. *)
Definition text_of (v : JSValue) : string :=
  match v with JStr s => s | _ => EmptyString end.

(** A value that has a string form: it is not an object with an own
    property [toString], nor an array that holds such an object at any
    depth. *)
Fixpoint stringifiable (v : JSValue) : bool :=
  match v with
  | JArr elems => forallb stringifiable elems
  | JObj props => negb (has_own "toString" props)
  | _ => true
  end.

Definition is_empty (s : string) : bool :=
  match s with EmptyString => true | _ => false end.

Fixpoint all_chars (p : ascii -> bool) (s : string) : bool :=
  match s with
  | EmptyString => true
  | String c rest => p c && all_chars p rest
  end.

(** A template describes strings of its own length: [d] stands for a
    decimal digit, [?] for any character that is not a line terminator,
    every other character for itself. *)
Definition tpl_char (t c : ascii) : bool :=
  if Ascii.eqb t "d" then Regex.digit c
  else if Ascii.eqb t "?" then Regex.any_char c
  else Ascii.eqb t c.

Fixpoint fits (tpl s : string) : bool :=
  match tpl, s with
  | EmptyString, EmptyString => true
  | String t tpl', String c s' => tpl_char t c && fits tpl' s'
  | _, _ => false
  end.

(** [s] starts with a part that fits [tpl] and the rest satisfies [k]. *)
Fixpoint fits_then (tpl s : string) (k : string -> bool) : bool :=
  match tpl with
  | EmptyString => k s
  | String t tpl' =>
      match s with
      | EmptyString => false
      | String c s' => tpl_char t c && fits_then tpl' s' k
      end
  end.

(** The pattern built from a template, followed by [tail]. *)
Fixpoint tpl_regex (tpl : string) (tail : Regex.regex) : Regex.regex :=
  match tpl with
  | EmptyString => tail
  | String t tpl' => Regex.Cat (Regex.Class (tpl_char t)) (tpl_regex tpl' tail)
  end.

(** The timestamp pattern as the specification words it:
    [YYYY-MM-DDThh:mm], optionally [:ss], optionally a fractional part,
    that is a dot and one or more digits. *)
Definition iso8601_like (s : string) : bool :=
  fits "dddd-dd-ddTdd:dd" s
  || fits "dddd-dd-ddTdd:dd:dd" s
  || (fits "dddd-dd-ddTdd:dd:dd." (substring 0 20 s)
      && (20 <? String.length s)%nat
      && all_chars Regex.digit (substring 20 (String.length s - 20) s)).

(** The same with the fractional part the code is written for: a dot and
    exactly three or exactly six digits. *)
Definition timestamp_shape (s : string) : bool :=
  fits "dddd-dd-ddTdd:dd" s
  || fits "dddd-dd-ddTdd:dd:dd" s
  || fits "dddd-dd-ddTdd:dd:dd.ddd" s
  || fits "dddd-dd-ddTdd:dd:dd.dddddd" s.

(** What the pattern of the source accepts: as [timestamp_shape], but any
    character that is not a line terminator may stand where the dot is. *)
Definition timestamp_accepted (s : string) : bool :=
  fits "dddd-dd-ddTdd:dd" s
  || fits "dddd-dd-ddTdd:dd:dd" s
  || fits "dddd-dd-ddTdd:dd:dd?ddd" s
  || fits "dddd-dd-ddTdd:dd:dd?dddddd" s.

(** The character after the seconds, when there is one, is a dot. *)
Definition dot_after_seconds (s : string) : bool :=
  match String.get 19 s with
  | Some c => Ascii.eqb c "."
  | None => true
  end.

(** [^[A-Za-z0-9_@.-]{1,32}$] *)
Definition username_valid (u : string) : bool :=
  (1 <=? String.length u)%nat && (String.length u <=? 32)%nat
  && all_chars username_char u.

(** ** Entities *)

(** Does [s] start with [p]? *)
Fixpoint starts_with (p s : string) : bool :=
  match p with
  | EmptyString => true
  | String a p' =>
      match s with
      | EmptyString => false
      | String b s' => Ascii.eqb a b && starts_with p' s'
      end
  end.

Definition starts_entity (s : string) : bool :=
  starts_with "&amp;" s || starts_with "&lt;" s
  || starts_with "&gt;" s || starts_with "&nbsp;" s.

(** Every ampersand of [s] starts one of the four entities. *)
Fixpoint ampersands_are_entities (s : string) : bool :=
  match s with
  | EmptyString => true
  | String c rest =>
      (if Ascii.eqb c "&" then starts_entity s else true)
      && ampersands_are_entities rest
  end.

(** Reading entities back, as an HTML parser does for these four. *)
Fixpoint unescape_fuel (fuel : nat) (s : string) : string :=
  match fuel with
  | O => s
  | S fuel' =>
      match s with
      | EmptyString => EmptyString
      | String c rest =>
          if starts_with "&amp;" s then String "&" (unescape_fuel fuel' (substring 5 (String.length s - 5) s))
          else if starts_with "&lt;" s then String "<" (unescape_fuel fuel' (substring 4 (String.length s - 4) s))
          else if starts_with "&gt;" s then String ">" (unescape_fuel fuel' (substring 4 (String.length s - 4) s))
          else if starts_with "&nbsp;" s then String NBSP (unescape_fuel fuel' (substring 6 (String.length s - 6) s))
          else String c (unescape_fuel fuel' rest)
      end
  end.

Definition unescape (s : string) : string := unescape_fuel (String.length s) s.

(** ** Parsing *)

(** [bdmessages] is an array of 1 to 16 elements. *)
Definition messages_shape_ok (bdmessages : JSValue) : bool :=
  match asArray bdmessages with
  | Some msgs => (1 <=? length msgs)%nat && (length msgs <=? 16)%nat
  | None => false
  end.

(** A result that is a value, a [ValidationError] or a [TypeError]. *)
Definition value_or_validation_or_type {A} (r : Result A) : bool :=
  match r with
  | inr _ => true
  | inl (ValidationError _) => true
  | inl (TypeError _) => true
  | inl _ => false
  end.

(** ** Rendering *)

(** The text of [MessageBlock.toHtml] before and after the rows. *)
Definition block_open (title : string) : string :=
  "<table class=" ++ dquote ++ "announcement-block" ++ dquote ++ ">" ++ nl
  ++ spaces 24 ++ "<theader>" ++ nl
  ++ spaces 28 ++ "<p class='announce-block-title'>" ++ title ++ "</p>" ++ nl
  ++ spaces 24 ++ "</theader>" ++ nl
  ++ spaces 24 ++ "<tbody>" ++ nl
  ++ spaces 28.

Definition block_close : string :=
  nl ++ spaces 24 ++ "</tbody>" ++ nl ++ spaces 20 ++ "</table>".

Definition is_row (html : string) : bool := starts_with "<tr><td class='announce-timestamp'>[" html.

(** ** Polling *)

(** A connectivity fault: the fetch rejects, or the response is not ok
    with a status that is to be retried. *)
Definition connectivity_fault (o : FetchOutcome) : bool :=
  match o with
  | Rejected => true
  | Response status _ _ => negb (ok status) && HardenedPoller.shouldRetry status
  end.

(** The delay after the fault number [k] (from 0) of a run of faults: six
    doubling backoff delays, then the base interval [n], and again. *)
Definition backoff_delay (n : Z) (k : nat) : Z :=
  if (k mod 7 <? 6)%nat then (10000 * 2 ^ Z.of_nat (k mod 7))%Z else n.

(** The service state after the fault number [k]. *)
Definition backoff_state (k : nat) : HardenedPoller.ServiceState :=
  if (k mod 7 <? 6)%nat then HardenedPoller.degraded else HardenedPoller.failed.

(** The value of [retryDelay] once [k] faults in a row have been handled. *)
Definition backoff_retryDelay (k : nat) : Z :=
  Z.min (10000 * 2 ^ Z.of_nat (k mod 7)) 600000.

(** The fields of the poller between two faults of a run, [k] faults in. *)
Definition in_backoff (k : nat) (this : HardenedPoller.t) : Prop :=
  HardenedPoller.initialRetryDelay this = 10000%Z
  /\ HardenedPoller.maxRetryDelay this = 600000%Z
  /\ HardenedPoller.retryDelay this = backoff_retryDelay k.

(** A command started in a state satisfying [P] ends in a state
    satisfying [Q], and every host call it makes satisfies [E]. *)
Definition triple {S} (P : S -> Prop) (c : Cmd S) (Q : S -> Prop) (E : Effect -> bool)
  : Prop :=
  forall s, P s -> Q (fst (c s)) /\ forallb E (snd (c s)) = true.

Definition notShowDialog (e : Effect) : bool := negb (isShowDialog e).

Definition anyEffect (e : Effect) : bool := true.

(** Nothing is unseen and [last_rendered] is [rendered]. *)
Definition hardened_seen (rendered : string) (this : HardenedPoller.t) : Prop :=
  HardenedPoller.newAnnouncement this = false
  /\ HardenedPoller.last_rendered this = rendered.

Definition simple_seen (rendered : string) (this : SimplePoller.t) : Prop :=
  SimplePoller.newAnnouncement this = false
  /\ SimplePoller.last_rendered this = rendered.

(** [last_rendered] is [rendered]. *)
Definition hardened_stored (rendered : string) (this : HardenedPoller.t) : Prop :=
  HardenedPoller.last_rendered this = rendered.

Definition simple_stored (rendered : string) (this : SimplePoller.t) : Prop :=
  SimplePoller.last_rendered this = rendered.

(** ** Inputs to evaluate with *)

Definition sample_message : JSValue :=
  JObj [("username", JStr "admin");
        ("timestamp", JStr "2024-01-01T10:00:00.123456");
        ("expires", JStr "1-00:00:00");
        ("level", JStr "warning");
        ("message", JStr "Maintenance tonight")].

Definition sample_payload (popup : bool) : JSValue :=
  JObj [("popup", JBool popup);
        ("timestamp", JStr "2024-01-01T10:00");
        ("blocks", JArr [JObj [("title", JStr "News");
                               ("messages", JArr [sample_message])]])].

(** A constructed message of the hardened revision. *)
Definition sample_Message : Hardened.Message.t :=
  {| Hardened.Message.username := "admin";
     Hardened.Message.timestamp := "2024-01-01T10:00:00.123456";
     Hardened.Message.expires := "1-00:00:00";
     Hardened.Message.level := "warning";
     Hardened.Message.message := "Maintenance tonight" |}.

(** The same message as the simple revision constructs it. *)
Definition simple_sample_Message : Simple.Message.t :=
  {| Simple.Message.username := "admin";
     Simple.Message.timestamp := "2024-01-01T10:00:00.123456";
     Simple.Message.expires := "1-00:00:00";
     Simple.Message.level := "warning";
     Simple.Message.message := "Maintenance tonight" |}.

(** Seven connectivity faults in a row. *)
Definition seven_faults : list FetchOutcome :=
  [Rejected;
   Response 503 "Service Unavailable" None;
   Response 401 "Unauthorized" None;
   Rejected;
   Response 500 "Internal Server Error" (Some JNull);
   Response 407 "Proxy Authentication Required" None;
   Rejected].

(** ** A sanitizer to evaluate the hardened revision with *)

(** A sanitizer to evaluate with.  It is not DOMPurify, which keeps the
    tags of its allow list: this one lets no markup through.  The
    theorems hold for every sanitizer; only examples and the theorems at
    concrete inputs use this one. *)
Definition escape_all : Hardened.DOMPurify :=
  {| Hardened.DOMPurify_sanitize := DOM.escape_string |}.

Unset Implicit Arguments.

(* ===================================================================== *)
(** * Vocabulary of the further properties *)
(* ===================================================================== *)

(** A character that HTML escaping leaves as it is. *)
Definition plain_char (c : ascii) : bool :=
  negb (Ascii.eqb c "&" || Ascii.eqb c "<" || Ascii.eqb c ">" || Ascii.eqb c NBSP).

(** Zero or more decimal digits, then a part that fits [tpl]. *)
Fixpoint digits_then (tpl s : string) : bool :=
  fits tpl s
  || match s with
     | EmptyString => false
     | String c rest => Regex.digit c && digits_then tpl rest
     end.

(** One or more decimal digits, then [-hh:mm:ss], each of [hh], [mm] and
    [ss] two digits of any value. *)
Definition expires_shape (s : string) : bool :=
  match s with
  | EmptyString => false
  | String c rest => Regex.digit c && digits_then "-dd:dd:dd" rest
  end.

(** A message text of 1 to 1024 characters. *)
Definition content_ok (m : string) : bool :=
  (1 <=? String.length m)%nat && (String.length m <=? 1024)%nat.

(** The five field checks of [Message] together. *)
Definition message_valid (username timestamp expires level message : JSValue) : bool :=
  string_and username username_valid
  && string_and timestamp timestamp_accepted
  && string_and expires expires_shape
  && includes levels level
  && string_and message content_ok.

(** A block title of 1 to 128 characters. *)
Definition title_ok (title : string) : bool :=
  (1 <=? String.length title)%nat && (String.length title <=? 128)%nat.

(** Between 1 and 16 messages. *)
Definition count_ok (n : nat) : bool := (1 <=? n)%nat && (n <=? 16)%nat.

(** ** Payloads *)

(** The result of a traced computation does not depend on the trace it
    starts on. *)
Definition trace_blind {A} (m : Traced A) : Prop :=
  forall t1 t2, fst (m t1) = fst (m t2).

(** A payload value that reads as a message passing the five checks. *)
Definition payload_message_valid (msg : JSValue) : bool :=
  match get msg f_username, get msg f_timestamp, get msg f_expires,
        get msg f_level, get msg f_message with
  | inr username, inr timestamp, inr expires, inr level, inr message =>
      message_valid username timestamp expires level message
  | _, _, _, _, _ => false
  end.

(** A payload value that reads as a block: 1 to 16 valid messages and a
    title of 1 to 128 characters. *)
Definition payload_block_valid (blockData : JSValue) : bool :=
  match get blockData f_messages, get blockData f_title with
  | inr (JArr msgs), inr title =>
      count_ok (length msgs) && forallb payload_message_valid msgs
      && string_and title title_ok
  | _, _ => false
  end.

(** A payload that reads as announcements: an array of valid blocks, a
    boolean [popup] and a [timestamp] that has a string form, which is
    all that is asked of it. *)
Definition payload_valid (jsonData : JSValue) : bool :=
  match get jsonData f_blocks, get jsonData f_popup, get jsonData f_timestamp with
  | inr (JArr blockDatas), inr (JBool _), inr timestamp =>
      forallb payload_block_valid blockDatas && stringifiable timestamp
  | _, _, _ => false
  end.

(** The message [m] of the hardened revision holds the fields of the
    payload value [msg]. *)
Definition message_mirrors `{Hardened.DOMPurify} (msg : JSValue) (m : Hardened.Message.t)
  : Prop :=
  exists us ts es ls ms,
    get msg f_username = inr (JStr us) /\ get msg f_timestamp = inr (JStr ts)
    /\ get msg f_expires = inr (JStr es) /\ get msg f_level = inr (JStr ls)
    /\ get msg f_message = inr (JStr ms)
    /\ Hardened.Message.username m = us
    /\ Hardened.Message.timestamp m = DOM.escape_string ts
    /\ Hardened.Message.expires m = es
    /\ Hardened.Message.level m = ls
    /\ Hardened.Message.message m = Hardened.sanitizeHtml ms.

(** The block [b] holds the title of the payload value [blockData],
    sanitized, and its messages, one for one and in order. *)
Definition block_mirrors `{Hardened.DOMPurify} (blockData : JSValue)
           (b : Hardened.MessageBlock.t) : Prop :=
  exists msgs ttl,
    get blockData f_messages = inr (JArr msgs)
    /\ get blockData f_title = inr (JStr ttl)
    /\ Hardened.MessageBlock.title b = Hardened.sanitizeHtml ttl
    /\ Forall2 message_mirrors msgs (Hardened.MessageBlock.messages b).

(** The six cells a level is rendered to. *)
Definition level_cells : list string :=
  ["<td class='announce-debug'>DEBUG</td>";
   "<td class='announce-info'>INFO</td>";
   "<td class='announce-notice'>NOTICE</td>";
   "<td class='announce-warning'>WARNING</td>";
   "<td class='announce-error'>ERROR</td>";
   "<td class='announce-critical'>CRITICAL</td>"].

(** ** Host calls of a cycle *)

(** The bodies of the dialogs shown. *)
Fixpoint dialogs (effs : list Effect) : list string :=
  match effs with
  | [] => []
  | ShowDialog body :: rest => body :: dialogs rest
  | _ :: rest => dialogs rest
  end.

(** The delays of the timers set by [showRecoveryNotification]. *)
Fixpoint recovery_timers (effs : list Effect) : list Z :=
  match effs with
  | [] => []
  | SetTimeout_revert ms :: rest => ms :: recovery_timers rest
  | _ :: rest => recovery_timers rest
  end.

(** How many times the status item is registered. *)
Fixpoint registrations (effs : list Effect) : nat :=
  match effs with
  | [] => 0
  | RegisterStatusItem :: rest => S (registrations rest)
  | _ :: rest => registrations rest
  end.

(** ** Runs of the pollers *)

(** Consecutive cycles of the simple poller, one per fetch outcome. *)
Fixpoint simple_cycles (n : Z) (outcomes : list FetchOutcome) (this : SimplePoller.t)
  : SimplePoller.t * list (list Effect) :=
  match outcomes with
  | [] => (this, [])
  | o :: rest =>
      let (this1, effs) := SimplePoller.updateAnnouncements n o this in
      let (this2, more) := simple_cycles n rest this1 in
      (this2, effs :: more)
  end.

(** The six delays of the backoff. *)
Definition backoff_delays : list Z := [10000; 20000; 40000; 80000; 160000; 320000]%Z.

(** The fields of the backoff as any run from the constructor keeps
    them. *)
Definition backoff_bounds (this : HardenedPoller.t) : Prop :=
  HardenedPoller.initialRetryDelay this = 10000%Z
  /\ HardenedPoller.maxRetryDelay this = 600000%Z
  /\ In (HardenedPoller.retryDelay this) (backoff_delays ++ [600000%Z]).

(** The service answers: an ok response with a valid payload, or a
    response that is not ok with a status that is not retried. *)
Definition service_answers (o : FetchOutcome) : bool :=
  match o with
  | Rejected => false
  | Response status _ json =>
      if ok status
      then match json with Some jsonData => payload_valid jsonData | None => false end
      else negb (HardenedPoller.shouldRetry status)
  end.

(** The [try] block of the simple revision throws: the fetch rejects, the
    body is not JSON, or the payload is not valid. *)
Definition simple_fault (o : FetchOutcome) : bool :=
  match o with
  | Rejected => true
  | Response _ _ None => true
  | Response _ _ (Some jsonData) => negb (payload_valid jsonData)
  end.

(** The button of the simple poller exists and has been disposed. *)
Definition button_disposed (this : SimplePoller.t) : bool :=
  match SimplePoller.openAnnouncementButton this with
  | Some b => SimplePoller.isDisposed b
  | None => false
  end.

(** There is unseen content once [rendered] has been compared with the
    stored rendering. *)
Definition unseen (rendered last_rendered : string) (newAnnouncement : bool) : bool :=
  negb (String.eqb rendered last_rendered) || newAnnouncement.

(** ** More inputs to evaluate with *)

(** A payload whose [timestamp] has no string form: an object with an
    own [toString] property. *)
Definition unprintable_payload : JSValue :=
  JObj [("popup", JBool true);
        ("timestamp", JObj [("toString", JNum "1")]);
        ("blocks", JArr [])].

(** A payload without blocks. *)
Definition empty_payload : JSValue :=
  JObj [("popup", JBool true);
        ("timestamp", JStr "2024-01-01T10:00");
        ("blocks", JArr [])].

(** The hardened poller after one connectivity fault. *)
Definition degraded_poller : HardenedPoller.t :=
  {| HardenedPoller.openAnnouncementButton :=
       Some {| HardenedPoller.textContent := TextRetrying;
               HardenedPoller.color := Orange;
               HardenedPoller.title := TipRetrying 10000 |};
     HardenedPoller.last_rendered := EmptyString;
     HardenedPoller.newAnnouncement := false;
     HardenedPoller.retryDelay := 20000;
     HardenedPoller.maxRetryDelay := 600000;
     HardenedPoller.initialRetryDelay := 10000;
     HardenedPoller.serviceState := HardenedPoller.degraded |}.

(** The simple poller with a button that shows unseen content. *)
Definition simple_poller_with_button : SimplePoller.t :=
  {| SimplePoller.openAnnouncementButton :=
       Some {| SimplePoller.textContent := TextClickForAnnouncements;
               SimplePoller.isDisposed := false |};
     SimplePoller.last_rendered := "<div>old</div>";
     SimplePoller.newAnnouncement := true |}.

(** What the sample payload parses to. *)
Definition sample_data (popup : bool) : Hardened.AnnouncementsData.t :=
  {| Hardened.AnnouncementsData.popup := popup;
     Hardened.AnnouncementsData.timestamp := "2024-01-01T10:00";
     Hardened.AnnouncementsData.blocks :=
       [{| Hardened.MessageBlock.title := "News";
           Hardened.MessageBlock.messages := [sample_Message] |}] |}.

Definition simple_sample_data (popup : bool) : Simple.AnnouncementsData.t :=
  {| Simple.AnnouncementsData.popup := popup;
     Simple.AnnouncementsData.timestamp := "2024-01-01T10:00";
     Simple.AnnouncementsData.blocks :=
       [{| Simple.MessageBlock.title := "News";
           Simple.MessageBlock.messages := [simple_sample_Message] |}] |}.

(* ===================================================================== *)
(** * Properties of the pattern matcher *)
(* ===================================================================== *)

Module RegexFacts.
Import Regex.

Lemma append_is_empty (s1 s2 : string) :
  (s1 ++ s2)%string = EmptyString -> s1 = EmptyString /\ s2 = EmptyString.
Proof. destruct s1; simpl; [auto | discriminate]. Qed.

Lemma append_assoc (s1 s2 s3 : string) :
  ((s1 ++ s2) ++ s3)%string = (s1 ++ (s2 ++ s3))%string.
Proof. induction s1 as [|c s1 IH]; simpl; [reflexivity | now rewrite IH]. Qed.

(** *** The matcher decides the language of the pattern *)

Lemma lang_Cat_inv (r1 r2 : regex) (s : string) :
  lang (Cat r1 r2) s ->
  exists s1 s2, s = (s1 ++ s2)%string /\ lang r1 s1 /\ lang r2 s2.
Proof. intros H. inversion H; subst. eauto. Qed.

Lemma nullable_lang (r : regex) : nullable r = true <-> lang r EmptyString.
Proof.
  induction r as [| |p|r1 IH1 r2 IH2|r1 IH1 r2 IH2|r IH]; simpl.
  - split; [discriminate | intros H; inversion H].
  - split; [constructor | reflexivity].
  - split; [discriminate | intros H; inversion H].
  - rewrite andb_true_iff, IH1, IH2. split.
    + intros [H1 H2]. change EmptyString with (EmptyString ++ EmptyString)%string.
      now constructor.
    + intros H. apply lang_Cat_inv in H as (s1 & s2 & E & H1 & H2).
      symmetry in E. apply append_is_empty in E as [-> ->]. now split.
  - rewrite orb_true_iff, IH1, IH2. split.
    + intros [H|H]; [now apply L_AltL | now apply L_AltR].
    + intros H. inversion H; subst; [now left | now right].
  - split; [constructor | reflexivity].
Qed.

(** A starred pattern on a string with a first character: the first round
    can be taken to consume that character. *)
Lemma star_head (r : regex) (s : string) :
  lang (Star r) s ->
  forall c rest, s = String c rest ->
  exists s1 s2, rest = (s1 ++ s2)%string /\ lang r (String c s1) /\ lang (Star r) s2.
Proof.
  intros H. remember (Star r) as sr eqn:E.
  induction H as [| | | | | r'|r' s1 s2 H1 _ H2 IH2]; try discriminate.
  injection E as ->. intros c rest Hs.
  destruct s1 as [|d s1]; simpl in Hs.
  - now apply IH2.
  - injection Hs as -> <-. now exists s1, s2.
Qed.

Lemma deriv_lang (r : regex) : forall c s, lang (deriv c r) s <-> lang r (String c s).
Proof.
  induction r as [| |p|r1 IH1 r2 IH2|r1 IH1 r2 IH2|r IH]; intros c s; simpl.
  - split; intros H; inversion H.
  - split; intros H; inversion H.
  - destruct (p c) eqn:Hp; split; intros H.
    + inversion H; subst. now constructor.
    + inversion H; subst. constructor.
    + inversion H.
    + inversion H; subst. congruence.
  - assert (Hcat : lang (Cat (deriv c r1) r2) s ->
                   lang (Cat r1 r2) (String c s)).
    { intros H. apply lang_Cat_inv in H as (s1 & s2 & -> & H1 & H2).
      apply IH1 in H1. change (String c (s1 ++ s2)) with (String c s1 ++ s2)%string.
      now constructor. }
    assert (Hinv : lang (Cat r1 r2) (String c s) ->
                   lang (Cat (deriv c r1) r2) s
                   \/ (lang r1 EmptyString /\ lang (deriv c r2) s)).
    { intros H. apply lang_Cat_inv in H as (s1 & s2 & E & H1 & H2).
      destruct s1 as [|d s1]; simpl in E.
      - right. subst s2. split; [assumption | now apply IH2].
      - injection E as <- ->. left. constructor; [now apply IH1 | assumption]. }
    destruct (nullable r1) eqn:Hn.
    + split.
      * intros H. inversion H; subst; [now apply Hcat |].
        change (String c s) with (EmptyString ++ String c s)%string.
        constructor; [now apply nullable_lang | now apply IH2].
      * intros H. destruct (Hinv H) as [H'|[_ H']]; [now apply L_AltL | now apply L_AltR].
    + split; [exact Hcat |].
      intros H. destruct (Hinv H) as [H'|[H' _]]; [assumption |].
      apply nullable_lang in H'. congruence.
  - split; intros H; inversion H; subst.
    + apply L_AltL. now apply IH1.
    + apply L_AltR. now apply IH2.
    + apply L_AltL. now apply IH1.
    + apply L_AltR. now apply IH2.
  - split.
    + intros H. apply lang_Cat_inv in H as (s1 & s2 & -> & H1 & H2).
      change (String c (s1 ++ s2)) with (String c s1 ++ s2)%string.
      constructor; [now apply IH | assumption].
    + intros H. destruct (star_head r _ H c s eq_refl) as (s1 & s2 & -> & H1 & H2).
      constructor; [now apply IH | assumption].
Qed.

(** [matches] is membership in the language of the pattern. *)
Lemma matches_lang (s : string) : forall r, matches r s = true <-> lang r s.
Proof.
  induction s as [|c s IH]; intros r; simpl.
  - apply nullable_lang.
  - rewrite IH. apply deriv_lang.
Qed.

(** *** Equations to compute with *)

Lemma matches_Void (s : string) : matches Void s = false.
Proof. induction s; simpl; auto. Qed.

Lemma matches_Eps (s : string) : matches Eps s = is_empty s.
Proof. destruct s; simpl; [reflexivity | apply matches_Void]. Qed.

Lemma matches_Alt (s : string) :
  forall r1 r2, matches (Alt r1 r2) s = matches r1 s || matches r2 s.
Proof. induction s as [|c s IH]; intros r1 r2; simpl; [reflexivity | apply IH]. Qed.

Lemma matches_Cat_Void (s : string) : forall r, matches (Cat Void r) s = false.
Proof. induction s as [|c s IH]; intros r; simpl; [reflexivity | apply IH]. Qed.

Lemma matches_Cat_Eps_l (s : string) : forall r, matches (Cat Eps r) s = matches r s.
Proof.
  destruct s as [|c s]; intros r; simpl; [reflexivity |].
  now rewrite matches_Alt, matches_Cat_Void.
Qed.

Lemma matches_Cat_Eps_r (s : string) : forall r, matches (Cat r Eps) s = matches r s.
Proof.
  induction s as [|c s IH]; intros r; simpl.
  - apply andb_true_r.
  - destruct (nullable r).
    + now rewrite matches_Alt, IH, matches_Void, orb_false_r.
    + apply IH.
Qed.

Lemma matches_Cat_Class (p : ascii -> bool) (r : regex) (s : string) :
  matches (Cat (Class p) r) s =
  match s with
  | EmptyString => false
  | String c rest => p c && matches r rest
  end.
Proof.
  destruct s as [|c s]; simpl; [reflexivity |].
  destruct (p c); simpl; [apply matches_Cat_Eps_l | apply matches_Cat_Void].
Qed.

Lemma matches_Opt (r : regex) (s : string) :
  matches (Opt r) s = matches r s || is_empty s.
Proof. unfold Opt. now rewrite matches_Alt, matches_Eps. Qed.

Lemma matches_Star_Class (p : ascii -> bool) (s : string) :
  matches (Star (Class p)) s = all_chars p s.
Proof.
  induction s as [|c s IH]; simpl; [reflexivity |].
  destruct (p c); simpl.
  - now rewrite matches_Cat_Eps_l.
  - apply matches_Cat_Void.
Qed.

Lemma matches_Plus_Class (p : ascii -> bool) (s : string) :
  matches (Plus (Class p)) s = negb (is_empty s) && all_chars p s.
Proof.
  unfold Plus. rewrite matches_Cat_Class. destruct s as [|c s]; simpl; [reflexivity |].
  now rewrite matches_Star_Class.
Qed.

Lemma matches_tpl_regex (tpl : string) (tail : regex) :
  forall s, matches (tpl_regex tpl tail) s = fits_then tpl s (matches tail).
Proof.
  induction tpl as [|t tpl IH]; intros s; simpl; [reflexivity |].
  rewrite matches_Cat_Class. destruct s as [|c s]; [reflexivity |]. now rewrite IH.
Qed.

End RegexFacts.

(* ===================================================================== *)
(** * What the field patterns accept *)
(* ===================================================================== *)

Module PatternFacts.
Import Regex RegexFacts.

Lemma fits_then_ext (tpl : string) (k1 k2 : string -> bool) :
  (forall r, k1 r = k2 r) -> forall s, fits_then tpl s k1 = fits_then tpl s k2.
Proof.
  intros Hk. induction tpl as [|t tpl IH]; intros s; simpl; [apply Hk |].
  destruct s as [|c s]; [reflexivity | now rewrite IH].
Qed.

Lemma fits_then_orb (tpl : string) (k1 k2 : string -> bool) :
  forall s, fits_then tpl s (fun r => k1 r || k2 r)
            = fits_then tpl s k1 || fits_then tpl s k2.
Proof.
  induction tpl as [|t tpl IH]; intros s; simpl; [reflexivity |].
  destruct s as [|c s]; [reflexivity |]. rewrite IH.
  destruct (tpl_char t c); reflexivity.
Qed.

Lemma fits_then_append (t1 t2 : string) (k : string -> bool) :
  forall s, fits_then t1 s (fun r => fits_then t2 r k) = fits_then (t1 ++ t2) s k.
Proof.
  induction t1 as [|t t1 IH]; intros s; simpl; [reflexivity |].
  destruct s as [|c s]; [reflexivity | now rewrite IH].
Qed.

Lemma fits_then_is_empty (tpl : string) :
  forall s, fits_then tpl s is_empty = fits tpl s.
Proof.
  induction tpl as [|t tpl IH]; intros s; simpl.
  - destruct s; reflexivity.
  - destruct s as [|c s]; [reflexivity | now rewrite IH].
Qed.

(** A template followed by an optional group, at the end of a pattern. *)
Lemma fits_then_optional (t1 t2 : string) (inner : regex) (s : string) :
  fits_then t1 s (matches (tpl_regex t2 (Cat (Opt inner) Eps)))
  = fits_then (t1 ++ t2) s (matches inner) || fits (t1 ++ t2) s.
Proof.
  rewrite <- fits_then_is_empty, <- fits_then_orb, <- fits_then_append.
  apply fits_then_ext. intros r. rewrite matches_tpl_regex.
  apply fits_then_ext. intros r'. now rewrite matches_Cat_Eps_r, matches_Opt.
Qed.

Lemma fits_then_last (t1 t2 : string) (s : string) :
  fits_then t1 s (matches (tpl_regex t2 Eps)) = fits (t1 ++ t2) s.
Proof.
  rewrite <- fits_then_is_empty, <- fits_then_append.
  apply fits_then_ext. intros r. rewrite matches_tpl_regex.
  apply fits_then_ext. intros r'. apply matches_Eps.
Qed.

(** The timestamp pattern of the source, read as templates. *)
Lemma re_timestamp_templates :
  re_timestamp =
  tpl_regex "dddd-dd-ddTdd:dd"
    (Cat (Opt (tpl_regex ":dd"
      (Cat (Opt (tpl_regex "?ddd"
        (Cat (Opt (tpl_regex "ddd" Eps)) Eps))) Eps))) Eps).
Proof. reflexivity. Qed.

(** The timestamp pattern accepts exactly [timestamp_accepted]. *)
Lemma test_timestamp (s : string) :
  RegExp_test re_timestamp s = timestamp_accepted s.
Proof.
  unfold RegExp_test, timestamp_accepted. rewrite re_timestamp_templates.
  change (matches (tpl_regex "dddd-dd-ddTdd:dd" ?tail) s)
    with (fits_then EmptyString s (matches (tpl_regex "dddd-dd-ddTdd:dd" tail))).
  rewrite fits_then_optional, fits_then_optional, fits_then_optional, fits_then_last.
  simpl append.
  destruct (fits "dddd-dd-ddTdd:dd" s), (fits "dddd-dd-ddTdd:dd:dd" s),
    (fits "dddd-dd-ddTdd:dd:dd?ddd" s), (fits "dddd-dd-ddTdd:dd:dd?dddddd" s);
    reflexivity.
Qed.

Lemma fits_dot_any (t1 t2 : string) :
  forall s, fits (t1 ++ String "." t2) s = true -> fits (t1 ++ String "?" t2) s = true.
Proof.
  induction t1 as [|t t1 IH]; intros [|c s]; simpl; try discriminate.
  - rewrite !andb_true_iff. intros [Hc Ht]. split; [| exact Ht].
    change (tpl_char "." c) with (Ascii.eqb "." c) in Hc.
    apply Ascii.eqb_eq in Hc. subst c. reflexivity.
  - rewrite !andb_true_iff. intros [Hc Ht]. split; [exact Hc | now apply IH].
Qed.

Lemma fits_any_dot (t1 t2 : string) :
  forall s, fits (t1 ++ String "?" t2) s = true ->
            String.get (String.length t1) s = Some "."%char ->
            fits (t1 ++ String "." t2) s = true.
Proof.
  induction t1 as [|t t1 IH]; intros [|c s]; simpl; try discriminate.
  - rewrite !andb_true_iff. intros [_ Ht] Hc. injection Hc as ->. now split.
  - rewrite !andb_true_iff. intros [Hc Ht] Hg. split; [exact Hc | now apply IH].
Qed.

(** Every string of the intended shape is accepted. *)
Lemma shape_accepted (s : string) :
  timestamp_shape s = true -> timestamp_accepted s = true.
Proof.
  unfold timestamp_shape, timestamp_accepted. rewrite !orb_true_iff.
  intros [[[H|H]|H]|H].
  - left; left; left. exact H.
  - left; left; right. exact H.
  - left; right. exact (fits_dot_any "dddd-dd-ddTdd:dd:dd" "ddd" s H).
  - right. exact (fits_dot_any "dddd-dd-ddTdd:dd:dd" "dddddd" s H).
Qed.

Lemma fits_length (tpl : string) :
  forall s, fits tpl s = true -> String.length s = String.length tpl.
Proof.
  induction tpl as [|t tpl IH]; intros [|c s]; simpl; try discriminate; [reflexivity |].
  rewrite andb_true_iff. intros [_ H]. now rewrite (IH _ H).
Qed.

Lemma get_some_length (s : string) :
  forall n, (n < String.length s)%nat -> exists c, String.get n s = Some c.
Proof.
  induction s as [|c s IH]; intros n Hn; simpl in *; [lia |].
  destruct n as [|n]; [now exists c |]. apply IH. lia.
Qed.

(** An accepted string with a dot after the seconds has the intended
    shape. *)
Lemma accepted_shape (s : string) :
  timestamp_accepted s = true -> dot_after_seconds s = true -> timestamp_shape s = true.
Proof.
  unfold timestamp_shape, timestamp_accepted, dot_after_seconds.
  rewrite !orb_true_iff. intros [[[H|H]|H]|H] Hdot.
  - left; left; left. exact H.
  - left; left; right. exact H.
  - left; right. apply (fits_any_dot "dddd-dd-ddTdd:dd:dd" "ddd"); [exact H |].
    simpl String.length. destruct (@get_some_length s 19) as [c Hc].
    { rewrite (fits_length _ _ H). simpl. lia. }
    rewrite Hc in *. apply Ascii.eqb_eq in Hdot. now subst c.
  - right. apply (fits_any_dot "dddd-dd-ddTdd:dd:dd" "dddddd"); [exact H |].
    simpl String.length. destruct (@get_some_length s 19) as [c Hc].
    { rewrite (fits_length _ _ H). simpl. lia. }
    rewrite Hc in *. apply Ascii.eqb_eq in Hdot. now subst c.
Qed.

Lemma fits_split (t1 t2 : string) :
  forall s, fits (t1 ++ t2) s = true ->
            fits t1 (substring 0 (String.length t1) s) = true
            /\ fits t2 (substring (String.length t1)
                                  (String.length s - String.length t1) s) = true.
Proof.
  induction t1 as [|t t1 IH]; intros s Hfit.
  - cbn [String.length append] in *. rewrite Nat.sub_0_r.
    split; [now destruct s |].
    replace (substring 0 (String.length s) s) with s; [exact Hfit |].
    clear. induction s as [|c s IHs]; cbn; [reflexivity | now rewrite <- IHs].
  - destruct s as [|c s]; [discriminate |].
    cbn [append fits] in Hfit. apply andb_true_iff in Hfit as [Hc Hrest].
    destruct (IH s Hrest) as [H1 H2].
    cbn [String.length substring fits Nat.sub]. rewrite Hc, H1. now split.
Qed.

Lemma fits_digits (n : nat) (tpl s : string) :
  tpl = String.concat EmptyString (repeat "d" n) ->
  fits tpl s = true -> all_chars Regex.digit s = true.
Proof.
  intros ->. revert s. induction n as [|n IH]; intros [|c s]; cbn; try discriminate.
  - reflexivity.
  - destruct n; discriminate.
  - intros Hfit. destruct n as [|n].
    + cbn in Hfit. destruct s; [| rewrite andb_false_r in Hfit; discriminate].
      rewrite andb_true_r in Hfit. cbn. now rewrite Hfit.
    + cbn in Hfit. apply andb_true_iff in Hfit as [Hc Hs].
      change (tpl_char "d" c) with (Regex.digit c) in Hc. rewrite Hc.
      apply IH. exact Hs.
Qed.

(** The intended shape is a case of the shape the specification words. *)
Lemma shape_is_iso8601_like (s : string) :
  timestamp_shape s = true -> iso8601_like s = true.
Proof.
  unfold timestamp_shape, iso8601_like. rewrite !orb_true_iff.
  intros [[[H|H]|H]|H].
  - left; left. exact H.
  - left; right. exact H.
  - right. destruct (fits_split "dddd-dd-ddTdd:dd:dd." "ddd" s H) as [H1 H2].
    rewrite (fits_length _ _ H) in *. cbn [String.length Nat.sub] in *.
    rewrite H1. rewrite (fits_digits 3 "ddd" _ eq_refl H2). reflexivity.
  - right. destruct (fits_split "dddd-dd-ddTdd:dd:dd." "dddddd" s H) as [H1 H2].
    rewrite (fits_length _ _ H) in *. cbn [String.length Nat.sub] in *.
    rewrite H1. rewrite (fits_digits 6 "dddddd" _ eq_refl H2). reflexivity.
Qed.

(** Strings of the shape as the specification words it, and not. *)
Example iso8601_like_examples :
  iso8601_like "2024-01-01T10:00" = true
  /\ iso8601_like "2024-01-01T10:00:59" = true
  /\ iso8601_like "2024-01-01T10:00:59.5" = true
  /\ iso8601_like "2024-01-01T10:00:59.123456" = true
  /\ iso8601_like "2024-01-01T10:00:59." = false
  /\ iso8601_like "2024-01-01T10:00.5" = false
  /\ iso8601_like "2024-01-01 10:00" = false
  /\ iso8601_like "2024-01-01T10:00:59x123" = false.
Proof. repeat split. Qed.

(** The username pattern together with the two length tests. *)
Lemma test_username (u : string) :
  (0 <? String.length u)%nat && (String.length u <=? 32)%nat
  && RegExp_test re_username u = username_valid u.
Proof.
  unfold RegExp_test, re_username, username_valid. rewrite matches_Plus_Class.
  destruct u as [|c u]; [reflexivity |]. reflexivity.
Qed.

Lemma all_chars_occurs (p : ascii -> bool) (c : ascii) :
  forall s, all_chars p s = true -> occurs c s = true -> p c = true.
Proof.
  induction s as [|d s IH]; simpl; [discriminate |].
  rewrite andb_true_iff, orb_true_iff. intros [Hd Hs] [Hc|Hc].
  - apply Ascii.eqb_eq in Hc. now subst.
  - now apply IH.
Qed.

Lemma occurs_all_chars (p : ascii -> bool) :
  forall s, (forall c, occurs c s = true -> p c = true) -> all_chars p s = true.
Proof.
  induction s as [|d s IH]; simpl; intros H; [reflexivity |].
  rewrite andb_true_iff. split.
  - apply H. now rewrite Ascii.eqb_refl.
  - apply IH. intros c Hc. apply H. now rewrite Hc, orb_true_r.
Qed.

End PatternFacts.

(* ===================================================================== *)
(** * The plain-text sanitizer *)
(* ===================================================================== *)

Lemma occurs_append (c : ascii) (s1 s2 : string) :
  occurs c (s1 ++ s2) = occurs c s1 || occurs c s2.
Proof.
  induction s1 as [|d s1 IH]; simpl; [reflexivity |].
  now rewrite IH, orb_assoc.
Qed.

(** The hardened [escapeHtml] is the escaping of the HTML serialiser. *)
Lemma hardened_escapeHtml_eq (html : string) :
  Hardened.escapeHtml html = DOM.escape_string html.
Proof. reflexivity. Qed.

(** The simple [escapeHtml] hands its argument back. *)
Lemma simple_escapeHtml_eq (html : string) : Simple.escapeHtml html = html.
Proof. reflexivity. Qed.

(** The cases of [DOM.escape_char]. *)
Lemma escape_char_cases (c : ascii) :
  (c = "&"%char /\ DOM.escape_char c = "&amp;")
  \/ (c = NBSP /\ DOM.escape_char c = "&nbsp;")
  \/ (c = "<"%char /\ DOM.escape_char c = "&lt;")
  \/ (c = ">"%char /\ DOM.escape_char c = "&gt;")
  \/ (Ascii.eqb c "&" = false /\ Ascii.eqb c "<" = false /\ Ascii.eqb c ">" = false
      /\ Ascii.eqb c NBSP = false /\ DOM.escape_char c = String c EmptyString).
Proof.
  unfold DOM.escape_char.
  destruct (Ascii.eqb c "&") eqn:E1; [apply Ascii.eqb_eq in E1; subst; auto |].
  destruct (Ascii.eqb c NBSP) eqn:E2; [apply Ascii.eqb_eq in E2; subst; auto |].
  destruct (Ascii.eqb c "<") eqn:E3; [apply Ascii.eqb_eq in E3; subst; auto 6 |].
  destruct (Ascii.eqb c ">") eqn:E4; [apply Ascii.eqb_eq in E4; subst; auto 6 |].
  repeat right. auto.
Qed.

(** X1.  Whatever its argument, the output of the hardened [escapeHtml]
    holds no angle bracket: no tag can come out of it. *)
Lemma hardened_escapeHtml_no_angle (html : string) :
  occurs "<" (Hardened.escapeHtml html) = false
  /\ occurs ">" (Hardened.escapeHtml html) = false.
Proof.
  rewrite hardened_escapeHtml_eq.
  induction html as [|c s [IHlt IHgt]]; simpl; [split; reflexivity |].
  rewrite !occurs_append, IHlt, IHgt, !orb_false_r.
  destruct (escape_char_cases c)
    as [[-> ->]|[[-> ->]|[[-> ->]|[[-> ->]|(_ & Hlt & Hgt & _ & ->)]]]];
    simpl; try (split; reflexivity).
  now rewrite Hlt, Hgt.
Qed.

(** X2.  Every ampersand of the output of the hardened [escapeHtml]
    starts one of the entities [&amp;], [&lt;], [&gt;] and [&nbsp;]. *)
Lemma hardened_escapeHtml_entities (html : string) :
  ampersands_are_entities (Hardened.escapeHtml html) = true.
Proof.
  rewrite hardened_escapeHtml_eq.
  induction html as [|c s IH]; simpl; [reflexivity |].
  destruct (escape_char_cases c)
    as [[-> ->]|[[-> ->]|[[-> ->]|[[-> ->]|(Hamp & _ & _ & _ & ->)]]]];
    simpl; try exact IH.
  now rewrite Hamp, IH.
Qed.

Lemma substring_all (s : string) : substring 0 (String.length s) s = s.
Proof. induction s as [|c s IH]; simpl; [reflexivity | now rewrite IH]. Qed.

Lemma length_append (s1 s2 : string) :
  String.length (s1 ++ s2) = (String.length s1 + String.length s2)%nat.
Proof. induction s1 as [|c s1 IH]; simpl; [reflexivity | now rewrite IH]. Qed.

Lemma unescape_escape_fuel (s : string) :
  forall fuel, (String.length (DOM.escape_string s) <= fuel)%nat ->
               unescape_fuel fuel (DOM.escape_string s) = s.
Proof.
  induction s as [|c s IH]; intros fuel Hfuel.
  - destruct fuel; reflexivity.
  - simpl in Hfuel |- *. rewrite length_append in Hfuel.
    destruct (escape_char_cases c)
      as [[-> E]|[[-> E]|[[-> E]|[[-> E]|(Hamp & _ & _ & _ & E)]]]];
      rewrite E in Hfuel |- *; simpl in Hfuel;
      (destruct fuel as [|fuel]; [lia |]).
    + simpl. rewrite Nat.sub_0_r, substring_all. f_equal. apply IH. lia.
    + simpl. rewrite Nat.sub_0_r, substring_all. f_equal. apply IH. lia.
    + simpl. rewrite Nat.sub_0_r, substring_all. f_equal. apply IH. lia.
    + simpl. rewrite Nat.sub_0_r, substring_all. f_equal. apply IH. lia.
    + assert (Hc : Ascii.eqb "&" c = false) by (now rewrite Ascii.eqb_sym).
      cbn [append unescape_fuel starts_with]. rewrite !Hc. cbn [andb].
      f_equal. apply IH. lia.
Qed.

(** X3.  The hardened [escapeHtml] loses nothing: reading the four
    entities back in its output gives the text that was escaped. *)
Lemma hardened_escapeHtml_lossless (html : string) :
  unescape (Hardened.escapeHtml html) = html.
Proof.
  rewrite hardened_escapeHtml_eq. unfold unescape.
  now apply unescape_escape_fuel.
Qed.

(** C1 (simple revision): [escapeHtml] reads the text node back with
    [innerText], which escapes nothing: a script element comes out as it
    went in, angle brackets included, and a message with such a text is
    constructed and rendered with the element in it. *)
Theorem simple_escapeHtml_keeps_markup :
  Simple.escapeHtml "<script>alert(1)</script>" = "<script>alert(1)</script>"
  /\ occurs "<" (Simple.escapeHtml "<script>alert(1)</script>") = true
  /\ occurs ">" (Simple.escapeHtml "<script>alert(1)</script>") = true
  /\ match Simple.Message.new (JStr "admin") (JStr "2024-01-01T10:00")
                               (JStr "1-00:00:00") (JStr "info")
                               (JStr "<script>alert(1)</script>") with
     | inr m => Simple.Message.fmtMessage m
     | inl _ => EmptyString
     end = "<td class='announce-text'><script>alert(1)</script></td>".
Proof. repeat split. Qed.

(** The same input through the hardened [escapeHtml]. *)
Example hardened_escapeHtml_script :
  Hardened.escapeHtml "<script>alert(1)</script>"
  = "&lt;script&gt;alert(1)&lt;/script&gt;".
Proof. reflexivity. Qed.

(* ===================================================================== *)
(** * Conversion to a string *)
(* ===================================================================== *)

(** Induction on a value, with the elements of an array. *)
Lemma JSValue_nested_ind (P : JSValue -> Prop) :
  P JUndefined -> P JNull -> (forall b, P (JBool b)) -> (forall repr, P (JNum repr)) ->
  (forall s, P (JStr s)) ->
  (forall elems, Forall P elems -> P (JArr elems)) ->
  (forall props, P (JObj props)) ->
  forall v, P v.
Proof.
  intros Hu Hn Hb Hnum Hs Harr Hobj. fix IH 1.
  intros [| |b|repr|s|elems|props].
  - exact Hu.
  - exact Hn.
  - apply Hb.
  - apply Hnum.
  - apply Hs.
  - apply Harr. induction elems as [|e rest IHrest]; constructor; [apply IH | exact IHrest].
  - apply Hobj.
Qed.

(** A conversion throws nothing but a [TypeError]. *)
Lemma ToString_faults (v : JSValue) : value_or_validation_or_type (ToString v) = true.
Proof.
  induction v as [| | [|] | repr | s | elems IH | props] using JSValue_nested_ind;
    try reflexivity.
  - cbn [ToString].
    assert (Hparts : value_or_validation_or_type (join_parts ToString elems) = true).
    { induction IH as [|e rest He _ IHrest]; [reflexivity |].
      cbn [join_parts].
      destruct e; cbn [and_then];
        try (now destruct (join_parts ToString rest));
        match goal with
        | |- context [ToString ?x] => destruct (ToString x) as [ex|part]
        end; cbn [and_then]; solve [exact He | now destruct (join_parts ToString rest)]. }
    now destruct (join_parts ToString elems).
  - cbn [ToString]. now destruct (has_own "toString" props).
Qed.

(** The values that have a string form are those that [stringifiable]
    describes. *)
Lemma ToString_isOk (v : JSValue) : isOk (ToString v) = stringifiable v.
Proof.
  induction v as [| | [|] | repr | s | elems IH | props] using JSValue_nested_ind;
    try reflexivity.
  - cbn [ToString stringifiable].
    assert (Hparts : isOk (join_parts ToString elems) = forallb stringifiable elems).
    { induction IH as [|e rest He _ IHrest]; [reflexivity |].
      cbn [join_parts forallb]. rewrite <- He, <- IHrest.
      destruct e; cbn [and_then ToString isOk andb];
        try (now destruct (join_parts ToString rest));
        match goal with
        | |- context [and_then ?r _] => destruct r as [ex|part]
        end; cbn [and_then isOk andb];
        solve [reflexivity | now destruct (join_parts ToString rest)]. }
    rewrite <- Hparts. now destruct (join_parts ToString elems).
  - cbn [ToString stringifiable]. now destruct (has_own "toString" props).
Qed.

(** The plain objects, the arrays of scalars and the scalars convert; an
    object that carries a [toString] property does not, alone or in an
    array. *)
Example ToString_examples :
  ToString (JObj [("a", JNum "1")]) = inr "[object Object]"
  /\ ToString (JArr [JNum "1"; JNull; JArr [JStr "a"; JBool true]]) = inr "1,,a,true"
  /\ ToString (JObj [("toString", JNum "1")])
     = inl (TypeError "Cannot convert object to primitive value")
  /\ ToString (JArr [JStr "a"; JObj [("toString", JNull)]])
     = inl (TypeError "Cannot convert object to primitive value").
Proof. repeat split. Qed.

(* ===================================================================== *)
(** * The constructors once the checks have passed *)
(* ===================================================================== *)

(** The fields that reach the conversions of [Message] are strings, so
    no conversion throws there. *)
Lemma hardened_new_eq `{Hardened.DOMPurify}
      (username timestamp expires level message : JSValue) :
  Hardened.Message.new username timestamp expires level message
  = if negb (string_and username (fun u =>
               (0 <? String.length u)%nat && (String.length u <=? 32)%nat
               && RegExp_test re_username u))
    then inl (ValidationError "Bad message username.")
    else if negb (string_and timestamp (RegExp_test re_timestamp))
    then inl (ValidationError "Bad message timestamp.")
    else if negb (string_and expires (RegExp_test re_expires))
    then inl (ValidationError "Bad expires time.")
    else if negb (includes levels level)
    then inl (ValidationError "Bad level setting.")
    else if negb (string_and message (fun m =>
               (0 <? String.length m)%nat && (String.length m <=? 1024)%nat))
    then inl (ValidationError "Bad message content.")
    else inr {| Hardened.Message.username := Hardened.escapeHtml (text_of username);
                Hardened.Message.timestamp := Hardened.escapeHtml (text_of timestamp);
                Hardened.Message.expires := Hardened.escapeHtml (text_of expires);
                Hardened.Message.level := Hardened.escapeHtml (text_of level);
                Hardened.Message.message := Hardened.sanitizeHtml (text_of message) |}.
Proof.
  unfold Hardened.Message.new.
  destruct username as [| | | |u| |]; try reflexivity. cbn [string_and].
  destruct (negb _); [reflexivity |].
  destruct timestamp as [| | | |t| |]; try reflexivity. cbn [string_and].
  destruct (negb _); [reflexivity |].
  destruct expires as [| | | |e| |]; try reflexivity. cbn [string_and].
  destruct (negb _); [reflexivity |].
  destruct level as [| | | |l| |]; try reflexivity. cbn [includes].
  destruct (negb _); [reflexivity |].
  destruct message as [| | | |m| |]; reflexivity.
Qed.

Lemma simple_new_eq (username timestamp expires level message : JSValue) :
  Simple.Message.new username timestamp expires level message
  = if negb (string_and username (fun u =>
               (0 <? String.length u)%nat && (String.length u <=? 32)%nat
               && RegExp_test re_username u))
    then inl (Error "Bad message username.")
    else if negb (string_and timestamp (RegExp_test re_timestamp))
    then inl (Error "Bad message timestamp.")
    else if negb (string_and expires (RegExp_test re_expires))
    then inl (Error "Bad expires time.")
    else if negb (includes levels level)
    then inl (Error "Bad level setting.")
    else if negb (string_and message (fun m =>
               (0 <? String.length m)%nat && (String.length m <=? 1024)%nat))
    then inl (Error "Bad message content.")
    else inr {| Simple.Message.username := Simple.escapeHtml (text_of username);
                Simple.Message.timestamp := Simple.escapeHtml (text_of timestamp);
                Simple.Message.expires := Simple.escapeHtml (text_of expires);
                Simple.Message.level := Simple.escapeHtml (text_of level);
                Simple.Message.message := Simple.escapeHtml (text_of message) |}.
Proof.
  unfold Simple.Message.new, Simple.log_and_throw.
  destruct username as [| | | |u| |]; try reflexivity. cbn [string_and].
  destruct (negb _); [reflexivity |].
  destruct timestamp as [| | | |t| |]; try reflexivity. cbn [string_and].
  destruct (negb _); [reflexivity |].
  destruct expires as [| | | |e| |]; try reflexivity. cbn [string_and].
  destruct (negb _); [reflexivity |].
  destruct level as [| | | |l| |]; try reflexivity. cbn [includes].
  destruct (negb _); [reflexivity |].
  destruct message as [| | | |m| |]; reflexivity.
Qed.

(* ===================================================================== *)
(** * Field checks of [Message] *)
(* ===================================================================== *)

Section MessageChecks.
Context `{Hardened.DOMPurify}.
Import PatternFacts.

Lemma hardened_new_username (u : string) (timestamp expires level message : JSValue) :
  Hardened.Message.new (JStr u) timestamp expires level message
  = inl (ValidationError "Bad message username.")
  <-> username_valid u = false.
Proof.
  rewrite hardened_new_eq. cbn [string_and]. rewrite test_username.
  destruct (username_valid u); cbn [negb]; split; try reflexivity; try discriminate.
  repeat match goal with
         | |- context [if ?b then _ else _] => destruct b
         end; discriminate.
Qed.

Lemma simple_new_username (u : string) (timestamp expires level message : JSValue) :
  Simple.Message.new (JStr u) timestamp expires level message
  = inl (Error "Bad message username.")
  <-> username_valid u = false.
Proof.
  rewrite simple_new_eq. cbn [string_and].
  rewrite test_username.
  destruct (username_valid u); cbn [negb]; split; try reflexivity; try discriminate.
  repeat match goal with
         | |- context [if ?b then _ else _] => destruct b
         end; discriminate.
Qed.

(** With the timestamp a string, the outcome at the first two checks. *)
Lemma hardened_new_timestamp (s : string) (username expires level message : JSValue) :
  (timestamp_accepted s = false ->
     Hardened.Message.new username (JStr s) expires level message
       = inl (ValidationError "Bad message username.")
     \/ Hardened.Message.new username (JStr s) expires level message
       = inl (ValidationError "Bad message timestamp."))
  /\ (timestamp_accepted s = true ->
     Hardened.Message.new username (JStr s) expires level message
       <> inl (ValidationError "Bad message timestamp.")).
Proof.
  rewrite hardened_new_eq. cbn [string_and]. rewrite test_timestamp.
  split; intros ->; cbn [negb].
  - destruct (negb _); auto.
  - repeat match goal with
           | |- context [if ?b then _ else _] => destruct b
           end; discriminate.
Qed.

Lemma simple_new_timestamp (s : string) (username expires level message : JSValue) :
  (timestamp_accepted s = false ->
     Simple.Message.new username (JStr s) expires level message
       = inl (Error "Bad message username.")
     \/ Simple.Message.new username (JStr s) expires level message
       = inl (Error "Bad message timestamp."))
  /\ (timestamp_accepted s = true ->
     Simple.Message.new username (JStr s) expires level message
       <> inl (Error "Bad message timestamp.")).
Proof.
  rewrite simple_new_eq. cbn [string_and].
  rewrite test_timestamp.
  split; intros ->; cbn [negb].
  - destruct (negb _); auto.
  - repeat match goal with
           | |- context [if ?b then _ else _] => destruct b
           end; discriminate.
Qed.

(** C5, as amended.  A timestamp of the form [YYYY-MM-DDThh:mm], optionally
    followed by [:ss], optionally followed by a dot and exactly three or
    exactly six digits, passes the timestamp check of [Message]; every
    other timestamp string makes construction fail with a validation
    fault (raised by the username or by the timestamp check), unless it
    has this form with another character, not a line terminator, in the
    place of the dot.  The strings left out all have a twentieth
    character that is not a dot. *)
Theorem timestamp_check (s : string) (username expires level message : JSValue) :
  (timestamp_shape s = true ->
     Hardened.Message.new username (JStr s) expires level message
       <> inl (ValidationError "Bad message timestamp.")
     /\ Simple.Message.new username (JStr s) expires level message
       <> inl (Error "Bad message timestamp."))
  /\ (timestamp_accepted s = false ->
     (Hardened.Message.new username (JStr s) expires level message
        = inl (ValidationError "Bad message username.")
      \/ Hardened.Message.new username (JStr s) expires level message
        = inl (ValidationError "Bad message timestamp."))
     /\ (Simple.Message.new username (JStr s) expires level message
        = inl (Error "Bad message username.")
      \/ Simple.Message.new username (JStr s) expires level message
        = inl (Error "Bad message timestamp.")))
  /\ (timestamp_shape s = false -> timestamp_accepted s = true ->
     dot_after_seconds s = false).
Proof.
  split; [| split].
  - intros Hs. apply shape_accepted in Hs. split.
    + now apply hardened_new_timestamp.
    + now apply simple_new_timestamp.
  - intros Hacc. split.
    + now apply hardened_new_timestamp.
    + now apply simple_new_timestamp.
  - intros Hs Hacc. destruct (dot_after_seconds s) eqn:Hdot; [| reflexivity].
    rewrite (accepted_shape s Hacc Hdot) in Hs. discriminate.
Qed.

(** C6.  A username of 33 or more characters, an empty one, or one with a
    character outside [A-Za-z0-9_@.-] (a space, say) makes construction
    fail at the username check; a username of 1 to 32 characters, all of
    them in that set, passes the username check. *)
Theorem username_check (u : string) (timestamp expires level message : JSValue) :
  ((33 <= String.length u)%nat \/ u = EmptyString
   \/ (exists c, occurs c u = true /\ username_char c = false) ->
     Hardened.Message.new (JStr u) timestamp expires level message
       = inl (ValidationError "Bad message username.")
     /\ Simple.Message.new (JStr u) timestamp expires level message
       = inl (Error "Bad message username."))
  /\ ((1 <= String.length u <= 32)%nat ->
      (forall c, occurs c u = true -> username_char c = true) ->
     Hardened.Message.new (JStr u) timestamp expires level message
       <> inl (ValidationError "Bad message username.")
     /\ Simple.Message.new (JStr u) timestamp expires level message
       <> inl (Error "Bad message username.")).
Proof.
  split.
  - intros Hbad.
    assert (Hu : username_valid u = false).
    { unfold username_valid. destruct Hbad as [Hlen|[->|(c & Hc & Hout)]].
      - replace (String.length u <=? 32)%nat with false
          by (symmetry; apply Nat.leb_gt; lia).
        now rewrite andb_false_r.
      - reflexivity.
      - destruct (all_chars username_char u) eqn:E; [| apply andb_false_r].
        rewrite (all_chars_occurs _ _ _ E Hc) in Hout. discriminate. }
    split; [now apply hardened_new_username | now apply simple_new_username].
  - intros [Hlo Hhi] Hchars.
    assert (Hu : username_valid u = true).
    { unfold username_valid. rewrite (occurs_all_chars _ _ Hchars).
      rewrite andb_true_r, andb_true_iff. split; apply Nat.leb_le; lia. }
    split; intros Heq.
    + apply hardened_new_username in Heq. congruence.
    + apply simple_new_username in Heq. congruence.
Qed.

End MessageChecks.

(** The username pattern holds no space. *)
Example space_not_username_char : username_char " " = false.
Proof. reflexivity. Qed.

(** C5 as stated fails in both directions (all other fields valid).  A
    fractional part of one digit is a fractional part, yet the timestamp
    check rejects it: the pattern asks for three or six digits.  And a
    string that is not of the shape is accepted: the dot of the pattern
    is unescaped in the source, so any character that is not a line
    terminator may stand in its place. *)
Lemma timestamp_claim_fails :
  (iso8601_like "2024-01-01T10:00:00.5" = true
   /\ @Hardened.Message.new escape_all
        (JStr "admin") (JStr "2024-01-01T10:00:00.5") (JStr "1-00:00:00")
        (JStr "info") (JStr "Maintenance tonight")
      = inl (ValidationError "Bad message timestamp.")
   /\ Simple.Message.new
        (JStr "admin") (JStr "2024-01-01T10:00:00.5") (JStr "1-00:00:00")
        (JStr "info") (JStr "Maintenance tonight")
      = inl (Error "Bad message timestamp."))
  /\ (iso8601_like "2024-01-01T10:00:00x123" = false
      /\ RegExp_test re_timestamp "2024-01-01T10:00:00x123" = true
      /\ isOk (@Hardened.Message.new escape_all
                 (JStr "admin") (JStr "2024-01-01T10:00:00x123") (JStr "1-00:00:00")
                 (JStr "info") (JStr "Maintenance tonight")) = true
      /\ isOk (Simple.Message.new
                 (JStr "admin") (JStr "2024-01-01T10:00:00x123") (JStr "1-00:00:00")
                 (JStr "info") (JStr "Maintenance tonight")) = true).
Proof. repeat split. Qed.

(** With such a separator the fraction is not cut from the rendered
    timestamp, since [fmtTimestamp] splits on a literal dot. *)
Example separator_not_cut :
  Hardened.Message.fmtTimestamp
    {| Hardened.Message.username := "admin";
       Hardened.Message.timestamp := "2024-01-01T10:00:00x123";
       Hardened.Message.expires := "1-00:00:00";
       Hardened.Message.level := "info";
       Hardened.Message.message := "Maintenance tonight" |}
  = "<td class='announce-timestamp'>[2024-01-01T10:00:00x123]</td>".
Proof. reflexivity. Qed.

(** A timestamp with milliseconds; one with a space for the [T], one
    with a zone designator and one with an offset. *)
Lemma timestamp_check_witness :
  (timestamp_shape "2024-01-01T10:00:00.123" = true
   /\ @Hardened.Message.new escape_all
        (JStr "admin") (JStr "2024-01-01T10:00:00.123") (JStr "1-00:00:00")
        (JStr "info") (JStr "Maintenance tonight")
      <> inl (ValidationError "Bad message timestamp."))
  /\ (timestamp_accepted "2024-01-01 10:00" = false
      /\ (@Hardened.Message.new escape_all
            (JStr "admin") (JStr "2024-01-01 10:00") (JStr "1-00:00:00")
            (JStr "info") (JStr "Maintenance tonight")
          = inl (ValidationError "Bad message username.")
          \/ @Hardened.Message.new escape_all
            (JStr "admin") (JStr "2024-01-01 10:00") (JStr "1-00:00:00")
            (JStr "info") (JStr "Maintenance tonight")
          = inl (ValidationError "Bad message timestamp.")))
  /\ (timestamp_accepted "2024-01-01T10:00:00Z" = false
      /\ (@Hardened.Message.new escape_all
            (JStr "admin") (JStr "2024-01-01T10:00:00Z") (JStr "1-00:00:00")
            (JStr "info") (JStr "Maintenance tonight")
          = inl (ValidationError "Bad message username.")
          \/ @Hardened.Message.new escape_all
            (JStr "admin") (JStr "2024-01-01T10:00:00Z") (JStr "1-00:00:00")
            (JStr "info") (JStr "Maintenance tonight")
          = inl (ValidationError "Bad message timestamp.")))
  /\ (timestamp_accepted "2024-01-01T10:00:00+01:00" = false
      /\ (Simple.Message.new
            (JStr "admin") (JStr "2024-01-01T10:00:00+01:00") (JStr "1-00:00:00")
            (JStr "info") (JStr "Maintenance tonight")
          = inl (Error "Bad message username.")
          \/ Simple.Message.new
            (JStr "admin") (JStr "2024-01-01T10:00:00+01:00") (JStr "1-00:00:00")
            (JStr "info") (JStr "Maintenance tonight")
          = inl (Error "Bad message timestamp.")))
  /\ (timestamp_shape "2024-01-01T10:00:00x123" = false
      /\ timestamp_accepted "2024-01-01T10:00:00x123" = true
      /\ dot_after_seconds "2024-01-01T10:00:00x123" = false).
Proof.
  split; [| split; [| split; [| split]]].
  - split; [reflexivity |].
    apply (@timestamp_check escape_all "2024-01-01T10:00:00.123"
             (JStr "admin") (JStr "1-00:00:00") (JStr "info")
             (JStr "Maintenance tonight")).
    reflexivity.
  - split; [reflexivity |].
    apply (@timestamp_check escape_all "2024-01-01 10:00"
             (JStr "admin") (JStr "1-00:00:00") (JStr "info")
             (JStr "Maintenance tonight")); reflexivity.
  - split; [reflexivity |].
    apply (@timestamp_check escape_all "2024-01-01T10:00:00Z"
             (JStr "admin") (JStr "1-00:00:00") (JStr "info")
             (JStr "Maintenance tonight")); reflexivity.
  - split; [reflexivity |].
    apply (@timestamp_check escape_all "2024-01-01T10:00:00+01:00"
             (JStr "admin") (JStr "1-00:00:00") (JStr "info")
             (JStr "Maintenance tonight")); reflexivity.
  - split; [reflexivity |]. split; [reflexivity |].
    apply (@timestamp_check escape_all "2024-01-01T10:00:00x123"
             (JStr "admin") (JStr "1-00:00:00") (JStr "info")
             (JStr "Maintenance tonight")); reflexivity.
Defined.

(** A username with a space, and an e-mail address as username. *)
Lemma username_check_witness :
  (occurs " " "jane doe" = true /\ username_char " " = false
   /\ @Hardened.Message.new escape_all
        (JStr "jane doe") (JStr "2024-01-01T10:00") (JStr "1-00:00:00")
        (JStr "info") (JStr "Maintenance tonight")
      = inl (ValidationError "Bad message username."))
  /\ ((1 <= String.length "jane.doe@stsci.edu" <= 32)%nat
      /\ @Hardened.Message.new escape_all
           (JStr "jane.doe@stsci.edu") (JStr "2024-01-01T10:00") (JStr "1-00:00:00")
           (JStr "info") (JStr "Maintenance tonight")
         <> inl (ValidationError "Bad message username.")).
Proof.
  split.
  - split; [reflexivity |]. split; [reflexivity |].
    apply (@username_check escape_all "jane doe"
             (JStr "2024-01-01T10:00") (JStr "1-00:00:00") (JStr "info")
             (JStr "Maintenance tonight")).
    right; right. exists " "%char. split; reflexivity.
  - split; [simpl; lia |].
    apply (@username_check escape_all "jane.doe@stsci.edu"
             (JStr "2024-01-01T10:00") (JStr "1-00:00:00") (JStr "info")
             (JStr "Maintenance tonight")).
    + simpl; lia.
    + intros c Hc.
      apply (PatternFacts.all_chars_occurs username_char c "jane.doe@stsci.edu");
        [reflexivity | exact Hc].
Defined.

(** A message with every field valid is constructed, in both revisions. *)
Example message_constructed :
  @Hardened.Message.new escape_all
     (JStr "jane.doe@stsci.edu") (JStr "2024-01-01T10:00:00.123456") (JStr "1-00:00:00")
     (JStr "warning") (JStr "Maintenance <b>tonight</b>")
  = inr {| Hardened.Message.username := "jane.doe@stsci.edu";
           Hardened.Message.timestamp := "2024-01-01T10:00:00.123456";
           Hardened.Message.expires := "1-00:00:00";
           Hardened.Message.level := "warning";
           Hardened.Message.message := "Maintenance &lt;b&gt;tonight&lt;/b&gt;" |}
  /\ Simple.Message.new
     (JStr "jane.doe@stsci.edu") (JStr "2024-01-01T10:00:00.123456") (JStr "1-00:00:00")
     (JStr "warning") (JStr "Maintenance <b>tonight</b>")
  = inr {| Simple.Message.username := "jane.doe@stsci.edu";
           Simple.Message.timestamp := "2024-01-01T10:00:00.123456";
           Simple.Message.expires := "1-00:00:00";
           Simple.Message.level := "warning";
           Simple.Message.message := "Maintenance <b>tonight</b>" |}.
Proof. split; reflexivity. Qed.

(* ===================================================================== *)
(** * The parser *)
(* ===================================================================== *)

Section Parser.
Context `{Hardened.DOMPurify}.

(** *** Which faults parsing can raise *)

Lemma hardened_Message_new_faults (username timestamp expires level message : JSValue) :
  value_or_validation_or_type
    (Hardened.Message.new username timestamp expires level message) = true.
Proof.
  rewrite hardened_new_eq.
  repeat match goal with
         | |- context [if ?b then _ else _] => destruct b
         end; reflexivity.
Qed.

Lemma hardened_MessageBlock_new_faults (title : JSValue) (msgs : list Hardened.Message.t) :
  value_or_validation_or_type (Hardened.MessageBlock.new title msgs) = true.
Proof.
  unfold Hardened.MessageBlock.new. destruct title; try reflexivity.
  repeat match goal with
         | |- context [if ?b then _ else _] => destruct b
         end; reflexivity.
Qed.

Lemma hardened_AnnouncementsData_new_faults
      (popup timestamp : JSValue) (blocks : list Hardened.MessageBlock.t) :
  value_or_validation_or_type (Hardened.AnnouncementsData.new popup timestamp blocks) = true.
Proof.
  destruct popup; try reflexivity. cbn [Hardened.AnnouncementsData.new].
  pose proof (ToString_faults timestamp) as Ht.
  destruct (ToString timestamp) as [e|timestamp']; [exact Ht | reflexivity].
Qed.

Lemma get_faults (v : JSValue) (f : Field) : value_or_validation_or_type (get v f) = true.
Proof. destruct v; reflexivity. Qed.

Lemma mapM_faults {A B} (f : A -> Traced B) (l : list A) :
  (forall a tr, value_or_validation_or_type (fst (f a tr)) = true) ->
  forall tr, value_or_validation_or_type (fst (mapM f l tr)) = true.
Proof.
  intros Hf. induction l as [|a l IH]; intros tr; simpl; [reflexivity |].
  unfold bind at 1. specialize (Hf a tr).
  destruct (f a tr) as [[e|b] tr1]; [exact Hf |].
  unfold bind at 1. specialize (IH tr1).
  destruct (mapM f l tr1) as [[e|bs] tr2]; [exact IH | reflexivity].
Qed.

Lemma hardened_messageOf_faults (msg : JSValue) (tr : list Call) :
  value_or_validation_or_type (fst (Hardened.messageOf msg tr)) = true.
Proof.
  unfold Hardened.messageOf, bind, lift, construct.
  destruct msg; try reflexivity; cbn [get fst]; apply hardened_Message_new_faults.
Qed.

Lemma hardened_blockOf_faults (blockData : JSValue) (tr : list Call) :
  value_or_validation_or_type (fst (Hardened.blockOf blockData tr)) = true.
Proof.
  unfold Hardened.blockOf. unfold bind at 1. unfold lift at 1.
  pose proof (get_faults blockData f_messages) as Hg.
  destruct (get blockData f_messages) as [e|bdmessages] eqn:Eg; [exact Hg |].
  destruct (asArray bdmessages) as [msgs|]; [| reflexivity].
  destruct (_ || _); [reflexivity |].
  unfold bind at 1.
  pose proof (mapM_faults Hardened.messageOf msgs hardened_messageOf_faults tr) as Hm.
  destruct (mapM Hardened.messageOf msgs tr) as [[e|messages] tr1]; [exact Hm |].
  unfold bind, lift, construct.
  pose proof (get_faults blockData f_title) as Ht.
  destruct (get blockData f_title) as [e|title]; [exact Ht |].
  apply hardened_MessageBlock_new_faults.
Qed.

(** X11.  Whatever the payload, the hardened parser returns a value or
    raises a [ValidationError] or a [TypeError], nothing else.  The
    [TypeError] is the fault of a property read on [null] (the payload, a
    block or a message) or of the conversion of a [timestamp] that has no
    string form.  (The stack of the engine, which the conversion of an
    array nested thousands deep can exhaust, is outside the embedding.) *)
Lemma hardened_parse_faults (jsonData : JSValue) :
  value_or_validation_or_type (run (Hardened.jsonToAnnouncementsData jsonData)) = true.
Proof.
  unfold run, Hardened.jsonToAnnouncementsData. unfold bind at 1. unfold lift at 1.
  pose proof (get_faults jsonData f_blocks) as Hg.
  destruct (get jsonData f_blocks) as [e|jblocks] eqn:Eg; [exact Hg |].
  destruct (asArray jblocks) as [blockDatas|]; [| reflexivity].
  unfold bind at 1.
  pose proof (mapM_faults Hardened.blockOf blockDatas hardened_blockOf_faults []) as Hm.
  destruct (mapM Hardened.blockOf blockDatas []) as [[e|blocks] tr1]; [exact Hm |].
  unfold bind, lift, construct.
  pose proof (get_faults jsonData f_popup) as Hp.
  destruct (get jsonData f_popup) as [e|popup]; [exact Hp |].
  pose proof (get_faults jsonData f_timestamp) as Ht.
  destruct (get jsonData f_timestamp) as [e|timestamp]; [exact Ht |].
  apply hardened_AnnouncementsData_new_faults.
Qed.

(** C2 (failing inputs).  A payload that is [null], or that holds [null]
    where a block or a message is expected, makes the hardened parser
    raise a [TypeError], which is not a [ValidationError]; the poller then
    takes the cycle for a connectivity fault and backs off.  In the simple
    revision a payload without [blocks] raises a plain [Error]. *)
Theorem null_payload_raises_TypeError :
  run (Hardened.jsonToAnnouncementsData JNull)
    = inl (TypeError "Cannot read properties of null (reading 'blocks')")
  /\ run (Hardened.jsonToAnnouncementsData (JObj [("blocks", JArr [JNull])]))
    = inl (TypeError "Cannot read properties of null (reading 'messages')")
  /\ run (Hardened.jsonToAnnouncementsData
            (JObj [("blocks", JArr [JObj [("messages", JArr [JNull])]])]))
    = inl (TypeError "Cannot read properties of null (reading 'username')")
  /\ instanceof_ValidationError
       (TypeError "Cannot read properties of null (reading 'blocks')") = false
  /\ (forall n,
        HardenedPoller.updateAnnouncements n (Response 200 "OK" (Some JNull))
          HardenedPoller.new
        = ({| HardenedPoller.openAnnouncementButton :=
                Some {| HardenedPoller.textContent := TextRetrying;
                        HardenedPoller.color := Orange;
                        HardenedPoller.title := TipRetrying 10000 |};
              HardenedPoller.last_rendered := EmptyString;
              HardenedPoller.newAnnouncement := false;
              HardenedPoller.retryDelay := 20000;
              HardenedPoller.maxRetryDelay := 600000;
              HardenedPoller.initialRetryDelay := 10000;
              HardenedPoller.serviceState := HardenedPoller.degraded |},
           [RegisterStatusItem; SetTimeout_update 10000]))
  /\ run (Simple.jsonToAnnouncementsData JNull)
    = inl (TypeError "Cannot read properties of null (reading 'blocks')")
  /\ run (Simple.jsonToAnnouncementsData (JObj [])) = inl (Error "Bad blocks array.").
Proof. repeat split. Qed.

(** *** Order of checks and constructions *)

Lemma hardened_blockOf_bad_shape (blockData bdmessages : JSValue) (tr : list Call) :
  get blockData f_messages = inr bdmessages ->
  messages_shape_ok bdmessages = false ->
  Hardened.blockOf blockData tr = (inl (ValidationError "Bad messages array."), tr).
Proof.
  intros Hg Hshape. unfold Hardened.blockOf, bind, lift at 1. rewrite Hg.
  unfold messages_shape_ok in Hshape.
  destruct (asArray bdmessages) as [msgs|]; [| reflexivity].
  destruct msgs as [|m msgs]; [reflexivity |].
  replace ((length (m :: msgs) <=? 0)%nat || (16 <? length (m :: msgs))%nat) with true;
    [reflexivity |].
  symmetry. apply orb_true_iff. right. apply Nat.ltb_lt.
  apply andb_false_iff in Hshape as [Hs|Hs].
  - simpl in Hs. discriminate.
  - apply Nat.leb_gt in Hs. exact Hs.
Qed.

Lemma simple_blockOf_bad_shape (blockData bdmessages : JSValue) (tr : list Call) :
  get blockData f_messages = inr bdmessages ->
  messages_shape_ok bdmessages = false ->
  Simple.blockOf blockData tr = (inl (Error "Bad messages array."), tr).
Proof.
  intros Hg Hshape. unfold Simple.blockOf, bind, lift at 1. rewrite Hg.
  unfold messages_shape_ok in Hshape.
  destruct (asArray bdmessages) as [msgs|]; [| reflexivity].
  destruct msgs as [|m msgs]; [reflexivity |].
  replace ((length (m :: msgs) <=? 0)%nat || (16 <? length (m :: msgs))%nat) with true;
    [reflexivity |].
  symmetry. apply orb_true_iff. right. apply Nat.ltb_lt.
  apply andb_false_iff in Hshape as [Hs|Hs].
  - simpl in Hs. discriminate.
  - apply Nat.leb_gt in Hs. exact Hs.
Qed.

(** On a payload whose properties can be read (anything but [null]):
    when [blocks] is absent or not an array, parsing fails at once with
    the fault for a bad blocks array and the trace of constructions is
    left as it was; when the [messages] of a block is not an array of 1
    to 16 elements, the block fails with the fault for a bad messages
    array and the trace is left as it was; so a block that does record a
    construction had a [messages] array of 1 to 16 elements. *)
Lemma structural_checks_first :
  (forall jsonData jblocks tr,
     get jsonData f_blocks = inr jblocks -> asArray jblocks = None ->
     Hardened.jsonToAnnouncementsData jsonData tr
       = (inl (ValidationError "Bad blocks array."), tr)
     /\ Simple.jsonToAnnouncementsData jsonData tr
       = (inl (Error "Bad blocks array."), tr))
  /\ (forall blockData bdmessages tr,
     get blockData f_messages = inr bdmessages ->
     messages_shape_ok bdmessages = false ->
     Hardened.blockOf blockData tr = (inl (ValidationError "Bad messages array."), tr)
     /\ Simple.blockOf blockData tr = (inl (Error "Bad messages array."), tr))
  /\ (forall blockData tr,
     snd (Hardened.blockOf blockData tr) <> tr \/ snd (Simple.blockOf blockData tr) <> tr ->
     exists bdmessages,
       get blockData f_messages = inr bdmessages /\ messages_shape_ok bdmessages = true).
Proof.
  split; [| split].
  - intros jsonData jblocks tr Hg Harr.
    unfold Hardened.jsonToAnnouncementsData, Simple.jsonToAnnouncementsData, bind, lift.
    rewrite Hg, Harr. split; reflexivity.
  - intros blockData bdmessages tr Hg Hshape. split.
    + now apply hardened_blockOf_bad_shape with bdmessages.
    + now apply simple_blockOf_bad_shape with bdmessages.
  - intros blockData tr Hmoved.
    destruct (get blockData f_messages) as [e|bdmessages] eqn:Hg.
    + exfalso. unfold Hardened.blockOf, Simple.blockOf, bind, lift in Hmoved.
      rewrite Hg in Hmoved. simpl in Hmoved. destruct Hmoved as [Hm|Hm]; now apply Hm.
    + exists bdmessages. split; [reflexivity |].
      destruct (messages_shape_ok bdmessages) eqn:Hshape; [reflexivity |].
      exfalso.
      rewrite (@hardened_blockOf_bad_shape _ _ tr Hg Hshape) in Hmoved.
      rewrite (@simple_blockOf_bad_shape _ _ tr Hg Hshape) in Hmoved.
      simpl in Hmoved. destruct Hmoved as [Hm|Hm]; now apply Hm.
Qed.

(** C7 (failing input).  The payload [null] has no [blocks]: the claim
    asks for a validation fault, and the parser raises a [TypeError], in
    both revisions, from the read of [blocks] that precedes the check
    (no construction is made).  A block that is [null] likewise raises a
    [TypeError] from the read of [messages], before the shape of its
    messages is looked at. *)
Theorem absent_blocks_not_validation_fault :
  (forall tr,
     Hardened.jsonToAnnouncementsData JNull tr
     = (inl (TypeError "Cannot read properties of null (reading 'blocks')"), tr)
     /\ Simple.jsonToAnnouncementsData JNull tr
     = (inl (TypeError "Cannot read properties of null (reading 'blocks')"), tr))
  /\ instanceof_ValidationError
       (TypeError "Cannot read properties of null (reading 'blocks')") = false
  /\ (forall tr,
     Hardened.jsonToAnnouncementsData (JObj [("blocks", JArr [JNull])]) tr
     = (inl (TypeError "Cannot read properties of null (reading 'messages')"), tr)
     /\ Simple.jsonToAnnouncementsData (JObj [("blocks", JArr [JNull])]) tr
     = (inl (TypeError "Cannot read properties of null (reading 'messages')"), tr)).
Proof. repeat split. Qed.

End Parser.

(** The order of checks on a payload without [blocks], a block with no
    message, and a block with one. *)
Lemma structural_checks_first_witness :
  (@Hardened.jsonToAnnouncementsData escape_all
     (JObj [("popup", JBool true); ("timestamp", JStr "2024-01-01T10:00")]) []
   = (inl (ValidationError "Bad blocks array."), []))
  /\ (@Hardened.blockOf escape_all
        (JObj [("title", JStr "News"); ("messages", JArr [])]) []
      = (inl (ValidationError "Bad messages array."), []))
  /\ (snd (@Hardened.blockOf escape_all
             (JObj [("title", JStr "News"); ("messages", JArr [sample_message])]) [])
      <> []
      /\ exists bdmessages,
          get (JObj [("title", JStr "News"); ("messages", JArr [sample_message])])
              f_messages = inr bdmessages
          /\ messages_shape_ok bdmessages = true).
Proof.
  split; [| split].
  - apply (proj1 (@structural_checks_first escape_all)
             (JObj [("popup", JBool true); ("timestamp", JStr "2024-01-01T10:00")])
             JUndefined []); reflexivity.
  - apply (proj1 (proj2 (@structural_checks_first escape_all))
             (JObj [("title", JStr "News"); ("messages", JArr [])])
             (JArr []) []); reflexivity.
  - split; [discriminate |].
    apply (proj2 (proj2 (@structural_checks_first escape_all))
             (JObj [("title", JStr "News"); ("messages", JArr [sample_message])]) []).
    left. discriminate.
Defined.

(** A payload whose second block has an empty [messages] array: the first
    block is constructed, then parsing stops, before any construction for
    the second block. *)
Example second_block_bad_shape :
  @Hardened.jsonToAnnouncementsData escape_all
    (JObj [("popup", JBool false);
           ("timestamp", JStr "2024-01-01T10:00");
           ("blocks", JArr [
              JObj [("title", JStr "News");
                    ("messages", JArr [
                       JObj [("username", JStr "admin");
                             ("timestamp", JStr "2024-01-01T10:00");
                             ("expires", JStr "1-00:00:00");
                             ("level", JStr "info");
                             ("message", JStr "Hello")]])];
              JObj [("title", JStr "Other"); ("messages", JArr [])]])]) []
  = (inl (ValidationError "Bad messages array."),
     [NewMessage (JStr "admin") (JStr "2024-01-01T10:00") (JStr "1-00:00:00")
                 (JStr "info") (JStr "Hello");
      NewMessageBlock (JStr "News") 1]).
Proof. reflexivity. Qed.

(* ===================================================================== *)
(** * Rendering *)
(* ===================================================================== *)

Section Rendering.
Context `{Hardened.DOMPurify}.
Import RegexFacts.

Lemma hardened_rows_are_rows (msgs : list Hardened.Message.t) :
  Forall (fun row => is_row row = true) (map Hardened.Message.toHtml msgs).
Proof. induction msgs as [|m msgs IH]; simpl; constructor; [reflexivity | exact IH]. Qed.

Lemma simple_rows_are_rows (msgs : list Simple.Message.t) :
  Forall (fun row => is_row row = true) (map Simple.Message.toHtml msgs).
Proof. induction msgs as [|m msgs IH]; simpl; constructor; [reflexivity | exact IH]. Qed.

Lemma hardened_block_toHtml (b : Hardened.MessageBlock.t) :
  Hardened.MessageBlock.messages b <> [] ->
  Hardened.MessageBlock.toHtml b
  = (block_open (Hardened.MessageBlock.title b)
     ++ String.concat nl (map Hardened.Message.toHtml (Hardened.MessageBlock.messages b))
     ++ block_close)%string.
Proof.
  intros Hne. unfold Hardened.MessageBlock.toHtml, block_open, block_close.
  destruct (Hardened.MessageBlock.messages b) as [|m ms]; [congruence |].
  cbn [length Nat.eqb]. rewrite !append_assoc. reflexivity.
Qed.

Lemma simple_block_toHtml (b : Simple.MessageBlock.t) :
  Simple.MessageBlock.messages b <> [] ->
  Simple.MessageBlock.toHtml b
  = (block_open (Simple.MessageBlock.title b)
     ++ String.concat nl (map Simple.Message.toHtml (Simple.MessageBlock.messages b))
     ++ block_close)%string.
Proof.
  intros Hne. unfold Simple.MessageBlock.toHtml, block_open, block_close.
  destruct (Simple.MessageBlock.messages b) as [|m ms]; [congruence |].
  cbn [length Nat.eqb]. rewrite !append_assoc. reflexivity.
Qed.

Lemma block_open_not_empty (title rest : string) :
  (block_open title ++ rest)%string <> EmptyString.
Proof. unfold block_open. simpl. discriminate. Qed.

Lemma hardened_block_new_inv (title : JSValue) (msgs : list Hardened.Message.t)
      (b : Hardened.MessageBlock.t) :
  Hardened.MessageBlock.new title msgs = inr b ->
  Hardened.MessageBlock.messages b = msgs /\ (1 <= length msgs <= 16)%nat
  /\ exists ttl, title = JStr ttl /\ (1 <= String.length ttl <= 128)%nat
                 /\ Hardened.MessageBlock.title b = Hardened.sanitizeHtml ttl.
Proof.
  unfold Hardened.MessageBlock.new. destruct title as [| | | |ttl| |]; try discriminate.
  destruct (_ || _) eqn:Et; [discriminate |].
  destruct ((length msgs <=? 0)%nat || _) eqn:Em; [discriminate |].
  intros Hb. injection Hb as <-. cbn.
  apply orb_false_iff in Et as [Et1 Et2]. apply orb_false_iff in Em as [Em1 Em2].
  apply Nat.leb_gt in Et1, Em1. apply Nat.ltb_ge in Et2, Em2.
  repeat split; try lia. exists ttl. repeat split; lia.
Qed.

Lemma simple_block_new_inv (title : JSValue) (msgs : list Simple.Message.t)
      (b : Simple.MessageBlock.t) :
  Simple.MessageBlock.new title msgs = inr b ->
  Simple.MessageBlock.messages b = msgs /\ (1 <= length msgs <= 16)%nat
  /\ exists ttl, title = JStr ttl /\ (1 <= String.length ttl <= 128)%nat
                 /\ Simple.MessageBlock.title b = Simple.escapeHtml ttl.
Proof.
  unfold Simple.MessageBlock.new, Simple.log_and_throw.
  destruct title as [| | | |ttl| |]; try discriminate.
  destruct (_ || _) eqn:Et; [discriminate |].
  destruct ((length msgs <=? 0)%nat || _) eqn:Em; [discriminate |].
  intros Hb. injection Hb as <-. cbn.
  apply orb_false_iff in Et as [Et1 Et2]. apply orb_false_iff in Em as [Em1 Em2].
  apply Nat.leb_gt in Et1, Em1. apply Nat.ltb_ge in Et2, Em2.
  repeat split; try lia. exists ttl. repeat split; lia.
Qed.

(** C10.  A constructed [MessageBlock] holds the messages it was given,
    between 1 and 16 of them; its [toHtml] is not the empty string: it is
    the opening of the table with the title, the rows separated by line
    breaks, and the closing of the table, with one row per message, each
    the rendering of a [Message]. *)
Theorem constructed_block_renders_rows :
  (forall title msgs b,
     Hardened.MessageBlock.new title msgs = inr b ->
     Hardened.MessageBlock.messages b = msgs
     /\ (1 <= length (Hardened.MessageBlock.messages b) <= 16)%nat
     /\ Hardened.MessageBlock.toHtml b <> EmptyString
     /\ Hardened.MessageBlock.toHtml b
        = (block_open (Hardened.MessageBlock.title b)
           ++ String.concat nl (map Hardened.Message.toHtml (Hardened.MessageBlock.messages b))
           ++ block_close)%string
     /\ length (map Hardened.Message.toHtml (Hardened.MessageBlock.messages b))
        = length (Hardened.MessageBlock.messages b)
     /\ Forall (fun row => is_row row = true)
               (map Hardened.Message.toHtml (Hardened.MessageBlock.messages b)))
  /\ (forall title msgs b,
     Simple.MessageBlock.new title msgs = inr b ->
     Simple.MessageBlock.messages b = msgs
     /\ (1 <= length (Simple.MessageBlock.messages b) <= 16)%nat
     /\ Simple.MessageBlock.toHtml b <> EmptyString
     /\ Simple.MessageBlock.toHtml b
        = (block_open (Simple.MessageBlock.title b)
           ++ String.concat nl (map Simple.Message.toHtml (Simple.MessageBlock.messages b))
           ++ block_close)%string
     /\ length (map Simple.Message.toHtml (Simple.MessageBlock.messages b))
        = length (Simple.MessageBlock.messages b)
     /\ Forall (fun row => is_row row = true)
               (map Simple.Message.toHtml (Simple.MessageBlock.messages b))).
Proof.
  split; intros title msgs b Hnew.
  - destruct (hardened_block_new_inv _ _ _ Hnew) as (Hm & Hlen & _).
    assert (Hne : Hardened.MessageBlock.messages b <> []).
    { rewrite Hm. destruct msgs; [simpl in Hlen; lia | discriminate]. }
    rewrite (hardened_block_toHtml b Hne).
    split; [exact Hm |]. split; [now rewrite Hm |].
    split; [apply block_open_not_empty |]. split; [reflexivity |].
    split; [apply length_map | apply hardened_rows_are_rows].
  - destruct (simple_block_new_inv _ _ _ Hnew) as (Hm & Hlen & _).
    assert (Hne : Simple.MessageBlock.messages b <> []).
    { rewrite Hm. destruct msgs; [simpl in Hlen; lia | discriminate]. }
    rewrite (simple_block_toHtml b Hne).
    split; [exact Hm |]. split; [now rewrite Hm |].
    split; [apply block_open_not_empty |]. split; [reflexivity |].
    split; [apply length_map | apply simple_rows_are_rows].
Qed.

(** *** Rendering reads the fields and nothing else *)

Lemma hardened_message_toHtml_fields (m1 m2 : Hardened.Message.t) :
  Hardened.Message.timestamp m1 = Hardened.Message.timestamp m2 ->
  Hardened.Message.level m1 = Hardened.Message.level m2 ->
  Hardened.Message.message m1 = Hardened.Message.message m2 ->
  Hardened.Message.toHtml m1 = Hardened.Message.toHtml m2.
Proof.
  intros Ht Hl Hm.
  unfold Hardened.Message.toHtml, Hardened.Message.fmtTimestamp,
    Hardened.Message.fmtLevel, Hardened.Message.fmtMessage.
  now rewrite Ht, Hl, Hm.
Qed.

Lemma hardened_block_toHtml_fields (b1 b2 : Hardened.MessageBlock.t) :
  Hardened.MessageBlock.title b1 = Hardened.MessageBlock.title b2 ->
  map Hardened.Message.toHtml (Hardened.MessageBlock.messages b1)
  = map Hardened.Message.toHtml (Hardened.MessageBlock.messages b2) ->
  Hardened.MessageBlock.toHtml b1 = Hardened.MessageBlock.toHtml b2.
Proof.
  intros Ht Hm. unfold Hardened.MessageBlock.toHtml. rewrite Ht, Hm.
  replace (length (Hardened.MessageBlock.messages b1))
    with (length (Hardened.MessageBlock.messages b2)); [reflexivity |].
  rewrite <- (length_map Hardened.Message.toHtml (Hardened.MessageBlock.messages b2)).
  rewrite <- Hm. apply length_map.
Qed.

Lemma hardened_data_toHtml_fields (a1 a2 : Hardened.AnnouncementsData.t) :
  map Hardened.MessageBlock.toHtml (Hardened.AnnouncementsData.blocks a1)
  = map Hardened.MessageBlock.toHtml (Hardened.AnnouncementsData.blocks a2) ->
  Hardened.AnnouncementsData.toHtml a1 = Hardened.AnnouncementsData.toHtml a2.
Proof.
  intros Hb. unfold Hardened.AnnouncementsData.toHtml. rewrite Hb.
  replace (length (Hardened.AnnouncementsData.blocks a1))
    with (length (Hardened.AnnouncementsData.blocks a2)); [reflexivity |].
  rewrite <- (length_map Hardened.MessageBlock.toHtml (Hardened.AnnouncementsData.blocks a2)).
  rewrite <- Hb. apply length_map.
Qed.

(** C8.  Rendering is a function of the validated object: parsing a
    payload and rendering the result gives one HTML string however often
    it is done, and the string is fixed by the fields that are rendered
    (the rendered blocks; of a block, its title and rendered messages; of
    a message, its timestamp, level and text). *)
Theorem rendering_deterministic :
  (forall jsonData a1 a2,
     run (Hardened.jsonToAnnouncementsData jsonData) = inr a1 ->
     run (Hardened.jsonToAnnouncementsData jsonData) = inr a2 ->
     Hardened.AnnouncementsData.toHtml a1 = Hardened.AnnouncementsData.toHtml a2)
  /\ (forall a1 a2,
     map Hardened.MessageBlock.toHtml (Hardened.AnnouncementsData.blocks a1)
     = map Hardened.MessageBlock.toHtml (Hardened.AnnouncementsData.blocks a2) ->
     Hardened.AnnouncementsData.toHtml a1 = Hardened.AnnouncementsData.toHtml a2)
  /\ (forall b1 b2,
     Hardened.MessageBlock.title b1 = Hardened.MessageBlock.title b2 ->
     map Hardened.Message.toHtml (Hardened.MessageBlock.messages b1)
     = map Hardened.Message.toHtml (Hardened.MessageBlock.messages b2) ->
     Hardened.MessageBlock.toHtml b1 = Hardened.MessageBlock.toHtml b2)
  /\ (forall m1 m2,
     Hardened.Message.timestamp m1 = Hardened.Message.timestamp m2 ->
     Hardened.Message.level m1 = Hardened.Message.level m2 ->
     Hardened.Message.message m1 = Hardened.Message.message m2 ->
     Hardened.Message.toHtml m1 = Hardened.Message.toHtml m2).
Proof.
  split; [| split; [| split]].
  - intros jsonData a1 a2 H1 H2. rewrite H1 in H2. now injection H2 as ->.
  - exact hardened_data_toHtml_fields.
  - exact hardened_block_toHtml_fields.
  - exact hardened_message_toHtml_fields.
Qed.

End Rendering.

(* ===================================================================== *)
(** * The hardened poller *)
(* ===================================================================== *)

Section HardenedCycles.
Context `{Hardened.DOMPurify}.
Import HardenedPoller.

(** A connectivity fault throws, inside [try], something that is not a
    [ValidationError], before any field is written. *)
Lemma fault_throws (n : Z) (o : FetchOutcome) (this : t) :
  connectivity_fault o = true ->
  exists e, try_block n o this = Threw e /\ instanceof_ValidationError e = false.
Proof.
  destruct o as [|status statusText json]; simpl; intros Hf.
  - eexists; split; reflexivity.
  - rewrite Hf. eexists; split; reflexivity.
Qed.

(** The [catch] block on anything but a [ValidationError]. *)
Lemma catch_block_other (n : Z) (e : Exn) :
  instanceof_ValidationError e = false ->
  catch_block n e = catch_block n (TypeError "Failed to fetch").
Proof. destruct e; simpl; [discriminate | reflexivity ..]. Qed.

Lemma fault_cycle (n : Z) (o : FetchOutcome) (this : t) :
  connectivity_fault o = true ->
  updateAnnouncements n o this = catch_block n (TypeError "Failed to fetch") this.
Proof.
  intros Hf. destruct (fault_throws n o this Hf) as (e & He & Hv).
  unfold updateAnnouncements. rewrite He. now rewrite (catch_block_other n e Hv).
Qed.

(** A fault while [retryDelay] is below the ceiling: the state becomes
    degraded, the next cycle is set after [retryDelay], and [retryDelay]
    doubles up to the ceiling. *)
Lemma fault_below_ceiling (n : Z) (o : FetchOutcome) (this : t) :
  connectivity_fault o = true ->
  (retryDelay this < maxRetryDelay this)%Z ->
  serviceState (fst (updateAnnouncements n o this)) = degraded
  /\ retryDelay (fst (updateAnnouncements n o this))
     = Z.min (retryDelay this * 2) (maxRetryDelay this)
  /\ scheduled (snd (updateAnnouncements n o this)) = [retryDelay this]
  /\ maxRetryDelay (fst (updateAnnouncements n o this)) = maxRetryDelay this
  /\ initialRetryDelay (fst (updateAnnouncements n o this)) = initialRetryDelay this
  /\ last_rendered (fst (updateAnnouncements n o this)) = last_rendered this
  /\ newAnnouncement (fst (updateAnnouncements n o this)) = newAnnouncement this.
Proof.
  intros Hf Hlt. rewrite (fault_cycle n o this Hf).
  destruct this as [btn lr na rd mx ini st]. cbn [retryDelay maxRetryDelay] in Hlt.
  unfold catch_block. cbn [instanceof_ValidationError]. unfold ifThenElse.
  cbn [retryDelay maxRetryDelay].
  replace (rd >=? mx)%Z with false
    by (rewrite Z.geb_leb; symmetry; apply Z.leb_gt; lia).
  destruct btn as [b|]; repeat split; reflexivity.
Qed.

(** A fault once [retryDelay] has reached the ceiling: the state becomes
    failed, [retryDelay] goes back to its initial value, and the next
    cycle is set after the base interval. *)
Lemma fault_at_ceiling (n : Z) (o : FetchOutcome) (this : t) :
  connectivity_fault o = true ->
  (retryDelay this >= maxRetryDelay this)%Z ->
  serviceState (fst (updateAnnouncements n o this)) = failed
  /\ retryDelay (fst (updateAnnouncements n o this)) = initialRetryDelay this
  /\ scheduled (snd (updateAnnouncements n o this)) = [n]
  /\ maxRetryDelay (fst (updateAnnouncements n o this)) = maxRetryDelay this
  /\ initialRetryDelay (fst (updateAnnouncements n o this)) = initialRetryDelay this
  /\ last_rendered (fst (updateAnnouncements n o this)) = last_rendered this
  /\ newAnnouncement (fst (updateAnnouncements n o this)) = newAnnouncement this.
Proof.
  intros Hf Hge. rewrite (fault_cycle n o this Hf).
  destruct this as [btn lr na rd mx ini st]. cbn [retryDelay maxRetryDelay] in Hge.
  unfold catch_block. cbn [instanceof_ValidationError]. unfold ifThenElse.
  cbn [retryDelay maxRetryDelay].
  replace (rd >=? mx)%Z with true
    by (rewrite Z.geb_leb; symmetry; apply Z.leb_le; lia).
  destruct btn as [b|]; repeat split; reflexivity.
Qed.

Lemma succ_mod_7 (k r : nat) : (k mod 7 = r -> S k mod 7 = S r mod 7)%nat.
Proof.
  intros <-. change (S k) with (1 + k)%nat.
  rewrite (Nat.Div0.add_mod 1 k 7). reflexivity.
Qed.

Lemma fault_step (n : Z) (k : nat) (o : FetchOutcome) (this : t) :
  connectivity_fault o = true ->
  in_backoff k this ->
  in_backoff (S k) (fst (updateAnnouncements n o this))
  /\ scheduled (snd (updateAnnouncements n o this)) = [backoff_delay n k]
  /\ serviceState (fst (updateAnnouncements n o this)) = backoff_state k.
Proof.
  intros Hf (Hini & Hmax & Hrd).
  unfold in_backoff, backoff_retryDelay, backoff_delay, backoff_state in *.
  pose proof (Nat.mod_upper_bound k 7) as Hbound.
  destruct (k mod 7)%nat as [|[|[|[|[|[|[|r]]]]]]] eqn:Hr; try lia;
    rewrite (succ_mod_7 k _ Hr);
    [ destruct (fault_below_ceiling n o this Hf) as (Hst & Hrd' & Hsch & Hmax' & Hini' & _);
      [rewrite Hrd, Hmax; reflexivity |] .. |
      destruct (fault_at_ceiling n o this Hf) as (Hst & Hrd' & Hsch & Hmax' & Hini' & _);
      [rewrite Hrd, Hmax; vm_compute; discriminate |] ];
    rewrite Hst, Hrd', Hsch, Hmax', Hini', ?Hrd, ?Hmax, ?Hini;
    repeat split; reflexivity.
Qed.

Lemma faults_from (n : Z) (outcomes : list FetchOutcome) :
  forallb connectivity_fault outcomes = true ->
  forall k this,
    in_backoff k this ->
    in_backoff (k + length outcomes) (fst (cycles n outcomes this))
    /\ map scheduled (snd (cycles n outcomes this))
       = map (fun j => [backoff_delay n j]) (seq k (length outcomes))
    /\ (outcomes <> [] ->
        serviceState (fst (cycles n outcomes this))
        = backoff_state (k + length outcomes - 1)).
Proof.
  induction outcomes as [|o rest IH]; intros Hall k this Hinv.
  - simpl. rewrite Nat.add_0_r. repeat split; [apply Hinv .. | congruence].
  - simpl in Hall. apply andb_true_iff in Hall as [Ho Hrest].
    destruct (fault_step n k o this Ho Hinv) as (Hinv1 & Hsch & Hst).
    cbn [cycles length seq map].
    destruct (updateAnnouncements n o this) as [this1 effs] eqn:E1.
    cbn [fst snd] in *.
    specialize (IH Hrest (S k) this1 Hinv1) as (Hinv2 & Hsch2 & Hst2).
    destruct (cycles n rest this1) as [this2 more] eqn:E2. cbn [fst snd map] in *.
    replace (k + S (length rest))%nat with (S k + length rest)%nat by lia.
    split; [exact Hinv2 |]. split; [now rewrite Hsch, Hsch2 |].
    intros _. destruct rest as [|o' rest'].
    + simpl in E2. injection E2 as <- <-.
      replace (S k + length (@nil FetchOutcome) - 1)%nat with k by (simpl; lia).
      exact Hst.
    + apply Hst2. discriminate.
Qed.

(** C3.  From a fresh poller ([retryDelay] 10000, ceiling 600000), a run
    of connectivity faults sets the next cycle after 10000, 20000, 40000,
    80000, 160000 and 320000 ms, the state being degraded and
    [retryDelay] doubling up to the ceiling; the fault that finds
    [retryDelay] at the ceiling (the seventh) makes the state failed, puts
    [retryDelay] back to 10000 and sets the next cycle after the base
    interval [n]; further faults go through the same seven steps. *)
Theorem backoff_sequence (n : Z) (outcomes : list FetchOutcome) :
  forallb connectivity_fault outcomes = true ->
  map scheduled (snd (cycles n outcomes new))
  = map (fun k => [backoff_delay n k]) (seq 0 (length outcomes))
  /\ retryDelay (fst (cycles n outcomes new)) = backoff_retryDelay (length outcomes)
  /\ (outcomes <> [] ->
      serviceState (fst (cycles n outcomes new)) = backoff_state (length outcomes - 1)).
Proof.
  intros Hall.
  assert (Hnew : in_backoff 0 new) by (repeat split).
  destruct (faults_from n outcomes Hall 0%nat new Hnew) as ((_ & _ & Hrd) & Hsch & Hst).
  simpl in Hrd, Hst. now repeat split.
Qed.

(** C4.  When the payload of an ok response fails validation, the cycle
    leaves the poller as it was, button included, and its only call to
    the host sets the next cycle after the base interval [n]. *)
Theorem validation_fault_changes_nothing
        (n status : Z) (statusText : string) (jsonData : JSValue) (reason : string)
        (this : t) :
  ok status = true ->
  run (Hardened.jsonToAnnouncementsData jsonData) = inl (ValidationError reason) ->
  updateAnnouncements n (Response status statusText (Some jsonData)) this
  = (this, [SetTimeout_update n]).
Proof.
  intros Hok Hparse. unfold updateAnnouncements, try_block.
  rewrite Hok, Hparse. reflexivity.
Qed.

(** A validation fault only arises from the payload of an ok response. *)
Lemma validation_fault_origin (n : Z) (o : FetchOutcome) (this : t) (reason : string) :
  try_block n o this = Threw (ValidationError reason) ->
  exists status statusText jsonData,
    o = Response status statusText (Some jsonData) /\ ok status = true
    /\ run (Hardened.jsonToAnnouncementsData jsonData) = inl (ValidationError reason).
Proof.
  destruct o as [|status statusText [jsonData|]]; simpl; try discriminate.
  - destruct (ok status) eqn:Hok; simpl.
    + destruct (run (Hardened.jsonToAnnouncementsData jsonData)) as [e|a] eqn:Hp;
        [| discriminate].
      intros He. injection He as ->. now exists status, statusText, jsonData.
    + destruct (shouldRetry status); discriminate.
  - destruct (ok status); simpl; [discriminate |].
    destruct (shouldRetry status); discriminate.
Qed.

End HardenedCycles.

(* ===================================================================== *)
(** * Reasoning about commands *)
(* ===================================================================== *)

Section Triples.
Context {S : Type}.
Implicit Types (P Q R : S -> Prop) (E : Effect -> bool) (c : Cmd S).

Lemma triple_skip P Q E : (forall s, P s -> Q s) -> triple P skip Q E.
Proof. intros HPQ s Hs. split; [now apply HPQ | reflexivity]. Qed.

Lemma triple_modify P Q E (f : S -> S) :
  (forall s, P s -> Q (f s)) -> triple P (modify f) Q E.
Proof. intros HPQ s Hs. split; [now apply HPQ | reflexivity]. Qed.

Lemma triple_emit P Q E (e : S -> Effect) :
  (forall s, P s -> Q s /\ E (e s) = true) -> triple P (emit e) Q E.
Proof.
  intros HPQ s Hs. destruct (HPQ s Hs) as [HQ HE]. split; [exact HQ |].
  cbn. now rewrite HE.
Qed.

Lemma triple_seq P R Q E c1 c2 :
  triple P c1 R E -> triple R c2 Q E -> triple P (c1 ;;; c2) Q E.
Proof.
  intros H1 H2 s Hs. unfold andThen.
  destruct (H1 s Hs) as [HR HE1]. destruct (c1 s) as [s1 e1]. cbn [fst snd] in *.
  destruct (H2 s1 HR) as [HQ HE2]. destruct (c2 s1) as [s2 e2]. cbn [fst snd] in *.
  split; [exact HQ |]. rewrite forallb_app. now rewrite HE1, HE2.
Qed.

Lemma triple_if P Q E (b : S -> bool) c1 c2 :
  triple (fun s => P s /\ b s = true) c1 Q E ->
  triple (fun s => P s /\ b s = false) c2 Q E ->
  triple P (ifThenElse b c1 c2) Q E.
Proof.
  intros H1 H2 s Hs. unfold ifThenElse. destruct (b s) eqn:Hb.
  - now apply H1.
  - now apply H2.
Qed.

Lemma triple_when P Q E (b : S -> bool) c :
  triple (fun s => P s /\ b s = true) c Q E ->
  (forall s, P s -> b s = false -> Q s) ->
  triple P (when b c) Q E.
Proof.
  intros H1 H2. apply triple_if; [exact H1 |].
  apply triple_skip. intros s [Hs Hb]. now apply H2.
Qed.

Lemma triple_reading P Q E {A} (arg : S -> A) (k : A -> Cmd S) :
  (forall a, triple (fun s => P s /\ arg s = a) (k a) Q E) ->
  triple P (reading arg k) Q E.
Proof. intros Hk s Hs. unfold reading. now apply (Hk (arg s)). Qed.

Lemma triple_weaken P P' Q Q' E c :
  (forall s, P' s -> P s) -> (forall s, Q s -> Q' s) ->
  triple P c Q E -> triple P' c Q' E.
Proof.
  intros HP HQ Hc s Hs. destruct (Hc s (HP s Hs)) as [H1 H2].
  split; [now apply HQ | exact H2].
Qed.

(** A precondition that cannot hold. *)
Lemma triple_absurd P Q E c : (forall s, P s -> False) -> triple P c Q E.
Proof. intros HP s Hs. destruct (HP s Hs). Qed.

End Triples.

(** One step through the structure of a command, with [I] the state
    predicate between the parts of a sequence. *)
Ltac triple_step I :=
  lazymatch goal with
  | |- triple _ (andThen _ _) _ _ => apply triple_seq with (R := I)
  | |- triple _ (when _ _) _ _ => apply triple_if; [| apply triple_skip]
  | |- triple _ (ifThenElse _ _ _) _ _ => apply triple_if
  | |- triple _ (reading _ _) _ _ => apply triple_reading; intros ?
  | |- triple _ (modify _) _ _ => apply triple_modify
  | |- triple _ (emit _) _ _ => apply triple_emit
  | |- triple _ skip _ _ => apply triple_skip
  | |- triple _ (match ?x with _ => _ end) _ _ => destruct x
  | |- triple _ (if ?x then _ else _) _ _ => destruct x
  end.

(** A statement about the fields of a poller, by cases on the button. *)
Ltac fields :=
  intros;
  cbn beta in *;
  repeat match goal with
         | H : _ /\ _ |- _ => destruct H
         end;
  repeat match goal with
         | s : HardenedPoller.t |- _ => destruct s
         | s : SimplePoller.t |- _ => destruct s
         end;
  unfold hardened_seen, simple_seen, hardened_stored, simple_stored,
    HardenedPoller.set_textContent, HardenedPoller.set_color, HardenedPoller.set_title,
    HardenedPoller.update_button, HardenedPoller.hasButton,
    SimplePoller.set_textContent, SimplePoller.hasButton in *;
  cbn in *;
  repeat match goal with
         | H : _ /\ _ |- _ => destruct H
         end;
  subst;
  repeat match goal with
         | b : option _ |- _ => destruct b
         end;
  cbn in *;
  rewrite ?String.eqb_refl in *;
  try discriminate;
  repeat match goal with
         | E : negb (String.eqb _ _) = false |- _ =>
             apply negb_false_iff in E; apply String.eqb_eq in E; subst
         end;
  repeat split; auto.

Ltac triple_auto I :=
  repeat first [ solve [apply triple_absurd; fields] | triple_step I ];
  try solve [fields].

(* ===================================================================== *)
(** * Successful cycles *)
(* ===================================================================== *)

Section HardenedShow.
Context `{Hardened.DOMPurify}.
Import HardenedPoller.

(** An ok response with a valid payload runs [show] and sets the next
    cycle after the base interval. *)
Lemma hardened_success_cycle (n status : Z) (statusText : string) (jsonData : JSValue)
      (a : Hardened.AnnouncementsData.t) (this : t) :
  ok status = true ->
  run (Hardened.jsonToAnnouncementsData jsonData) = inr a ->
  updateAnnouncements n (Response status statusText (Some jsonData)) this
  = (fst (show a this), snd (show a this) ++ [SetTimeout_update n]).
Proof.
  intros Hok Hparse. unfold updateAnnouncements, try_block.
  rewrite Hok, Hparse. cbn [negb andb].
  now destruct (show a this).
Qed.

(** After [show], [last_rendered] is the rendering of the payload. *)
Lemma hardened_show_stores (a : Hardened.AnnouncementsData.t) :
  triple (fun _ => True) (show a)
         (hardened_stored (Hardened.AnnouncementsData.toHtml a)) anyEffect.
Proof.
  unfold show. generalize (Hardened.AnnouncementsData.toHtml a) as rendered.
  generalize (Hardened.AnnouncementsData.popup a) as popup. intros popup rendered.
  apply triple_reading; intros w.
  apply triple_seq with (R := fun _ => True); [triple_auto (fun _ : t => True) |].
  apply triple_seq with (R := fun _ => True); [triple_auto (fun _ : t => True) |].
  apply triple_seq with (R := hardened_stored rendered).
  - apply triple_if; [| apply triple_skip; fields].
    apply triple_seq with (R := fun _ => True); apply triple_modify; fields.
  - unfold createAnnouncementsButton, showRecoveryNotification,
      updateButtonForServiceState, updateButtonTooltip, openAnnouncements.
    triple_auto (hardened_stored rendered).
Qed.

(** [show] on the rendering already stored, nothing unseen: nothing
    becomes unseen and no dialog is shown. *)
Lemma hardened_show_same (a : Hardened.AnnouncementsData.t) :
  triple (hardened_seen (Hardened.AnnouncementsData.toHtml a)) (show a)
         (hardened_seen (Hardened.AnnouncementsData.toHtml a)) notShowDialog.
Proof.
  unfold show. generalize (Hardened.AnnouncementsData.toHtml a) as rendered.
  generalize (Hardened.AnnouncementsData.popup a) as popup. intros popup rendered.
  unfold createAnnouncementsButton, showRecoveryNotification,
    updateButtonForServiceState, updateButtonTooltip, openAnnouncements.
  triple_auto (hardened_seen rendered).
Qed.

End HardenedShow.

Section SimpleShow.
Import SimplePoller.

(** A response whose body is a valid payload runs [show]; the simple
    revision does not look at the status. *)
Lemma simple_success_cycle (n status : Z) (statusText : string) (jsonData : JSValue)
      (a : Simple.AnnouncementsData.t) (this : t) :
  run (Simple.jsonToAnnouncementsData jsonData) = inr a ->
  updateAnnouncements n (Response status statusText (Some jsonData)) this
  = (fst (show a this), snd (show a this) ++ [SetTimeout_update n]).
Proof.
  intros Hparse. unfold updateAnnouncements, try_block.
  rewrite Hparse. now destruct (show a this).
Qed.

Lemma simple_show_stores (a : Simple.AnnouncementsData.t) :
  triple (fun _ => True) (show a)
         (simple_stored (Simple.AnnouncementsData.toHtml a)) anyEffect.
Proof.
  unfold show. generalize (Simple.AnnouncementsData.toHtml a) as rendered.
  generalize (Simple.AnnouncementsData.popup a) as popup. intros popup rendered.
  apply triple_seq with (R := simple_stored rendered).
  - apply triple_if; [| apply triple_skip; fields].
    apply triple_seq with (R := fun _ => True); apply triple_modify; fields.
  - unfold createAnnouncementsButton, openAnnouncements.
    triple_auto (simple_stored rendered).
Qed.

Lemma simple_show_same (a : Simple.AnnouncementsData.t) :
  triple (simple_seen (Simple.AnnouncementsData.toHtml a)) (show a)
         (simple_seen (Simple.AnnouncementsData.toHtml a)) notShowDialog.
Proof.
  unfold show. generalize (Simple.AnnouncementsData.toHtml a) as rendered.
  generalize (Simple.AnnouncementsData.popup a) as popup. intros popup rendered.
  unfold createAnnouncementsButton, openAnnouncements.
  triple_auto (simple_seen rendered).
Qed.

End SimpleShow.

Lemma no_dialog_then_timer (effs : list Effect) (n : Z) :
  forallb notShowDialog effs = true ->
  existsb isShowDialog (effs ++ [SetTimeout_update n]) = false.
Proof.
  intros Hq. rewrite existsb_app. cbn. rewrite orb_false_r.
  induction effs as [|e effs IH]; [reflexivity |].
  cbn in Hq |- *. apply andb_true_iff in Hq as [He Hq].
  unfold notShowDialog in He. apply negb_true_iff in He. rewrite He. now apply IH.
Qed.

(** C9.  Two cycles in a row whose payloads are valid and render to the
    same HTML (on ok responses, for the hardened revision): when nothing
    is unseen after the first cycle, nothing is unseen after the second
    and the second shows no dialog.  In both revisions. *)
Theorem identical_polls_stay_seen `{Hardened.DOMPurify}
        (n status1 status2 : Z) (text1 text2 : string) (json1 json2 : JSValue) :
  (forall a1 a2 this,
     ok status1 = true -> ok status2 = true ->
     run (Hardened.jsonToAnnouncementsData json1) = inr a1 ->
     run (Hardened.jsonToAnnouncementsData json2) = inr a2 ->
     Hardened.AnnouncementsData.toHtml a1 = Hardened.AnnouncementsData.toHtml a2 ->
     HardenedPoller.newAnnouncement
       (fst (HardenedPoller.updateAnnouncements n (Response status1 text1 (Some json1)) this))
     = false ->
     HardenedPoller.newAnnouncement
       (fst (HardenedPoller.updateAnnouncements n (Response status2 text2 (Some json2))
               (fst (HardenedPoller.updateAnnouncements n
                       (Response status1 text1 (Some json1)) this))))
     = false
     /\ existsb isShowDialog
          (snd (HardenedPoller.updateAnnouncements n (Response status2 text2 (Some json2))
                  (fst (HardenedPoller.updateAnnouncements n
                          (Response status1 text1 (Some json1)) this))))
        = false)
  /\ (forall a1 a2 this,
     run (Simple.jsonToAnnouncementsData json1) = inr a1 ->
     run (Simple.jsonToAnnouncementsData json2) = inr a2 ->
     Simple.AnnouncementsData.toHtml a1 = Simple.AnnouncementsData.toHtml a2 ->
     SimplePoller.newAnnouncement
       (fst (SimplePoller.updateAnnouncements n (Response status1 text1 (Some json1)) this))
     = false ->
     SimplePoller.newAnnouncement
       (fst (SimplePoller.updateAnnouncements n (Response status2 text2 (Some json2))
               (fst (SimplePoller.updateAnnouncements n
                       (Response status1 text1 (Some json1)) this))))
     = false
     /\ existsb isShowDialog
          (snd (SimplePoller.updateAnnouncements n (Response status2 text2 (Some json2))
                  (fst (SimplePoller.updateAnnouncements n
                          (Response status1 text1 (Some json1)) this))))
        = false).
Proof.
  split.
  - intros a1 a2 this Hok1 Hok2 Hp1 Hp2 Hsame.
    rewrite (hardened_success_cycle n status1 text1 json1 a1 this Hok1 Hp1).
    cbn [fst]. intros Hseen.
    rewrite (hardened_success_cycle n status2 text2 json2 a2 _ Hok2 Hp2).
    cbn [fst snd].
    destruct (hardened_show_stores a1 this I) as [Hstored _].
    destruct (hardened_show_same a2 (fst (HardenedPoller.show a1 this)))
      as [[Hna _] Hquiet].
    { split; [exact Hseen | now rewrite <- Hsame]. }
    split; [exact Hna | now apply no_dialog_then_timer].
  - intros a1 a2 this Hp1 Hp2 Hsame.
    rewrite (simple_success_cycle n status1 text1 json1 a1 this Hp1).
    cbn [fst]. intros Hseen.
    rewrite (simple_success_cycle n status2 text2 json2 a2 _ Hp2).
    cbn [fst snd].
    destruct (simple_show_stores a1 this I) as [Hstored _].
    destruct (simple_show_same a2 (fst (SimplePoller.show a1 this)))
      as [[Hna _] Hquiet].
    { split; [exact Hseen | now rewrite <- Hsame]. }
    split; [exact Hna | now apply no_dialog_then_timer].
Qed.

(* ===================================================================== *)
(** * Further properties: escaping *)
(* ===================================================================== *)

Lemma escape_string_length (s : string) :
  (String.length s <= String.length (DOM.escape_string s))%nat.
Proof.
  induction s as [|c s IH]; [apply Nat.le_refl |].
  cbn [DOM.escape_string]. rewrite length_append.
  destruct (escape_char_cases c)
    as [[-> ->]|[[-> ->]|[[-> ->]|[[-> ->]|(_ & _ & _ & _ & ->)]]]];
    cbn [String.length]; lia.
Qed.

Lemma plain_char_cases (c : ascii) :
  plain_char c = true ->
  DOM.escape_char c = String c EmptyString.
Proof.
  unfold plain_char. rewrite negb_true_iff, !orb_false_iff.
  intros [[[Hamp Hlt] Hgt] Hnb]. unfold DOM.escape_char.
  now rewrite Hamp, Hnb, Hlt, Hgt.
Qed.

Lemma escape_string_plain (s : string) :
  all_chars plain_char s = true -> DOM.escape_string s = s.
Proof.
  induction s as [|c s IH]; [reflexivity |].
  cbn [all_chars DOM.escape_string]. rewrite andb_true_iff. intros [Hc Hs].
  rewrite (plain_char_cases c Hc), (IH Hs). reflexivity.
Qed.

(** X4.  The hardened [escapeHtml] returns its argument unchanged exactly
    when the argument holds none of the characters ampersand, less-than,
    greater-than and no-break space. *)
Theorem hardened_escapeHtml_fixes_plain_text (html : string) :
  Hardened.escapeHtml html = html <-> all_chars plain_char html = true.
Proof.
  rewrite hardened_escapeHtml_eq. split; [| apply escape_string_plain].
  induction html as [|c s IH]; [reflexivity |].
  cbn [DOM.escape_string all_chars]. intros Heq.
  pose proof (escape_string_length s) as Hlen.
  assert (Hl := f_equal String.length Heq). rewrite length_append in Hl.
  cbn [String.length] in Hl.
  destruct (escape_char_cases c)
    as [[-> E]|[[-> E]|[[-> E]|[[-> E]|(Hamp & Hlt & Hgt & Hnb & E)]]]];
    rewrite E in Heq, Hl; cbn [String.length] in Hl; try lia.
  cbn [append] in Heq. injection Heq as Heq.
  unfold plain_char. rewrite Hamp, Hlt, Hgt, Hnb. cbn [orb negb andb].
  now apply IH.
Qed.

(* ===================================================================== *)
(** * Further properties: the [expires] pattern *)
(* ===================================================================== *)

Module ExpiresFacts.
Import Regex RegexFacts PatternFacts.

Lemma matches_ext (r1 r2 : regex) :
  (forall s, lang r1 s <-> lang r2 s) -> forall s, matches r1 s = matches r2 s.
Proof.
  intros Hl s. destruct (matches r1 s) eqn:E1, (matches r2 s) eqn:E2; try reflexivity.
  - apply matches_lang, Hl, matches_lang in E1. congruence.
  - apply matches_lang, Hl, matches_lang in E2. congruence.
Qed.

Lemma matches_Cat_assoc (a b r : regex) (s : string) :
  matches (Cat (Cat a b) r) s = matches (Cat a (Cat b r)) s.
Proof.
  apply matches_ext. clear s. intros s. split; intros Hs.
  - apply lang_Cat_inv in Hs as (s12 & s3 & -> & H12 & H3).
    apply lang_Cat_inv in H12 as (s1 & s2 & -> & H1 & H2).
    rewrite append_assoc. now repeat constructor.
  - apply lang_Cat_inv in Hs as (s1 & s23 & -> & H1 & H23).
    apply lang_Cat_inv in H23 as (s2 & s3 & -> & H2 & H3).
    rewrite <- append_assoc. now repeat constructor.
Qed.

(** A starred class followed by [r]: either [r] matches at once, or a
    character of the class is consumed. *)
Lemma matches_Star_Class_then (p : ascii -> bool) (r : regex) (s : string) :
  matches (Cat (Star (Class p)) r) s
  = matches r s
    || match s with
       | EmptyString => false
       | String c rest => p c && matches (Cat (Star (Class p)) r) rest
       end.
Proof.
  destruct s as [|c s]; [cbn; now rewrite orb_false_r |].
  cbn [matches deriv nullable]. rewrite matches_Alt, matches_Cat_assoc.
  destruct (p c); cbn [andb].
  - rewrite matches_Cat_Eps_l. apply orb_comm.
  - rewrite matches_Cat_Void. cbn [orb]. now rewrite orb_false_r.
Qed.

Lemma matches_digits_then (tpl : string) :
  forall s, matches (Cat (Star D) (tpl_regex tpl Eps)) s = digits_then tpl s.
Proof.
  induction s as [|c s IH].
  - unfold D. rewrite matches_Star_Class_then, matches_tpl_regex.
    cbn [digits_then]. f_equal.
    rewrite <- fits_then_is_empty. apply fits_then_ext. intros r. apply matches_Eps.
  - unfold D in *. rewrite matches_Star_Class_then, matches_tpl_regex, IH.
    cbn [digits_then]. f_equal.
    rewrite <- fits_then_is_empty. apply fits_then_ext. intros r. apply matches_Eps.
Qed.

(** The [expires] pattern of the source accepts exactly [expires_shape]. *)
Lemma test_expires (s : string) : RegExp_test re_expires s = expires_shape s.
Proof.
  unfold RegExp_test, re_expires.
  change (cats [Plus D; Lit "-"; D; D; Lit ":"; D; D; Lit ":"; D; D])
    with (Cat (Cat D (Star D)) (tpl_regex "-dd:dd:dd" Eps)).
  rewrite matches_Cat_assoc. unfold D at 1. rewrite matches_Cat_Class.
  destruct s as [|c s]; [reflexivity |].
  now rewrite matches_digits_then.
Qed.

Lemma digits_then_split (tpl : string) :
  forall s, digits_then tpl s = true <->
            exists ds rest, s = (ds ++ rest)%string
                            /\ all_chars digit ds = true /\ fits tpl rest = true.
Proof.
  induction s as [|c s IH]; cbn [digits_then].
  - rewrite orb_false_r. split.
    + intros Hf. exists EmptyString, EmptyString. now repeat split.
    + intros (ds & rest & Hs & _ & Hf).
      symmetry in Hs. apply append_is_empty in Hs as [_ ->]. exact Hf.
  - rewrite orb_true_iff, andb_true_iff, IH. split.
    + intros [Hf|[Hc (ds & rest & -> & Hd & Hf)]].
      * exists EmptyString, (String c s). now repeat split.
      * exists (String c ds), rest. cbn. rewrite Hc, Hd. now repeat split.
    + intros (ds & rest & Hs & Hd & Hf). destruct ds as [|d ds].
      * cbn in Hs. subst rest. now left.
      * cbn in Hs, Hd. injection Hs as <- ->. apply andb_true_iff in Hd as [Hc Hd].
        right. split; [exact Hc |]. now exists ds, rest.
Qed.

End ExpiresFacts.

(** X5.  The [expires] test of [Message] accepts a string exactly when it
    is one or more decimal digits followed by [-dd:dd:dd], [d] any
    decimal digit: the hours, minutes and seconds are two digits each and
    are not checked against 23 or 59. *)
Theorem expires_pattern (s : string) :
  string_and (JStr s) (RegExp_test re_expires) = true
  <-> exists days rest,
        s = (days ++ rest)%string /\ days <> EmptyString
        /\ all_chars Regex.digit days = true /\ fits "-dd:dd:dd" rest = true.
Proof.
  cbn [string_and]. rewrite ExpiresFacts.test_expires. unfold expires_shape.
  destruct s as [|c s].
  - split; [discriminate |]. intros (days & rest & Hs & Hne & _).
    symmetry in Hs. apply RegexFacts.append_is_empty in Hs as [-> _]. now destruct Hne.
  - rewrite andb_true_iff, ExpiresFacts.digits_then_split. split.
    + intros [Hc (ds & rest & -> & Hd & Hf)].
      exists (String c ds), rest. cbn. rewrite Hc, Hd. repeat split; [discriminate | exact Hf].
    + intros (days & rest & Hs & Hne & Hd & Hf). destruct days as [|d ds]; [now destruct Hne |].
      cbn in Hs, Hd. injection Hs as <- ->. apply andb_true_iff in Hd as [Hc Hd].
      split; [exact Hc |]. now exists ds, rest.
Qed.

(** A duration of days, and one whose hours are 99; a date is refused. *)
Example expires_examples :
  RegExp_test re_expires "0-00:00:00" = true
  /\ RegExp_test re_expires "365-23:59:59" = true
  /\ RegExp_test re_expires "1-99:99:99" = true
  /\ RegExp_test re_expires "-00:00:00" = false
  /\ RegExp_test re_expires "1-0:00:00" = false
  /\ RegExp_test re_expires "2024-01-01T10:00" = false.
Proof. repeat split. Qed.

(* ===================================================================== *)
(** * Further properties: the [Message] constructor *)
(* ===================================================================== *)

Lemma string_and_ext (v : JSValue) (p q : string -> bool) :
  (forall s, p s = q s) -> string_and v p = string_and v q.
Proof. intros Hpq. destruct v; try reflexivity. apply Hpq. Qed.

Lemma content_ok_eq (m : string) :
  (0 <? String.length m)%nat && (String.length m <=? 1024)%nat = content_ok m.
Proof. unfold content_ok. now destruct (String.length m). Qed.

Section MessageConstructor.
Context `{Hardened.DOMPurify}.

(** The constructor of the hardened revision, its patterns read as
    shapes. *)
Lemma hardened_new_by_shapes (username timestamp expires level message : JSValue) :
  Hardened.Message.new username timestamp expires level message
  = if negb (string_and username username_valid)
    then inl (ValidationError "Bad message username.")
    else if negb (string_and timestamp timestamp_accepted)
    then inl (ValidationError "Bad message timestamp.")
    else if negb (string_and expires expires_shape)
    then inl (ValidationError "Bad expires time.")
    else if negb (includes levels level)
    then inl (ValidationError "Bad level setting.")
    else if negb (string_and message content_ok)
    then inl (ValidationError "Bad message content.")
    else inr {| Hardened.Message.username := Hardened.escapeHtml (text_of username);
                Hardened.Message.timestamp := Hardened.escapeHtml (text_of timestamp);
                Hardened.Message.expires := Hardened.escapeHtml (text_of expires);
                Hardened.Message.level := Hardened.escapeHtml (text_of level);
                Hardened.Message.message := Hardened.sanitizeHtml (text_of message) |}.
Proof.
  rewrite hardened_new_eq.
  rewrite (string_and_ext username _ _ PatternFacts.test_username).
  rewrite (string_and_ext timestamp _ _ PatternFacts.test_timestamp).
  rewrite (string_and_ext expires _ _ ExpiresFacts.test_expires).
  rewrite (string_and_ext message _ _ content_ok_eq).
  reflexivity.
Qed.

Lemma simple_new_by_shapes (username timestamp expires level message : JSValue) :
  Simple.Message.new username timestamp expires level message
  = if negb (string_and username username_valid)
    then inl (Error "Bad message username.")
    else if negb (string_and timestamp timestamp_accepted)
    then inl (Error "Bad message timestamp.")
    else if negb (string_and expires expires_shape)
    then inl (Error "Bad expires time.")
    else if negb (includes levels level)
    then inl (Error "Bad level setting.")
    else if negb (string_and message content_ok)
    then inl (Error "Bad message content.")
    else inr {| Simple.Message.username := Simple.escapeHtml (text_of username);
                Simple.Message.timestamp := Simple.escapeHtml (text_of timestamp);
                Simple.Message.expires := Simple.escapeHtml (text_of expires);
                Simple.Message.level := Simple.escapeHtml (text_of level);
                Simple.Message.message := Simple.escapeHtml (text_of message) |}.
Proof.
  rewrite simple_new_eq.
  rewrite (string_and_ext username _ _ PatternFacts.test_username).
  rewrite (string_and_ext timestamp _ _ PatternFacts.test_timestamp).
  rewrite (string_and_ext expires _ _ ExpiresFacts.test_expires).
  rewrite (string_and_ext message _ _ content_ok_eq).
  reflexivity.
Qed.

Lemma hardened_new_isOk (username timestamp expires level message : JSValue) :
  isOk (Hardened.Message.new username timestamp expires level message)
  = message_valid username timestamp expires level message.
Proof.
  rewrite hardened_new_by_shapes. unfold message_valid.
  now destruct (string_and username username_valid),
    (string_and timestamp timestamp_accepted),
    (string_and expires expires_shape),
    (includes levels level),
    (string_and message content_ok).
Qed.

Lemma simple_new_isOk (username timestamp expires level message : JSValue) :
  isOk (Simple.Message.new username timestamp expires level message)
  = message_valid username timestamp expires level message.
Proof.
  rewrite simple_new_by_shapes. unfold message_valid.
  now destruct (string_and username username_valid),
    (string_and timestamp timestamp_accepted),
    (string_and expires expires_shape),
    (includes levels level),
    (string_and message content_ok).
Qed.

(** X6.  In both revisions a [Message] is constructed exactly when the
    five fields are valid together: a username of 1 to 32 characters of
    its set, a timestamp the pattern accepts, an [expires] of the shape
    digits[-dd:dd:dd], one of the six levels, and a text of 1 to 1024
    characters, each of them a string. *)
Theorem message_constructed_iff (username timestamp expires level message : JSValue) :
  isOk (Hardened.Message.new username timestamp expires level message)
  = message_valid username timestamp expires level message
  /\ isOk (Simple.Message.new username timestamp expires level message)
  = message_valid username timestamp expires level message.
Proof. split; [apply hardened_new_isOk | apply simple_new_isOk]. Qed.

(** X7.  The checks run in the order username, timestamp, expires, level,
    text, and the first that fails names the fault: with a valid username
    and timestamp, a bad [expires] gives the fault for the expiry; with a
    valid [expires] too, a level outside the six gives the fault for the
    level; with a valid level too, an empty or overlong text gives the
    fault for the content. *)
Theorem message_fault_order (username timestamp expires level message : JSValue) :
  string_and username username_valid = true ->
  string_and timestamp timestamp_accepted = true ->
  (string_and expires expires_shape = false ->
     Hardened.Message.new username timestamp expires level message
     = inl (ValidationError "Bad expires time.")
     /\ Simple.Message.new username timestamp expires level message
     = inl (Error "Bad expires time."))
  /\ (string_and expires expires_shape = true -> includes levels level = false ->
     Hardened.Message.new username timestamp expires level message
     = inl (ValidationError "Bad level setting.")
     /\ Simple.Message.new username timestamp expires level message
     = inl (Error "Bad level setting."))
  /\ (string_and expires expires_shape = true -> includes levels level = true ->
      string_and message content_ok = false ->
     Hardened.Message.new username timestamp expires level message
     = inl (ValidationError "Bad message content.")
     /\ Simple.Message.new username timestamp expires level message
     = inl (Error "Bad message content.")).
Proof.
  intros Hu Ht. rewrite hardened_new_by_shapes, simple_new_by_shapes, Hu, Ht.
  cbn [negb]. split; [| split].
  - intros He. rewrite He. split; reflexivity.
  - intros He Hl. rewrite He, Hl. split; reflexivity.
  - intros He Hl Hm. rewrite He, Hl, Hm. split; reflexivity.
Qed.

End MessageConstructor.

(* ===================================================================== *)
(** * Further properties: what a constructed [Message] holds and shows *)
(* ===================================================================== *)

Lemma all_chars_impl (p q : ascii -> bool) (s : string) :
  (forall c, p c = true -> q c = true) -> all_chars p s = true -> all_chars q s = true.
Proof.
  intros Hpq. induction s as [|c s IH]; [reflexivity |].
  cbn [all_chars]. rewrite !andb_true_iff. intros [Hc Hs]. split; [now apply Hpq | now apply IH].
Qed.

Lemma all_chars_append (p : ascii -> bool) (s1 s2 : string) :
  all_chars p (s1 ++ s2) = all_chars p s1 && all_chars p s2.
Proof.
  induction s1 as [|c s1 IH]; [reflexivity |].
  cbn [append all_chars]. now rewrite IH, andb_assoc.
Qed.

Lemma digit_plain (c : ascii) : Regex.digit c = true -> plain_char c = true.
Proof. destruct c as [[] [] [] [] [] [] [] []]; (reflexivity || discriminate). Qed.

Lemma digit_not_dot (c : ascii) : Regex.digit c = true -> negb (Ascii.eqb c ".") = true.
Proof. destruct c as [[] [] [] [] [] [] [] []]; (reflexivity || discriminate). Qed.

Lemma username_char_plain (c : ascii) : username_char c = true -> plain_char c = true.
Proof. destruct c as [[] [] [] [] [] [] [] []]; (reflexivity || discriminate). Qed.

(** The characters of a string that fits a template without [?] are
    digits or characters of the template. *)
Lemma fits_all_chars (P : ascii -> bool) (tpl : string) :
  (forall c, Regex.digit c = true -> P c = true) ->
  all_chars (fun t => Ascii.eqb t "d" || (negb (Ascii.eqb t "?") && P t)) tpl = true ->
  forall s, fits tpl s = true -> all_chars P s = true.
Proof.
  intros Hd. induction tpl as [|t tpl IH]; intros Htpl [|c s]; cbn [fits all_chars];
    try discriminate; [reflexivity |].
  cbn [all_chars] in Htpl. apply andb_true_iff in Htpl as [Ht Htpl].
  rewrite !andb_true_iff. intros [Hc Hs]. split; [| now apply IH].
  unfold tpl_char in Hc. destruct (Ascii.eqb t "d"); [now apply Hd |].
  cbn [orb] in Ht. apply andb_true_iff in Ht as [Hq HP].
  apply negb_true_iff in Hq. rewrite Hq in Hc.
  apply Ascii.eqb_eq in Hc. now subst c.
Qed.

Lemma username_valid_plain (u : string) :
  username_valid u = true -> all_chars plain_char u = true.
Proof.
  unfold username_valid. rewrite !andb_true_iff. intros [_ Hc].
  exact (all_chars_impl _ _ u username_char_plain Hc).
Qed.

Lemma expires_shape_plain (e : string) :
  expires_shape e = true -> all_chars plain_char e = true.
Proof.
  unfold expires_shape. destruct e as [|c e]; [discriminate |].
  rewrite andb_true_iff. intros [Hc Hrest].
  apply ExpiresFacts.digits_then_split in Hrest as (ds & rest & -> & Hd & Hf).
  cbn [all_chars]. rewrite (digit_plain c Hc), all_chars_append.
  rewrite (all_chars_impl _ _ ds digit_plain Hd).
  now rewrite (fits_all_chars plain_char "-dd:dd:dd" digit_plain eq_refl rest Hf).
Qed.

Lemma level_plain (l : JSValue) :
  includes levels l = true ->
  exists ls, l = JStr ls /\ In ls levels /\ all_chars plain_char ls = true.
Proof.
  destruct l as [| | | |ls| |]; try discriminate. cbn [includes].
  intros Hin. apply existsb_exists in Hin as (x & Hx & Heq).
  apply String.eqb_eq in Heq. subst x. exists ls. split; [reflexivity |]. split; [exact Hx |].
  cbn in Hx. repeat (destruct Hx as [<-|Hx]; [reflexivity |]). destruct Hx.
Qed.

Lemma timestamp_shape_plain (t : string) :
  timestamp_shape t = true -> all_chars plain_char t = true.
Proof.
  unfold timestamp_shape. rewrite !orb_true_iff.
  intros [[[Hf|Hf]|Hf]|Hf].
  - exact (fits_all_chars plain_char "dddd-dd-ddTdd:dd" digit_plain eq_refl t Hf).
  - exact (fits_all_chars plain_char "dddd-dd-ddTdd:dd:dd" digit_plain eq_refl t Hf).
  - exact (fits_all_chars plain_char "dddd-dd-ddTdd:dd:dd.ddd" digit_plain eq_refl t Hf).
  - exact (fits_all_chars plain_char "dddd-dd-ddTdd:dd:dd.dddddd" digit_plain eq_refl t Hf).
Qed.

Lemma string_and_true (v : JSValue) (p : string -> bool) :
  string_and v p = true -> exists s, v = JStr s /\ p s = true.
Proof. destruct v; try discriminate. intros Hp. now eexists. Qed.

Section MessageFields.
Context `{Hardened.DOMPurify}.

(** What a successful construction has read and stored. *)
Lemma hardened_new_fields (username timestamp expires level message : JSValue)
      (msg : Hardened.Message.t) :
  Hardened.Message.new username timestamp expires level message = inr msg ->
  exists us ts es ls ms,
    username = JStr us /\ timestamp = JStr ts /\ expires = JStr es
    /\ level = JStr ls /\ message = JStr ms
    /\ In ls levels /\ timestamp_accepted ts = true
    /\ msg = {| Hardened.Message.username := us;
                Hardened.Message.timestamp := DOM.escape_string ts;
                Hardened.Message.expires := es;
                Hardened.Message.level := ls;
                Hardened.Message.message := Hardened.sanitizeHtml ms |}.
Proof.
  rewrite hardened_new_by_shapes.
  destruct (string_and username username_valid) eqn:Hu; [| discriminate].
  destruct (string_and timestamp timestamp_accepted) eqn:Ht; [| discriminate].
  destruct (string_and expires expires_shape) eqn:He; [| discriminate].
  destruct (includes levels level) eqn:Hl; [| discriminate].
  destruct (string_and message content_ok) eqn:Hm; [| discriminate].
  cbn [negb]. intros Hmsg. injection Hmsg as <-.
  apply string_and_true in Hu as (us & -> & Hu), Ht as (ts & -> & Ht),
    He as (es & -> & He), Hm as (ms & -> & Hm).
  apply level_plain in Hl as (ls & -> & Hin & Hls).
  exists us, ts, es, ls, ms. cbn [text_of].
  change Hardened.escapeHtml with DOM.escape_string.
  rewrite (escape_string_plain us (username_valid_plain us Hu)).
  rewrite (escape_string_plain es (expires_shape_plain es He)).
  rewrite (escape_string_plain ls Hls).
  repeat split; assumption.
Qed.

Lemma simple_new_fields (username timestamp expires level message : JSValue)
      (msg : Simple.Message.t) :
  Simple.Message.new username timestamp expires level message = inr msg ->
  exists us ts es ls ms,
    username = JStr us /\ timestamp = JStr ts /\ expires = JStr es
    /\ level = JStr ls /\ message = JStr ms
    /\ In ls levels /\ timestamp_accepted ts = true
    /\ msg = {| Simple.Message.username := us;
                Simple.Message.timestamp := ts;
                Simple.Message.expires := es;
                Simple.Message.level := ls;
                Simple.Message.message := ms |}.
Proof.
  rewrite simple_new_by_shapes.
  destruct (string_and username username_valid) eqn:Hu; [| discriminate].
  destruct (string_and timestamp timestamp_accepted) eqn:Ht; [| discriminate].
  destruct (string_and expires expires_shape) eqn:He; [| discriminate].
  destruct (includes levels level) eqn:Hl; [| discriminate].
  destruct (string_and message content_ok) eqn:Hm; [| discriminate].
  cbn [negb]. intros Hmsg. injection Hmsg as <-.
  apply string_and_true in Hu as (us & -> & Hu), Ht as (ts & -> & Ht),
    He as (es & -> & He), Hm as (ms & -> & Hm).
  apply level_plain in Hl as (ls & -> & Hin & Hls).
  exists us, ts, es, ls, ms. cbn [text_of].
  change Simple.escapeHtml with (fun s : string => Simple.escapeHtml s).
  cbn beta. rewrite !simple_escapeHtml_eq.
  repeat split; assumption.
Qed.

(** X8.  A constructed [Message] of the hardened revision holds the
    username, the [expires] and the level of the payload as they came
    (escaping finds nothing to escape in a valid one), the level being one
    of the six; it holds the timestamp escaped, which is the timestamp as
    it came when the character after its seconds, if any, is a dot; and
    it holds the text as DOMPurify returns it. *)
Theorem message_fields_stored (username timestamp expires level message : JSValue)
        (msg : Hardened.Message.t) :
  Hardened.Message.new username timestamp expires level message = inr msg ->
  exists us ts es ls ms,
    username = JStr us /\ timestamp = JStr ts /\ expires = JStr es
    /\ level = JStr ls /\ message = JStr ms
    /\ Hardened.Message.username msg = us
    /\ Hardened.Message.expires msg = es
    /\ Hardened.Message.level msg = ls /\ In ls levels
    /\ Hardened.Message.timestamp msg = DOM.escape_string ts
    /\ (dot_after_seconds ts = true -> Hardened.Message.timestamp msg = ts)
    /\ Hardened.Message.message msg = Hardened.sanitizeHtml ms.
Proof.
  intros Hnew.
  destruct (hardened_new_fields _ _ _ _ _ _ Hnew)
    as (us & ts & es & ls & ms & -> & -> & -> & -> & -> & Hin & Ht & ->).
  exists us, ts, es, ls, ms. cbn [Hardened.Message.username
    Hardened.Message.expires Hardened.Message.level Hardened.Message.timestamp
    Hardened.Message.message].
  repeat split; try assumption.
  intros Hdot. apply escape_string_plain, timestamp_shape_plain.
  now apply PatternFacts.accepted_shape.
Qed.

End MessageFields.

(* ===================================================================== *)
(** * Further properties: the timestamp cell *)
(* ===================================================================== *)

Lemma substring_whole (s : string) :
  forall n, (String.length s <= n)%nat -> substring 0 n s = s.
Proof.
  induction s as [|c s IH]; intros [|n] Hn; cbn in *; try reflexivity; try lia.
  rewrite IH; [reflexivity | lia].
Qed.

Lemma substring_parts (s : string) :
  forall n, s = (substring 0 n s ++ substring n (String.length s - n) s)%string.
Proof.
  induction s as [|c s IH]; intros [|n]; cbn; try reflexivity.
  - now rewrite substring_all.
  - now rewrite <- IH.
Qed.

Lemma split_first_none (sep : ascii) (s : string) :
  all_chars (fun c => negb (Ascii.eqb c sep)) s = true -> split_first sep s = s.
Proof.
  induction s as [|c s IH]; [reflexivity |].
  cbn [all_chars split_first]. rewrite andb_true_iff. intros [Hc Hs].
  apply negb_true_iff in Hc. rewrite Hc. now rewrite IH.
Qed.

Lemma split_first_at (sep : ascii) (s1 s2 : string) :
  all_chars (fun c => negb (Ascii.eqb c sep)) s1 = true ->
  split_first sep (s1 ++ String sep s2) = s1.
Proof.
  induction s1 as [|c s1 IH]; cbn [append all_chars split_first].
  - now rewrite Ascii.eqb_refl.
  - rewrite andb_true_iff. intros [Hc Hs].
    apply negb_true_iff in Hc. rewrite Hc. now rewrite IH.
Qed.

(** Cutting a timestamp of the intended shape at its first dot leaves its
    first 19 characters, the timestamp down to the seconds (all of it when
    it stops at the minutes). *)
Lemma split_first_timestamp (ts : string) :
  timestamp_shape ts = true -> split_first "." ts = substring 0 19 ts.
Proof.
  unfold timestamp_shape. rewrite !orb_true_iff. intros [[[Hf|Hf]|Hf]|Hf].
  - rewrite substring_whole by (rewrite (PatternFacts.fits_length _ _ Hf); cbn; lia).
    apply split_first_none.
    exact (fits_all_chars _ "dddd-dd-ddTdd:dd" digit_not_dot eq_refl ts Hf).
  - rewrite substring_whole by (rewrite (PatternFacts.fits_length _ _ Hf); cbn; lia).
    apply split_first_none.
    exact (fits_all_chars _ "dddd-dd-ddTdd:dd:dd" digit_not_dot eq_refl ts Hf).
  - destruct (PatternFacts.fits_split "dddd-dd-ddTdd:dd:dd" ".ddd" ts Hf) as [Ha Hb].
    cbn [String.length] in Ha, Hb.
    rewrite (substring_parts ts 19) at 1.
    destruct (substring 19 (String.length ts - 19) ts) as [|c rest]; [discriminate |].
    cbn [fits] in Hb. apply andb_true_iff in Hb as [Hc _].
    change (tpl_char "." c) with (Ascii.eqb "." c) in Hc.
    apply Ascii.eqb_eq in Hc. subst c. apply split_first_at.
    exact (fits_all_chars _ "dddd-dd-ddTdd:dd:dd" digit_not_dot eq_refl _ Ha).
  - destruct (PatternFacts.fits_split "dddd-dd-ddTdd:dd:dd" ".dddddd" ts Hf) as [Ha Hb].
    cbn [String.length] in Ha, Hb.
    rewrite (substring_parts ts 19) at 1.
    destruct (substring 19 (String.length ts - 19) ts) as [|c rest]; [discriminate |].
    cbn [fits] in Hb. apply andb_true_iff in Hb as [Hc _].
    change (tpl_char "." c) with (Ascii.eqb "." c) in Hc.
    apply Ascii.eqb_eq in Hc. subst c. apply split_first_at.
    exact (fits_all_chars _ "dddd-dd-ddTdd:dd:dd" digit_not_dot eq_refl _ Ha).
Qed.

Section TimestampCell.
Context `{Hardened.DOMPurify}.

(** X9.  For a message constructed from a timestamp of the intended
    shape, the timestamp cell shows the timestamp down to the seconds, in
    brackets: a fraction of three or six digits is dropped, the seconds
    are kept.  In both revisions. *)
Theorem timestamp_cell_drops_fraction
        (username expires level message : JSValue) (ts : string) :
  timestamp_shape ts = true ->
  (forall msg,
     Hardened.Message.new username (JStr ts) expires level message = inr msg ->
     Hardened.Message.fmtTimestamp msg
     = ("<td class='announce-timestamp'>[" ++ substring 0 19 ts ++ "]</td>")%string)
  /\ (forall msg,
     Simple.Message.new username (JStr ts) expires level message = inr msg ->
     Simple.Message.fmtTimestamp msg
     = ("<td class='announce-timestamp'>[" ++ substring 0 19 ts ++ "]</td>")%string).
Proof.
  intros Hshape. split; intros msg Hnew.
  - destruct (hardened_new_fields _ _ _ _ _ _ Hnew)
      as (us & ts' & es & ls & ms & _ & Hts & _ & _ & _ & _ & _ & ->).
    injection Hts as <-.
    unfold Hardened.Message.fmtTimestamp. cbn [Hardened.Message.timestamp].
    rewrite (escape_string_plain ts (timestamp_shape_plain ts Hshape)).
    now rewrite (split_first_timestamp ts Hshape).
  - destruct (simple_new_fields _ _ _ _ _ _ Hnew)
      as (us & ts' & es & ls & ms & _ & Hts & _ & _ & _ & _ & _ & ->).
    injection Hts as <-.
    unfold Simple.Message.fmtTimestamp. cbn [Simple.Message.timestamp].
    now rewrite (split_first_timestamp ts Hshape).
Qed.

End TimestampCell.

(* ===================================================================== *)
(** * Further properties: the parser *)
(* ===================================================================== *)

Lemma forallb_pointwise {A} (f g : A -> bool) :
  (forall a, f a = g a) -> forall l, forallb f l = forallb g l.
Proof.
  intros Hfg l. induction l as [|a l IH]; cbn [forallb]; [reflexivity |].
  now rewrite Hfg, IH.
Qed.

Lemma trace_blind_bind {A B} (m : Traced A) (k : A -> Traced B) :
  trace_blind m -> (forall a, trace_blind (k a)) -> trace_blind (bind m k).
Proof.
  intros Hm Hk t1 t2. unfold bind. specialize (Hm t1 t2).
  destruct (m t1) as [[e1|a1] u1], (m t2) as [[e2|a2] u2];
    cbn [fst] in Hm; try discriminate; [now injection Hm as -> |].
  injection Hm as <-. apply Hk.
Qed.

Lemma trace_blind_lift {A} (r : Result A) : trace_blind (lift r).
Proof. intros t1 t2. reflexivity. Qed.

Lemma trace_blind_throw {A} (e : Exn) : trace_blind (@throw A e).
Proof. intros t1 t2. reflexivity. Qed.

Lemma trace_blind_construct {A} (c : Call) (r : Result A) : trace_blind (construct c r).
Proof. intros t1 t2. reflexivity. Qed.

Lemma trace_blind_ret {A} (a : A) : trace_blind (ret a).
Proof. intros t1 t2. reflexivity. Qed.

Lemma trace_blind_mapM {A B} (f : A -> Traced B) (l : list A) :
  (forall a, trace_blind (f a)) -> trace_blind (mapM f l).
Proof.
  intros Hf. induction l as [|a l IH]; cbn [mapM]; [apply trace_blind_ret |].
  apply trace_blind_bind; [apply Hf | intros b].
  apply trace_blind_bind; [exact IH | intros bs; apply trace_blind_ret].
Qed.

Section MapM.
Context {A B : Type} (f : A -> Traced B).

(** What [arr.map(f)] returns when no callback throws. *)
Lemma mapM_inv (l : list A) :
  forall tr bs tr',
    mapM f l tr = (inr bs, tr') ->
    Forall2 (fun a b => exists t1 t2, f a t1 = (inr b, t2)) l bs.
Proof.
  induction l as [|a l IH]; intros tr bs tr'; cbn [mapM].
  - unfold ret. intros Hr. injection Hr as <- _. constructor.
  - unfold bind at 1. destruct (f a tr) as [[e|b] tr1] eqn:Ef; [discriminate |].
    unfold bind at 1. destruct (mapM f l tr1) as [[e|bs1] tr2] eqn:Em; [discriminate |].
    unfold ret. intros Hr. injection Hr as <- _.
    constructor; [now exists tr, tr1 | now apply (IH tr1 bs1 tr2)].
Qed.

Hypothesis f_blind : forall a, trace_blind (f a).

Lemma mapM_isOk (l : list A) (tr : list Call) :
  isOk (fst (mapM f l tr)) = forallb (fun a => isOk (fst (f a []))) l.
Proof.
  revert tr. induction l as [|a l IH]; intros tr; cbn [mapM forallb]; [reflexivity |].
  unfold bind at 1. rewrite <- (f_blind a tr []).
  destruct (f a tr) as [[e|b] tr1]; cbn [fst isOk andb]; [reflexivity |].
  unfold bind. rewrite <- (IH tr1).
  now destruct (mapM f l tr1) as [[e|bs] tr2].
Qed.

(** A successful [map] returns as many results as the array has
    elements. *)
Lemma mapM_length (l : list A) (tr tr' : list Call) (bs : list B) :
  mapM f l tr = (inr bs, tr') -> length bs = length l.
Proof.
  intros Hm. apply mapM_inv in Hm. symmetry.
  induction Hm; cbn [length]; congruence.
Qed.

End MapM.

Section ParserAccepts.
Context `{Hardened.DOMPurify}.

Lemma hardened_messageOf_fst (msg : JSValue) (tr : list Call) :
  fst (Hardened.messageOf msg tr)
  = match get msg f_username, get msg f_timestamp, get msg f_expires,
          get msg f_level, get msg f_message with
    | inr username, inr timestamp, inr expires, inr level, inr message =>
        Hardened.Message.new username timestamp expires level message
    | inl e, _, _, _, _ => inl e
    | _, inl e, _, _, _ => inl e
    | _, _, inl e, _, _ => inl e
    | _, _, _, inl e, _ => inl e
    | _, _, _, _, inl e => inl e
    end.
Proof. destruct msg; reflexivity. Qed.

Lemma simple_messageOf_fst (msg : JSValue) (tr : list Call) :
  fst (Simple.messageOf msg tr)
  = match get msg f_username, get msg f_timestamp, get msg f_expires,
          get msg f_level, get msg f_message with
    | inr username, inr timestamp, inr expires, inr level, inr message =>
        Simple.Message.new username timestamp expires level message
    | inl e, _, _, _, _ => inl e
    | _, inl e, _, _, _ => inl e
    | _, _, inl e, _, _ => inl e
    | _, _, _, inl e, _ => inl e
    | _, _, _, _, inl e => inl e
    end.
Proof. destruct msg; reflexivity. Qed.

Lemma hardened_messageOf_isOk (msg : JSValue) (tr : list Call) :
  isOk (fst (Hardened.messageOf msg tr)) = payload_message_valid msg.
Proof.
  rewrite hardened_messageOf_fst. unfold payload_message_valid.
  destruct (get msg f_username), (get msg f_timestamp), (get msg f_expires),
    (get msg f_level), (get msg f_message); try reflexivity.
  apply hardened_new_isOk.
Qed.

Lemma simple_messageOf_isOk (msg : JSValue) (tr : list Call) :
  isOk (fst (Simple.messageOf msg tr)) = payload_message_valid msg.
Proof.
  rewrite simple_messageOf_fst. unfold payload_message_valid.
  destruct (get msg f_username), (get msg f_timestamp), (get msg f_expires),
    (get msg f_level), (get msg f_message); try reflexivity.
  apply simple_new_isOk.
Qed.

Lemma title_check (ttl : string) :
  (String.length ttl <=? 0)%nat || (128 <? String.length ttl)%nat = negb (title_ok ttl).
Proof.
  unfold title_ok.
  destruct (String.length ttl <=? 0)%nat eqn:E1, (128 <? String.length ttl)%nat eqn:E2,
    (1 <=? String.length ttl)%nat eqn:E3, (String.length ttl <=? 128)%nat eqn:E4;
    try reflexivity;
    rewrite ?Nat.leb_le, ?Nat.leb_gt, ?Nat.ltb_lt, ?Nat.ltb_ge in *; lia.
Qed.

Lemma count_check (n : nat) :
  (n <=? 0)%nat || (16 <? n)%nat = negb (count_ok n).
Proof.
  unfold count_ok.
  destruct (n <=? 0)%nat eqn:E1, (16 <? n)%nat eqn:E2,
    (1 <=? n)%nat eqn:E3, (n <=? 16)%nat eqn:E4;
    try reflexivity;
    rewrite ?Nat.leb_le, ?Nat.leb_gt, ?Nat.ltb_lt, ?Nat.ltb_ge in *; lia.
Qed.

Lemma hardened_block_new_isOk (title : JSValue) (msgs : list Hardened.Message.t) :
  isOk (Hardened.MessageBlock.new title msgs)
  = string_and title title_ok && count_ok (length msgs).
Proof.
  unfold Hardened.MessageBlock.new. destruct title; try reflexivity.
  cbn [string_and]. rewrite title_check, count_check.
  now destruct (title_ok s), (count_ok (length msgs)).
Qed.

Lemma simple_block_new_isOk (title : JSValue) (msgs : list Simple.Message.t) :
  isOk (Simple.MessageBlock.new title msgs)
  = string_and title title_ok && count_ok (length msgs).
Proof.
  unfold Simple.MessageBlock.new, Simple.log_and_throw. destruct title; try reflexivity.
  cbn [string_and]. rewrite title_check, count_check.
  now destruct (title_ok s), (count_ok (length msgs)).
Qed.

Lemma hardened_messageOf_blind (msg : JSValue) : trace_blind (Hardened.messageOf msg).
Proof. intros t1 t2. now rewrite !hardened_messageOf_fst. Qed.

Lemma simple_messageOf_blind (msg : JSValue) : trace_blind (Simple.messageOf msg).
Proof. intros t1 t2. now rewrite !simple_messageOf_fst. Qed.

Lemma hardened_blockOf_blind (blockData : JSValue) :
  trace_blind (Hardened.blockOf blockData).
Proof.
  unfold Hardened.blockOf.
  apply trace_blind_bind; [apply trace_blind_lift | intros bdmessages].
  destruct (asArray bdmessages) as [msgs|]; [| apply trace_blind_throw].
  destruct (_ || _); [apply trace_blind_throw |].
  apply trace_blind_bind;
    [apply trace_blind_mapM, hardened_messageOf_blind | intros messages].
  apply trace_blind_bind; [apply trace_blind_lift | intros title].
  apply trace_blind_construct.
Qed.

Lemma simple_blockOf_blind (blockData : JSValue) :
  trace_blind (Simple.blockOf blockData).
Proof.
  unfold Simple.blockOf.
  apply trace_blind_bind; [apply trace_blind_lift | intros bdmessages].
  destruct (asArray bdmessages) as [msgs|]; [| apply trace_blind_lift].
  destruct (_ || _); [apply trace_blind_lift |].
  apply trace_blind_bind;
    [apply trace_blind_mapM, simple_messageOf_blind | intros messages].
  apply trace_blind_bind; [apply trace_blind_lift | intros title].
  apply trace_blind_construct.
Qed.

Lemma hardened_blockOf_isOk (blockData : JSValue) (tr : list Call) :
  isOk (fst (Hardened.blockOf blockData tr)) = payload_block_valid blockData.
Proof.
  unfold Hardened.blockOf, payload_block_valid. unfold bind at 1. unfold lift at 1.
  destruct (get blockData f_messages) as [e|bdmessages]; [reflexivity |].
  destruct bdmessages as [| | | | |msgs|];
    try (cbn [asArray throw fst isOk]; now destruct (get blockData f_title)).
  cbn [asArray]. rewrite count_check.
  destruct (count_ok (length msgs)) eqn:Hc; cbn [negb andb];
    [| cbn [throw fst isOk]; now destruct (get blockData f_title)].
  unfold bind at 1.
  pose proof (mapM_isOk Hardened.messageOf hardened_messageOf_blind msgs tr) as Hok.
  pose proof (mapM_length Hardened.messageOf msgs tr) as Hlen.
  destruct (mapM Hardened.messageOf msgs tr) as [[e|messages] tr1].
  - cbn [fst isOk] in Hok |- *.
    rewrite (forallb_pointwise _ _ (fun m => eq_sym (hardened_messageOf_isOk m [])) msgs).
    rewrite <- Hok. now destruct (get blockData f_title).
  - cbn [fst isOk] in Hok.
    rewrite (forallb_pointwise _ _ (fun m => eq_sym (hardened_messageOf_isOk m [])) msgs).
    rewrite <- Hok. unfold bind, lift, construct.
    destruct (get blockData f_title) as [e|title]; [reflexivity |].
    cbn [fst andb]. rewrite hardened_block_new_isOk, (Hlen tr1 messages eq_refl), Hc.
    apply andb_true_r.
Qed.

Lemma simple_blockOf_isOk (blockData : JSValue) (tr : list Call) :
  isOk (fst (Simple.blockOf blockData tr)) = payload_block_valid blockData.
Proof.
  unfold Simple.blockOf, payload_block_valid, Simple.log_and_throw.
  unfold bind at 1. unfold lift at 1.
  destruct (get blockData f_messages) as [e|bdmessages]; [reflexivity |].
  destruct bdmessages as [| | | | |msgs|];
    try (cbn [asArray lift fst isOk]; now destruct (get blockData f_title)).
  cbn [asArray]. rewrite count_check.
  destruct (count_ok (length msgs)) eqn:Hc; cbn [negb andb];
    [| cbn [lift fst isOk]; now destruct (get blockData f_title)].
  unfold bind at 1.
  pose proof (mapM_isOk Simple.messageOf simple_messageOf_blind msgs tr) as Hok.
  pose proof (mapM_length Simple.messageOf msgs tr) as Hlen.
  destruct (mapM Simple.messageOf msgs tr) as [[e|messages] tr1].
  - cbn [fst isOk] in Hok |- *.
    rewrite (forallb_pointwise _ _ (fun m => eq_sym (simple_messageOf_isOk m [])) msgs).
    rewrite <- Hok. now destruct (get blockData f_title).
  - cbn [fst isOk] in Hok.
    rewrite (forallb_pointwise _ _ (fun m => eq_sym (simple_messageOf_isOk m [])) msgs).
    rewrite <- Hok. unfold bind, lift, construct.
    destruct (get blockData f_title) as [e|title]; [reflexivity |].
    cbn [fst andb]. rewrite simple_block_new_isOk, (Hlen tr1 messages eq_refl), Hc.
    apply andb_true_r.
Qed.

Lemma hardened_parse_isOk (jsonData : JSValue) :
  isOk (run (Hardened.jsonToAnnouncementsData jsonData)) = payload_valid jsonData.
Proof.
  unfold run, Hardened.jsonToAnnouncementsData, payload_valid.
  unfold bind at 1. unfold lift at 1.
  destruct (get jsonData f_blocks) as [e|jblocks] eqn:Eb; [reflexivity |].
  destruct jblocks as [| | | | |blockDatas|];
    try (cbn [asArray throw fst isOk]; reflexivity).
  cbn [asArray]. unfold bind at 1.
  pose proof (mapM_isOk Hardened.blockOf hardened_blockOf_blind blockDatas []) as Hok.
  rewrite (forallb_pointwise _ _ (fun b => eq_sym (hardened_blockOf_isOk b [])) blockDatas).
  rewrite <- Hok.
  destruct (mapM Hardened.blockOf blockDatas []) as [[e|blocks] tr1]; cbn [fst isOk].
  - destruct (get jsonData f_popup) as [e'|[]]; try reflexivity.
    now destruct (get jsonData f_timestamp).
  - unfold bind, lift, construct.
    destruct (get jsonData f_popup) as [e|popup]; [reflexivity |].
    destruct (get jsonData f_timestamp) as [e|timestamp] eqn:Et.
    + destruct jsonData; cbn in Eb, Et; discriminate.
    + destruct popup; try reflexivity.
      cbn [Hardened.AnnouncementsData.new fst andb]. rewrite <- ToString_isOk.
      now destruct (ToString timestamp).
Qed.

Lemma simple_parse_isOk (jsonData : JSValue) :
  isOk (run (Simple.jsonToAnnouncementsData jsonData)) = payload_valid jsonData.
Proof.
  unfold run, Simple.jsonToAnnouncementsData, payload_valid, Simple.log_and_throw.
  unfold bind at 1. unfold lift at 1.
  destruct (get jsonData f_blocks) as [e|jblocks] eqn:Eb; [reflexivity |].
  destruct jblocks as [| | | | |blockDatas|];
    try (cbn [asArray lift fst isOk]; reflexivity).
  cbn [asArray]. unfold bind at 1.
  pose proof (mapM_isOk Simple.blockOf simple_blockOf_blind blockDatas []) as Hok.
  rewrite (forallb_pointwise _ _ (fun b => eq_sym (simple_blockOf_isOk b [])) blockDatas).
  rewrite <- Hok.
  destruct (mapM Simple.blockOf blockDatas []) as [[e|blocks] tr1]; cbn [fst isOk].
  - destruct (get jsonData f_popup) as [e'|[]]; try reflexivity.
    now destruct (get jsonData f_timestamp).
  - unfold bind, lift, construct.
    destruct (get jsonData f_popup) as [e|popup]; [reflexivity |].
    destruct (get jsonData f_timestamp) as [e|timestamp] eqn:Et.
    + destruct jsonData; cbn in Eb, Et; discriminate.
    + destruct popup; try reflexivity.
      cbn [Simple.AnnouncementsData.new fst andb]. rewrite <- ToString_isOk.
      now destruct (ToString timestamp).
Qed.

(** X12.  The parser accepts exactly the payloads that have a [blocks]
    array, a boolean [popup], a [timestamp] that has a string form (it is
    not an object with an own [toString] property, nor an array that
    holds one at any depth) and, in every block, a [messages] array of 1
    to 16 values that each pass the five checks of [Message] and a title
    of 1 to 128 characters.  Nothing else is asked of the [timestamp].
    In both revisions. *)
Theorem parser_accepts_valid_payloads (jsonData : JSValue) :
  isOk (run (Hardened.jsonToAnnouncementsData jsonData)) = payload_valid jsonData
  /\ isOk (run (Simple.jsonToAnnouncementsData jsonData)) = payload_valid jsonData.
Proof. split; [apply hardened_parse_isOk | apply simple_parse_isOk]. Qed.

End ParserAccepts.

Section ParserMirrors.
Context `{Hardened.DOMPurify}.

Lemma hardened_messageOf_inv (msg : JSValue) (t1 t2 : list Call) (m : Hardened.Message.t) :
  Hardened.messageOf msg t1 = (inr m, t2) -> message_mirrors msg m.
Proof.
  intros Hm. pose proof (hardened_messageOf_fst msg t1) as Hfst.
  rewrite Hm in Hfst. cbn [fst] in Hfst.
  destruct (get msg f_username) as [e|username] eqn:Eu; [discriminate |].
  destruct (get msg f_timestamp) as [e|timestamp] eqn:Et; [discriminate |].
  destruct (get msg f_expires) as [e|expires] eqn:Ee; [discriminate |].
  destruct (get msg f_level) as [e|level] eqn:El; [discriminate |].
  destruct (get msg f_message) as [e|message] eqn:Em; [discriminate |].
  symmetry in Hfst.
  destruct (hardened_new_fields _ _ _ _ _ _ Hfst)
    as (us & ts & es & ls & ms & -> & -> & -> & -> & -> & _ & _ & ->).
  exists us, ts, es, ls, ms. repeat split; assumption.
Qed.

Lemma Forall2_weaken {A B} (P Q : A -> B -> Prop) (l : list A) (l' : list B) :
  (forall a b, P a b -> Q a b) -> Forall2 P l l' -> Forall2 Q l l'.
Proof. intros HPQ HP. induction HP; constructor; auto. Qed.

Lemma hardened_blockOf_inv (blockData : JSValue) (t1 t2 : list Call)
      (b : Hardened.MessageBlock.t) :
  Hardened.blockOf blockData t1 = (inr b, t2) -> block_mirrors blockData b.
Proof.
  unfold Hardened.blockOf. unfold bind at 1. unfold lift at 1.
  destruct (get blockData f_messages) as [e|bdmessages] eqn:Eg; [discriminate |].
  destruct bdmessages as [| | | | |msgs|]; try discriminate.
  cbn [asArray]. destruct (_ || _); [discriminate |].
  unfold bind at 1.
  destruct (mapM Hardened.messageOf msgs t1) as [[e|messages] u1] eqn:Em; [discriminate |].
  unfold bind, lift, construct.
  destruct (get blockData f_title) as [e|title] eqn:Et; [discriminate |].
  intros Hb. injection Hb as Hnew _.
  destruct (hardened_block_new_inv _ _ _ Hnew) as (Hmsgs & _ & ttl & -> & _ & Httl).
  exists msgs, ttl. repeat split; try assumption.
  rewrite Hmsgs. apply mapM_inv in Em.
  apply Forall2_weaken with (2 := Em).
  intros a m (u & v & Ha). now apply hardened_messageOf_inv with u v.
Qed.

(** X13.  A parsed payload is mirrored by the result, in the hardened
    revision: [popup] is the boolean of the payload, and the blocks are
    those of the [blocks] array, one for one and in order, each with the
    messages of its [messages] array, one for one and in order; a title
    and a text are stored as DOMPurify returns them, a timestamp escaped,
    the other fields as they came. *)
Theorem parsed_payload_is_mirrored (jsonData : JSValue) (a : Hardened.AnnouncementsData.t) :
  run (Hardened.jsonToAnnouncementsData jsonData) = inr a ->
  exists blockDatas,
    get jsonData f_blocks = inr (JArr blockDatas)
    /\ get jsonData f_popup = inr (JBool (Hardened.AnnouncementsData.popup a))
    /\ Forall2 block_mirrors blockDatas (Hardened.AnnouncementsData.blocks a).
Proof.
  unfold run, Hardened.jsonToAnnouncementsData. unfold bind at 1. unfold lift at 1.
  destruct (get jsonData f_blocks) as [e|jblocks] eqn:Eb; [discriminate |].
  destruct jblocks as [| | | | |blockDatas|]; try discriminate.
  cbn [asArray]. unfold bind at 1.
  destruct (mapM Hardened.blockOf blockDatas []) as [[e|blocks] u1] eqn:Em; [discriminate |].
  unfold bind, lift, construct.
  destruct (get jsonData f_popup) as [e|popup]; [discriminate |].
  destruct (get jsonData f_timestamp) as [e|timestamp]; [discriminate |].
  cbn [fst]. destruct popup as [| |p| | | |]; try discriminate.
  cbn [Hardened.AnnouncementsData.new].
  destruct (ToString timestamp) as [e|timestamp']; [discriminate |].
  cbn [and_then]. intros Ha. injection Ha as <-. exists blockDatas.
  cbn [Hardened.AnnouncementsData.popup Hardened.AnnouncementsData.blocks].
  repeat split. apply mapM_inv in Em.
  apply Forall2_weaken with (2 := Em).
  intros bd b (u & v & Hb). now apply hardened_blockOf_inv with u v.
Qed.

End ParserMirrors.

Section LevelCell.
Context `{Hardened.DOMPurify}.

(** X10.  The level cell of a constructed message is one of six fixed
    cells: the level names the style class as it came and is shown in
    capitals.  In both revisions. *)
Theorem level_cell_is_one_of_six (username timestamp expires level message : JSValue) :
  (forall msg,
     Hardened.Message.new username timestamp expires level message = inr msg ->
     In (Hardened.Message.fmtLevel msg) level_cells)
  /\ (forall msg,
     Simple.Message.new username timestamp expires level message = inr msg ->
     In (Simple.Message.fmtLevel msg) level_cells).
Proof.
  split; intros msg Hnew.
  - destruct (hardened_new_fields _ _ _ _ _ _ Hnew)
      as (us & ts & es & ls & ms & _ & _ & _ & _ & _ & Hin & _ & ->).
    unfold Hardened.Message.fmtLevel. cbn [Hardened.Message.level].
    cbn in Hin.
    repeat (destruct Hin as [<-|Hin]; [cbn; tauto |]). destruct Hin.
  - destruct (simple_new_fields _ _ _ _ _ _ Hnew)
      as (us & ts & es & ls & ms & _ & _ & _ & _ & _ & Hin & _ & ->).
    unfold Simple.Message.fmtLevel. cbn [Simple.Message.level].
    cbn in Hin.
    repeat (destruct Hin as [<-|Hin]; [cbn; tauto |]). destruct Hin.
Qed.

End LevelCell.

(* ===================================================================== *)
(** * Further properties: the equations of a cycle *)
(* ===================================================================== *)

Lemma nonempty_length (s : string) :
  s <> EmptyString -> (0 <? String.length s)%nat = true.
Proof. destruct s; [congruence | reflexivity]. Qed.

Lemma eqb_empty_length (s : string) :
  (0 <? String.length s)%nat = negb (String.eqb EmptyString s).
Proof. now destruct s. Qed.

Ltac unfold_cmds :=
  unfold reading, andThen, modify, when, ifThenElse, skip, emit;
  cbn -[String.eqb String.length Nat.ltb Z.geb Z.min Z.mul].

Section HardenedEquations.
Context `{Hardened.DOMPurify}.
Import HardenedPoller.

(** [show] on a rendering that is not empty. *)
Lemma hardened_show_nonempty (a : Hardened.AnnouncementsData.t) (this : t) :
  Hardened.AnnouncementsData.toHtml a <> EmptyString ->
  show a this
  = ({| openAnnouncementButton :=
          Some (if isNormal (serviceState this)
                then {| textContent :=
                          if unseen (Hardened.AnnouncementsData.toHtml a)
                                    (last_rendered this) (newAnnouncement this)
                          then TextClickForAnnouncements else TextAnnouncements;
                        color := ColorNone;
                        title := TipNormal |}
                else {| textContent := TextRestored;
                        color := Green;
                        title := TipRestored |});
        last_rendered := Hardened.AnnouncementsData.toHtml a;
        newAnnouncement :=
          unseen (Hardened.AnnouncementsData.toHtml a)
                 (last_rendered this) (newAnnouncement this)
          && negb (Hardened.AnnouncementsData.popup a);
        retryDelay := initialRetryDelay this;
        maxRetryDelay := maxRetryDelay this;
        initialRetryDelay := initialRetryDelay this;
        serviceState := normal |},
     (if hasButton this then [] else [RegisterStatusItem])
     ++ (if isNormal (serviceState this) then [] else [SetTimeout_revert 3000])
     ++ (if unseen (Hardened.AnnouncementsData.toHtml a)
                   (last_rendered this) (newAnnouncement this)
            && Hardened.AnnouncementsData.popup a
         then [ShowDialog (Hardened.AnnouncementsData.toHtml a)] else [])).
Proof.
  unfold show, unseen. generalize (Hardened.AnnouncementsData.toHtml a) as rendered.
  generalize (Hardened.AnnouncementsData.popup a) as popup. intros popup rendered Hne.
  apply nonempty_length in Hne.
  destruct this as [btn lr na rd mx ini st]. unfold_cmds.
  destruct (String.eqb rendered lr) eqn:E; cbn -[String.eqb String.length Nat.ltb].
  - apply String.eqb_eq in E. subst lr. rewrite Hne.
    destruct btn, st, na, popup; reflexivity.
  - rewrite Hne. destruct btn, st, na, popup; reflexivity.
Qed.

(** [show] on the empty rendering. *)
Lemma hardened_show_empty (a : Hardened.AnnouncementsData.t) (this : t) :
  Hardened.AnnouncementsData.toHtml a = EmptyString ->
  show a this
  = ({| openAnnouncementButton :=
          option_map (fun b => {| textContent := TextEmpty;
                                  color := color b;
                                  title := title b |})
                     (openAnnouncementButton this);
        last_rendered := EmptyString;
        newAnnouncement := unseen EmptyString (last_rendered this) (newAnnouncement this);
        retryDelay := initialRetryDelay this;
        maxRetryDelay := maxRetryDelay this;
        initialRetryDelay := initialRetryDelay this;
        serviceState := normal |},
     []).
Proof.
  unfold show, unseen. intros ->.
  destruct this as [btn lr na rd mx ini st]. unfold_cmds.
  destruct lr as [|c lr]; cbn; destruct btn, st, na; reflexivity.
Qed.

(** The [catch] block on anything but a [ValidationError]. *)
Lemma hardened_catch_fault (n : Z) (e : Exn) (this : t) :
  instanceof_ValidationError e = false ->
  catch_block n e this
  = if (retryDelay this >=? maxRetryDelay this)%Z
    then ({| openAnnouncementButton :=
               Some {| textContent := TextUnavailable;
                       color := Red;
                       title := TipUnavailable |};
             last_rendered := last_rendered this;
             newAnnouncement := newAnnouncement this;
             retryDelay := initialRetryDelay this;
             maxRetryDelay := maxRetryDelay this;
             initialRetryDelay := initialRetryDelay this;
             serviceState := failed |},
          (if hasButton this then [] else [RegisterStatusItem])
          ++ [SetTimeout_update n])
    else ({| openAnnouncementButton :=
               Some {| textContent := TextRetrying;
                       color := Orange;
                       title := TipRetrying (retryDelay this) |};
             last_rendered := last_rendered this;
             newAnnouncement := newAnnouncement this;
             retryDelay := Z.min (retryDelay this * 2) (maxRetryDelay this);
             maxRetryDelay := maxRetryDelay this;
             initialRetryDelay := initialRetryDelay this;
             serviceState := degraded |},
          (if hasButton this then [] else [RegisterStatusItem])
          ++ [SetTimeout_update (retryDelay this)]).
Proof.
  intros He. unfold catch_block. rewrite He.
  destruct this as [btn lr na rd mx ini st]. unfold createAnnouncementsButton. unfold_cmds.
  destruct (rd >=? mx)%Z; destruct btn; reflexivity.
Qed.

(** The branch of a response that is not ok and not retried. *)
Lemma hardened_nonRetryable (n : Z) (this : t) :
  nonRetryable n this
  = ({| openAnnouncementButton :=
          option_map (fun b => if isNormal (serviceState this)
                               then {| textContent := TextEmpty;
                                       color := color b;
                                       title := title b |}
                               else {| textContent := TextEmpty;
                                       color := Green;
                                       title := TipRestored |})
                     (openAnnouncementButton this);
        last_rendered := last_rendered this;
        newAnnouncement := newAnnouncement this;
        retryDelay := initialRetryDelay this;
        maxRetryDelay := maxRetryDelay this;
        initialRetryDelay := initialRetryDelay this;
        serviceState := normal |},
     (if negb (isNormal (serviceState this)) && hasButton this
      then [SetTimeout_revert 3000] else [])
     ++ [SetTimeout_update n]).
Proof.
  unfold nonRetryable, showRecoveryNotification.
  destruct this as [btn lr na rd mx ini st]. unfold_cmds.
  destruct btn, st; reflexivity.
Qed.

(** How a cycle leaves the [try] block. *)
Lemma hardened_cycle_cases (n : Z) (o : FetchOutcome) (this : t) :
  (exists reason, updateAnnouncements n o this = (this, [SetTimeout_update n])
                  /\ try_block n o this = Threw (ValidationError reason))
  \/ (exists e, instanceof_ValidationError e = false
                /\ updateAnnouncements n o this = catch_block n e this)
  \/ updateAnnouncements n o this = nonRetryable n this
  \/ (exists a, updateAnnouncements n o this
                = (fst (show a this), snd (show a this) ++ [SetTimeout_update n])).
Proof.
  unfold updateAnnouncements.
  destruct (try_block n o this) as [e|r|[s effs]] eqn:Et.
  - destruct e as [reason| | |].
    + left. exists reason. split; reflexivity.
    + right; left. eexists; split; [| reflexivity]; reflexivity.
    + right; left. eexists; split; [| reflexivity]; reflexivity.
    + right; left. eexists; split; [| reflexivity]; reflexivity.
  - right; right; left.
    destruct o as [|status statusText json]; [discriminate |]. unfold try_block in Et.
    destruct (negb (ok status) && shouldRetry status); [discriminate |].
    destruct (negb (ok status)); [now injection Et as <- |].
    destruct json as [jsonData|]; [| discriminate].
    destruct (run (Hardened.jsonToAnnouncementsData jsonData)); discriminate.
  - right; right; right.
    destruct o as [|status statusText json]; [discriminate |]. unfold try_block in Et.
    destruct (negb (ok status) && shouldRetry status); [discriminate |].
    destruct (negb (ok status)); [discriminate |].
    destruct json as [jsonData|]; [| discriminate].
    destruct (run (Hardened.jsonToAnnouncementsData jsonData)) as [e|a]; [discriminate |].
    exists a. injection Et as Hs. now rewrite Hs.
Qed.

End HardenedEquations.

Section SimpleEquations.
Import SimplePoller.

Lemma simple_show_nonempty (a : Simple.AnnouncementsData.t) (this : t) :
  Simple.AnnouncementsData.toHtml a <> EmptyString ->
  show a this
  = ({| openAnnouncementButton :=
          Some {| textContent :=
                    if unseen (Simple.AnnouncementsData.toHtml a)
                              (last_rendered this) (newAnnouncement this)
                    then TextClickForAnnouncements else TextAnnouncements;
                  isDisposed := button_disposed this |};
        last_rendered := Simple.AnnouncementsData.toHtml a;
        newAnnouncement :=
          unseen (Simple.AnnouncementsData.toHtml a)
                 (last_rendered this) (newAnnouncement this)
          && negb (Simple.AnnouncementsData.popup a) |},
     (if hasButton this then [] else [RegisterStatusItem])
     ++ (if unseen (Simple.AnnouncementsData.toHtml a)
                   (last_rendered this) (newAnnouncement this)
            && Simple.AnnouncementsData.popup a
         then [ShowDialog (Simple.AnnouncementsData.toHtml a)] else [])).
Proof.
  unfold show, unseen, button_disposed.
  generalize (Simple.AnnouncementsData.toHtml a) as rendered.
  generalize (Simple.AnnouncementsData.popup a) as popup. intros popup rendered Hne.
  apply nonempty_length in Hne.
  destruct this as [btn lr na]. unfold createAnnouncementsButton. unfold_cmds.
  destruct (String.eqb rendered lr) eqn:E; cbn -[String.eqb String.length Nat.ltb].
  - apply String.eqb_eq in E. subst lr. rewrite Hne.
    destruct btn as [[txt d]|], na, popup; reflexivity.
  - rewrite Hne. destruct btn as [[txt d]|], na, popup; reflexivity.
Qed.

Lemma simple_show_empty (a : Simple.AnnouncementsData.t) (this : t) :
  Simple.AnnouncementsData.toHtml a = EmptyString ->
  show a this
  = ({| openAnnouncementButton :=
          option_map (fun b => {| textContent := TextEmpty;
                                  isDisposed := isDisposed b |})
                     (openAnnouncementButton this);
        last_rendered := EmptyString;
        newAnnouncement := unseen EmptyString (last_rendered this) (newAnnouncement this) |},
     []).
Proof.
  unfold show, unseen. intros ->.
  destruct this as [btn lr na]. unfold_cmds.
  destruct lr as [|c lr]; cbn; destruct btn as [[txt d]|], na; reflexivity.
Qed.

(** A cycle whose [try] block throws. *)
Lemma simple_fault_cycle (n : Z) (o : FetchOutcome) (this : t) :
  simple_fault o = true ->
  updateAnnouncements n o this
  = ({| openAnnouncementButton :=
          option_map (fun b => {| textContent := textContent b; isDisposed := true |})
                     (openAnnouncementButton this);
        last_rendered := last_rendered this;
        newAnnouncement := newAnnouncement this |},
     (if hasButton this then [Dispose] else []) ++ [SetTimeout_update n]).
Proof.
  intros Hf. unfold updateAnnouncements.
  assert (Ht : exists e, try_block o this = Threw e).
  { destruct o as [|status statusText [jsonData|]]; cbn; try (eexists; reflexivity).
    cbn in Hf. apply negb_true_iff in Hf.
    rewrite <- simple_parse_isOk in Hf.
    destruct (run (Simple.jsonToAnnouncementsData jsonData)); [eexists; reflexivity |].
    discriminate. }
  destruct Ht as [e ->]. unfold catch_block.
  destruct this as [btn lr na]. unfold_cmds. destruct btn as [[txt d]|]; reflexivity.
Qed.

(** A cycle whose [try] block completes. *)
Lemma simple_cycle_cases (n : Z) (o : FetchOutcome) (this : t) :
  simple_fault o = true
  \/ exists a, updateAnnouncements n o this
               = (fst (show a this), snd (show a this) ++ [SetTimeout_update n]).
Proof.
  destruct o as [|status statusText [jsonData|]]; [now left | | now left].
  destruct (simple_fault (Response status statusText (Some jsonData))) eqn:Hf;
    [now left | right].
  cbn in Hf. apply negb_false_iff in Hf. rewrite <- simple_parse_isOk in Hf.
  destruct (run (Simple.jsonToAnnouncementsData jsonData)) as [e|a] eqn:Hp; [discriminate |].
  exists a. now apply simple_success_cycle.
Qed.

End SimpleEquations.

(* ===================================================================== *)
(** * Further properties: the pollers *)
(* ===================================================================== *)

Lemma scheduled_app (e1 e2 : list Effect) :
  scheduled (e1 ++ e2) = scheduled e1 ++ scheduled e2.
Proof.
  induction e1 as [|e e1 IH]; [reflexivity |].
  destruct e; cbn [app scheduled]; now rewrite IH.
Qed.

Lemma registrations_app (e1 e2 : list Effect) :
  registrations (e1 ++ e2) = (registrations e1 + registrations e2)%nat.
Proof.
  induction e1 as [|e e1 IH]; [reflexivity |].
  destruct e; cbn [app registrations]; now rewrite IH.
Qed.

Lemma dialogs_app (e1 e2 : list Effect) :
  dialogs (e1 ++ e2) = dialogs e1 ++ dialogs e2.
Proof.
  induction e1 as [|e e1 IH]; [reflexivity |].
  destruct e; cbn [app dialogs]; now rewrite IH.
Qed.

Lemma recovery_timers_app (e1 e2 : list Effect) :
  recovery_timers (e1 ++ e2) = recovery_timers e1 ++ recovery_timers e2.
Proof.
  induction e1 as [|e e1 IH]; [reflexivity |].
  destruct e; cbn [app recovery_timers]; now rewrite IH.
Qed.

Section HardenedRuns.
Context `{Hardened.DOMPurify}.
Import HardenedPoller.

(** The host calls of [show]: at most a registration, a recovery timer
    and a dialog. *)
Lemma hardened_show_calls (a : Hardened.AnnouncementsData.t) (this : t) :
  scheduled (snd (show a this)) = []
  /\ registrations (snd (show a this))
     = (if hasButton (fst (show a this)) then 1 else 0)
       - (if hasButton this then 1 else 0)
  /\ (hasButton this = true -> hasButton (fst (show a this)) = true).
Proof.
  destruct (string_dec (Hardened.AnnouncementsData.toHtml a) EmptyString) as [He|Hne].
  - rewrite (hardened_show_empty a this He). cbn [fst snd].
    destruct this as [[b|] lr na rd mx ini st]; repeat split; cbn; congruence.
  - rewrite (hardened_show_nonempty a this Hne). cbn [fst snd].
    rewrite !scheduled_app, !registrations_app.
    destruct (hasButton this), (isNormal (serviceState this)), (_ && _); repeat split.
Qed.

Lemma hardened_show_backoff (a : Hardened.AnnouncementsData.t) (this : t) :
  serviceState (fst (show a this)) = normal
  /\ retryDelay (fst (show a this)) = initialRetryDelay this
  /\ maxRetryDelay (fst (show a this)) = maxRetryDelay this
  /\ initialRetryDelay (fst (show a this)) = initialRetryDelay this.
Proof.
  destruct (string_dec (Hardened.AnnouncementsData.toHtml a) EmptyString) as [He|Hne].
  - rewrite (hardened_show_empty a this He). repeat split.
  - rewrite (hardened_show_nonempty a this Hne). repeat split.
Qed.

(** The timer of one cycle. *)
Lemma hardened_cycle_timer (n : Z) (o : FetchOutcome) (this : t) :
  exists d,
    scheduled (snd (updateAnnouncements n o this)) = [d]
    /\ (d = n
        \/ (d = retryDelay this
            /\ (retryDelay this < maxRetryDelay this)%Z
            /\ serviceState (fst (updateAnnouncements n o this)) = degraded)).
Proof.
  destruct (hardened_cycle_cases n o this)
    as [(reason & -> & _)|[(e & He & ->)|[->|(a & ->)]]].
  - exists n. split; [reflexivity | now left].
  - rewrite (hardened_catch_fault n e this He).
    destruct (retryDelay this >=? maxRetryDelay this)%Z eqn:Hge.
    + exists n. cbn [fst snd]. rewrite scheduled_app.
      split; [now destruct (hasButton this) | now left].
    + exists (retryDelay this). cbn [fst snd]. rewrite scheduled_app.
      split; [now destruct (hasButton this) |]. right.
      rewrite Z.geb_leb in Hge. apply Z.leb_gt in Hge. now repeat split.
  - rewrite hardened_nonRetryable. exists n. cbn [fst snd]. rewrite scheduled_app.
    split; [now destruct (_ && _) | now left].
  - exists n. cbn [fst snd]. rewrite scheduled_app.
    rewrite (proj1 (hardened_show_calls a this)). split; [reflexivity | now left].
Qed.

(** One cycle keeps the fields of the backoff within their bounds. *)
Lemma hardened_cycle_bounds (n : Z) (o : FetchOutcome) (this : t) :
  backoff_bounds this ->
  backoff_bounds (fst (updateAnnouncements n o this))
  /\ exists d, scheduled (snd (updateAnnouncements n o this)) = [d]
               /\ (d = n \/ In d backoff_delays).
Proof.
  intros (Hini & Hmax & Hrd).
  assert (Hreset : In 10000%Z (backoff_delays ++ [600000%Z])) by (now left).
  destruct (hardened_cycle_cases n o this)
    as [(reason & -> & _)|[(e & He & ->)|[->|(a & ->)]]].
  - split; [now repeat split |]. exists n. split; [reflexivity | now left].
  - rewrite (hardened_catch_fault n e this He).
    destruct this as [btn lr na rd mx ini st].
    cbn [initialRetryDelay maxRetryDelay retryDelay] in *. subst ini mx.
    cbn [backoff_delays app In] in Hrd.
    destruct Hrd as [<-|[<-|[<-|[<-|[<-|[<-|[<-|[]]]]]]]];
      cbn [Z.geb Z.compare Pos.compare Pos.compare_cont fst snd];
      rewrite scheduled_app;
      (split;
       [ repeat split; cbn; tauto
       | eexists; split; [destruct btn; reflexivity | cbn; tauto] ]).
  - rewrite hardened_nonRetryable. cbn [fst snd]. rewrite scheduled_app.
    split; [repeat split; cbn [initialRetryDelay maxRetryDelay retryDelay];
            try assumption; now rewrite Hini |].
    exists n. split; [now destruct (_ && _) | now left].
  - cbn [fst snd]. rewrite scheduled_app.
    destruct (hardened_show_backoff a this) as (_ & Hrd' & Hmax' & Hini').
    destruct (hardened_show_calls a this) as (-> & _).
    split; [repeat split; try congruence; rewrite Hrd', Hini; exact Hreset |].
    exists n. split; [reflexivity | now left].
Qed.

(** X17.  Over any run of cycles from a fresh poller, whatever the
    outcomes of the fetches, [retryDelay] is one of 10000, 20000, 40000,
    80000, 160000, 320000 and 600000, its initial value and its ceiling
    stay 10000 and 600000, and every cycle sets exactly one timer for the
    next cycle, after the base interval [n] or after one of the six
    backoff delays from 10000 to 320000 ms. *)
Theorem retry_delays_stay_bounded (n : Z) (outcomes : list FetchOutcome) :
  backoff_bounds (fst (cycles n outcomes new))
  /\ Forall (fun effs => exists d, scheduled effs = [d] /\ (d = n \/ In d backoff_delays))
            (snd (cycles n outcomes new)).
Proof.
  assert (Hgen : forall this, backoff_bounds this ->
            backoff_bounds (fst (cycles n outcomes this))
            /\ Forall (fun effs => exists d, scheduled effs = [d]
                                             /\ (d = n \/ In d backoff_delays))
                      (snd (cycles n outcomes this))).
  { induction outcomes as [|o rest IH]; intros this Hb.
    - split; [exact Hb | constructor].
    - cbn [cycles]. destruct (hardened_cycle_bounds n o this Hb) as [Hb1 Hd].
      destruct (updateAnnouncements n o this) as [this1 effs]. cbn [fst snd] in *.
      destruct (IH this1 Hb1) as [Hb2 Hall].
      destruct (cycles n rest this1) as [this2 more]. cbn [fst snd] in *.
      split; [exact Hb2 | now constructor]. }
  apply Hgen. repeat split. now left.
Qed.

(** One cycle registers the status item exactly when it creates the
    button. *)
Lemma hardened_cycle_registers (n : Z) (o : FetchOutcome) (this : t) :
  (registrations (snd (updateAnnouncements n o this))
   + (if hasButton this then 1 else 0)
   = if hasButton (fst (updateAnnouncements n o this)) then 1 else 0)%nat.
Proof.
  destruct (hardened_cycle_cases n o this)
    as [(reason & -> & _)|[(e & He & ->)|[->|(a & ->)]]].
  - reflexivity.
  - rewrite (hardened_catch_fault n e this He).
    destruct (retryDelay this >=? maxRetryDelay this)%Z; cbn [fst snd];
      rewrite registrations_app; now destruct (hasButton this).
  - rewrite hardened_nonRetryable. cbn [fst snd]. rewrite registrations_app.
    destruct this as [[b|] lr na rd mx ini st]; cbn; now destruct st.
  - cbn [fst snd]. rewrite registrations_app.
    destruct (hardened_show_calls a this) as (_ & Hreg & Hkeep). rewrite Hreg.
    destruct (hasButton this) eqn:Hb; [now rewrite (Hkeep eq_refl) |].
    now destruct (hasButton (fst (show a this))).
Qed.

Lemma hardened_run_registers (n : Z) (outcomes : list FetchOutcome) :
  forall this,
    (registrations (concat (snd (cycles n outcomes this)))
     + (if hasButton this then 1 else 0)
     = if hasButton (fst (cycles n outcomes this)) then 1 else 0)%nat.
Proof.
  induction outcomes as [|o rest IH]; intros this; [reflexivity |].
  cbn [cycles]. pose proof (hardened_cycle_registers n o this) as Hstep.
  destruct (updateAnnouncements n o this) as [this1 effs]. cbn [fst snd] in *.
  specialize (IH this1). destruct (cycles n rest this1) as [this2 more].
  cbn [fst snd concat] in *. rewrite registrations_app. lia.
Qed.

End HardenedRuns.

Section SimpleRuns.
Import SimplePoller.

Lemma simple_show_calls (a : Simple.AnnouncementsData.t) (this : t) :
  scheduled (snd (show a this)) = []
  /\ registrations (snd (show a this))
     = (if hasButton (fst (show a this)) then 1 else 0)
       - (if hasButton this then 1 else 0)
  /\ (hasButton this = true -> hasButton (fst (show a this)) = true)
  /\ (button_disposed this = true -> button_disposed (fst (show a this)) = true).
Proof.
  destruct (string_dec (Simple.AnnouncementsData.toHtml a) EmptyString) as [He|Hne].
  - rewrite (simple_show_empty a this He). cbn [fst snd].
    destruct this as [[[txt d]|] lr na]; repeat split; cbn; congruence.
  - rewrite (simple_show_nonempty a this Hne). cbn [fst snd].
    rewrite !scheduled_app, !registrations_app.
    destruct (hasButton this), (_ && _); repeat split; cbn; congruence.
Qed.

Lemma simple_cycle_timer (n : Z) (o : FetchOutcome) (this : t) :
  scheduled (snd (updateAnnouncements n o this)) = [n].
Proof.
  destruct (simple_cycle_cases n o this) as [Hf|(a & ->)].
  - rewrite (simple_fault_cycle n o this Hf). cbn [snd]. rewrite scheduled_app.
    now destruct (hasButton this).
  - cbn [snd]. rewrite scheduled_app.
    now rewrite (proj1 (simple_show_calls a this)).
Qed.

Lemma simple_cycle_registers (n : Z) (o : FetchOutcome) (this : t) :
  (registrations (snd (updateAnnouncements n o this))
   + (if hasButton this then 1 else 0)
   = if hasButton (fst (updateAnnouncements n o this)) then 1 else 0)%nat
  /\ (button_disposed this = true ->
      button_disposed (fst (updateAnnouncements n o this)) = true).
Proof.
  destruct (simple_cycle_cases n o this) as [Hf|(a & ->)].
  - rewrite (simple_fault_cycle n o this Hf). cbn [fst snd]. rewrite registrations_app.
    destruct this as [[[txt d]|] lr na]; split; auto.
  - cbn [fst snd]. rewrite registrations_app.
    destruct (simple_show_calls a this) as (_ & Hreg & Hkeep & Hdisp). rewrite Hreg.
    split; [| exact Hdisp].
    destruct (hasButton this) eqn:Hb; [now rewrite (Hkeep eq_refl) |].
    now destruct (hasButton (fst (show a this))).
Qed.

Lemma simple_run_registers (n : Z) (outcomes : list FetchOutcome) :
  forall this,
    (registrations (concat (snd (simple_cycles n outcomes this)))
     + (if hasButton this then 1 else 0)
     = if hasButton (fst (simple_cycles n outcomes this)) then 1 else 0)%nat
    /\ (button_disposed this = true ->
        button_disposed (fst (simple_cycles n outcomes this)) = true).
Proof.
  induction outcomes as [|o rest IH]; intros this; [split; auto |].
  cbn [simple_cycles]. destruct (simple_cycle_registers n o this) as [Hstep Hdisp].
  destruct (updateAnnouncements n o this) as [this1 effs]. cbn [fst snd] in *.
  destruct (IH this1) as [IH1 IH2]. destruct (simple_cycles n rest this1) as [this2 more].
  cbn [fst snd concat] in *. rewrite registrations_app. split; [lia | auto].
Qed.

End SimpleRuns.

(** X16.  Every cycle sets exactly one timer for the next cycle, whatever
    the outcome of the fetch and whatever the state: polling never stops
    and never doubles.  In the hardened revision the delay is the base
    interval [n], or [retryDelay] in a cycle that ends degraded with
    [retryDelay] below its ceiling; in the simple revision it is [n]. *)
Theorem every_cycle_sets_one_timer `{Hardened.DOMPurify} (n : Z) (o : FetchOutcome) :
  (forall this,
     exists d,
       scheduled (snd (HardenedPoller.updateAnnouncements n o this)) = [d]
       /\ (d = n
           \/ (d = HardenedPoller.retryDelay this
               /\ (HardenedPoller.retryDelay this < HardenedPoller.maxRetryDelay this)%Z
               /\ HardenedPoller.serviceState
                    (fst (HardenedPoller.updateAnnouncements n o this))
                  = HardenedPoller.degraded)))
  /\ (forall this,
     scheduled (snd (SimplePoller.updateAnnouncements n o this)) = [n]).
Proof. split; [apply hardened_cycle_timer | apply simple_cycle_timer]. Qed.

(** X18.  Over any run of cycles from a fresh poller, whatever the
    outcomes of the fetches, the status item is registered at most once:
    exactly once when the run has created the button, not at all
    otherwise.  In both revisions. *)
Theorem status_item_registered_once `{Hardened.DOMPurify}
        (n : Z) (outcomes : list FetchOutcome) :
  registrations (concat (snd (HardenedPoller.cycles n outcomes HardenedPoller.new)))
  = (if HardenedPoller.hasButton (fst (HardenedPoller.cycles n outcomes HardenedPoller.new))
     then 1 else 0)%nat
  /\ registrations (concat (snd (simple_cycles n outcomes SimplePoller.new)))
     = (if SimplePoller.hasButton (fst (simple_cycles n outcomes SimplePoller.new))
        then 1 else 0)%nat.
Proof.
  split.
  - pose proof (hardened_run_registers n outcomes HardenedPoller.new) as Hr.
    change (HardenedPoller.hasButton HardenedPoller.new) with false in Hr.
    now rewrite Nat.add_0_r in Hr.
  - pose proof (proj1 (simple_run_registers n outcomes SimplePoller.new)) as Hr.
    change (SimplePoller.hasButton SimplePoller.new) with false in Hr.
    now rewrite Nat.add_0_r in Hr.
Qed.

(** X19.  In the simple revision a cycle whose [try] block throws while
    the button exists disposes the button, and the button stays disposed
    over any cycles that follow, none of which registers the status item
    again. *)
Theorem simple_button_stays_disposed
        (n : Z) (o : FetchOutcome) (outcomes : list FetchOutcome) (this : SimplePoller.t) :
  SimplePoller.hasButton this = true ->
  simple_fault o = true ->
  button_disposed (fst (SimplePoller.updateAnnouncements n o this)) = true
  /\ button_disposed
       (fst (simple_cycles n outcomes (fst (SimplePoller.updateAnnouncements n o this))))
     = true
  /\ registrations
       (concat (snd (simple_cycles n outcomes
                       (fst (SimplePoller.updateAnnouncements n o this)))))
     = 0%nat.
Proof.
  intros Hb Hf.
  assert (Hd : button_disposed (fst (SimplePoller.updateAnnouncements n o this)) = true).
  { rewrite (simple_fault_cycle n o this Hf).
    destruct this as [[[txt d]|] lr na]; [reflexivity | discriminate]. }
  split; [exact Hd |].
  destruct (simple_run_registers n outcomes
              (fst (SimplePoller.updateAnnouncements n o this))) as [Hreg Hkeep].
  split; [now apply Hkeep |].
  assert (Hhas : forall s, button_disposed s = true -> SimplePoller.hasButton s = true).
  { intros [[b|] lr na]; [reflexivity | discriminate]. }
  rewrite (Hhas _ Hd), (Hhas _ (Hkeep Hd)) in Hreg. lia.
Qed.

Section HardenedAnswers.
Context `{Hardened.DOMPurify}.
Import HardenedPoller.

(** A cycle in which the service answers runs the non-retryable branch or
    [show]. *)
Lemma hardened_answer_cycle (n : Z) (o : FetchOutcome) (this : t) :
  service_answers o = true ->
  updateAnnouncements n o this = nonRetryable n this
  \/ exists a, updateAnnouncements n o this
               = (fst (show a this), snd (show a this) ++ [SetTimeout_update n]).
Proof.
  destruct o as [|status statusText json]; [discriminate |]. cbn [service_answers].
  destruct (ok status) eqn:Hok.
  - destruct json as [jsonData|]; [| discriminate]. intros Hvalid. right.
    rewrite <- hardened_parse_isOk in Hvalid.
    destruct (run (Hardened.jsonToAnnouncementsData jsonData)) as [e|a] eqn:Hp;
      [discriminate |].
    exists a. now apply hardened_success_cycle.
  - intros Hretry. left. unfold updateAnnouncements, try_block.
    apply negb_true_iff in Hretry. rewrite Hok, Hretry. reflexivity.
Qed.

(** X20.  A cycle in which the service answers (an ok response with a
    valid payload, or a response that is not ok and not retried) ends the
    backoff: the state is normal, [retryDelay] is back at its initial
    value, and the next cycle is set after the base interval; a
    connectivity fault in the next cycle is then retried after the
    initial delay. *)
Theorem answer_resets_backoff (n : Z) (o : FetchOutcome) (this : t) :
  service_answers o = true ->
  serviceState (fst (updateAnnouncements n o this)) = normal
  /\ retryDelay (fst (updateAnnouncements n o this)) = initialRetryDelay this
  /\ scheduled (snd (updateAnnouncements n o this)) = [n]
  /\ (forall o',
        connectivity_fault o' = true ->
        (initialRetryDelay this < maxRetryDelay this)%Z ->
        scheduled (snd (updateAnnouncements n o' (fst (updateAnnouncements n o this))))
        = [initialRetryDelay this]
        /\ serviceState (fst (updateAnnouncements n o' (fst (updateAnnouncements n o this))))
           = degraded).
Proof.
  intros Hans.
  assert (Hfields : serviceState (fst (updateAnnouncements n o this)) = normal
                    /\ retryDelay (fst (updateAnnouncements n o this))
                       = initialRetryDelay this
                    /\ maxRetryDelay (fst (updateAnnouncements n o this))
                       = maxRetryDelay this
                    /\ scheduled (snd (updateAnnouncements n o this)) = [n]).
  { destruct (hardened_answer_cycle n o this Hans) as [->|(a & ->)].
    - rewrite hardened_nonRetryable. cbn [fst snd]. rewrite scheduled_app.
      repeat split. now destruct (_ && _).
    - cbn [fst snd]. rewrite scheduled_app.
      destruct (hardened_show_backoff a this) as (Hst & Hrd & Hmax & _).
      destruct (hardened_show_calls a this) as (-> & _). now repeat split. }
  destruct Hfields as (Hst & Hrd & Hmax & Hsch).
  split; [exact Hst |]. split; [exact Hrd |]. split; [exact Hsch |].
  intros o' Hf Hlt.
  destruct (fault_below_ceiling n o' (fst (updateAnnouncements n o this)) Hf)
    as (Hst' & _ & Hsch' & _).
  { now rewrite Hrd, Hmax. }
  now rewrite Hsch', Hst', Hrd.
Qed.

(** X21.  A successful cycle with a rendering that is not empty sets the
    3000 ms recovery timer exactly when the state was not normal.  Then
    the button reads [Announcements Restored] in green, and when the
    timer fires it gets the label of the normal state, no colour and the
    normal tooltip.  When the state was normal the button has no colour
    and the normal tooltip at once. *)
Theorem recovery_is_shown_then_reverted
        (n status : Z) (statusText : string) (jsonData : JSValue)
        (a : Hardened.AnnouncementsData.t) (this : t) :
  ok status = true ->
  run (Hardened.jsonToAnnouncementsData jsonData) = inr a ->
  Hardened.AnnouncementsData.toHtml a <> EmptyString ->
  recovery_timers (snd (updateAnnouncements n (Response status statusText (Some jsonData))
                          this))
  = (if isNormal (serviceState this) then [] else [3000%Z])
  /\ (serviceState this <> normal ->
      openAnnouncementButton
        (fst (updateAnnouncements n (Response status statusText (Some jsonData)) this))
      = Some {| textContent := TextRestored; color := Green; title := TipRestored |}
      /\ openAnnouncementButton
           (fst (revert (fst (updateAnnouncements n
                                (Response status statusText (Some jsonData)) this))))
         = Some {| textContent :=
                     if newAnnouncement
                          (fst (updateAnnouncements n
                                  (Response status statusText (Some jsonData)) this))
                     then TextClickForAnnouncements else TextAnnouncements;
                   color := ColorNone;
                   title := TipNormal |}
      /\ snd (revert (fst (updateAnnouncements n
                             (Response status statusText (Some jsonData)) this)))
         = [])
  /\ (serviceState this = normal ->
      exists txt,
        openAnnouncementButton
          (fst (updateAnnouncements n (Response status statusText (Some jsonData)) this))
        = Some {| textContent := txt; color := ColorNone; title := TipNormal |}).
Proof.
  intros Hok Hparse Hne.
  rewrite (hardened_success_cycle n status statusText jsonData a this Hok Hparse).
  rewrite (hardened_show_nonempty a this Hne). cbn [fst snd].
  rewrite !recovery_timers_app. split; [| split].
  - destruct (hasButton this), (isNormal (serviceState this)), (_ && _); reflexivity.
  - intros Hst. destruct (serviceState this); [congruence | |];
      cbn [isNormal]; (split; [reflexivity |]);
      destruct (_ && negb _); split; reflexivity.
  - intros ->. cbn [isNormal]. eexists. reflexivity.
Qed.

(** X24.  A cycle whose [try] block throws anything but a
    [ValidationError] (the fetch rejects, the status is one that is
    retried, the body is not JSON, the parser raises a [TypeError]) is
    shown on the button, which the cycle creates if there is none: while
    [retryDelay] is below its ceiling the button reads [Announcements
    (Retrying...)] in orange and its tooltip names the delay after which
    the next cycle is set; once [retryDelay] has reached the ceiling the
    button reads [Announcements (Unavailable)] in red and the next cycle
    is set after the base interval.  No dialog is shown. *)
Theorem fault_is_shown_on_button (n : Z) (o : FetchOutcome) (this : t) (e : Exn) :
  try_block n o this = Threw e ->
  instanceof_ValidationError e = false ->
  ((retryDelay this < maxRetryDelay this)%Z ->
   openAnnouncementButton (fst (updateAnnouncements n o this))
   = Some {| textContent := TextRetrying;
             color := Orange;
             title := TipRetrying (retryDelay this) |}
   /\ scheduled (snd (updateAnnouncements n o this)) = [retryDelay this])
  /\ ((retryDelay this >= maxRetryDelay this)%Z ->
      openAnnouncementButton (fst (updateAnnouncements n o this))
      = Some {| textContent := TextUnavailable; color := Red; title := TipUnavailable |}
      /\ scheduled (snd (updateAnnouncements n o this)) = [n])
  /\ dialogs (snd (updateAnnouncements n o this)) = [].
Proof.
  intros Ht He. unfold updateAnnouncements. rewrite Ht.
  rewrite (hardened_catch_fault n e this He).
  split; [| split].
  - intros Hlt.
    replace (retryDelay this >=? maxRetryDelay this)%Z with false
      by (rewrite Z.geb_leb; symmetry; apply Z.leb_gt; lia).
    cbn [fst snd]. rewrite scheduled_app. now destruct (hasButton this).
  - intros Hge.
    replace (retryDelay this >=? maxRetryDelay this)%Z with true
      by (rewrite Z.geb_leb; symmetry; apply Z.leb_le; lia).
    cbn [fst snd]. rewrite scheduled_app. now destruct (hasButton this).
  - destruct (retryDelay this >=? maxRetryDelay this)%Z; cbn [snd];
      rewrite dialogs_app; now destruct (hasButton this).
Qed.

(** [onclick] on a poller that has its button. *)
Lemma hardened_onclick (this : t) (b : Button) :
  openAnnouncementButton this = Some b ->
  onclick this
  = ({| openAnnouncementButton :=
          Some {| textContent := TextAnnouncements; color := color b; title := title b |};
        last_rendered := last_rendered this;
        newAnnouncement := false;
        retryDelay := retryDelay this;
        maxRetryDelay := maxRetryDelay this;
        initialRetryDelay := initialRetryDelay this;
        serviceState := serviceState this |},
     [ShowDialog (last_rendered this)]).
Proof.
  destruct this as [btn lr na rd mx ini st]. cbn [openAnnouncementButton]. intros ->.
  reflexivity.
Qed.

End HardenedAnswers.

Section SimpleClicks.
Import SimplePoller.

Lemma simple_onclick (this : t) (b : Button) :
  openAnnouncementButton this = Some b ->
  onclick this
  = ({| openAnnouncementButton :=
          Some {| textContent := TextAnnouncements; isDisposed := isDisposed b |};
        last_rendered := last_rendered this;
        newAnnouncement := false |},
     [ShowDialog (last_rendered this)]).
Proof.
  destruct this as [btn lr na]. cbn [openAnnouncementButton]. intros ->.
  reflexivity.
Qed.

End SimpleClicks.

Lemma unseen_same (rendered : string) : unseen rendered rendered false = false.
Proof. unfold unseen. now rewrite String.eqb_refl. Qed.

(** X22.  A successful cycle with a rendering that is not empty shows a
    dialog exactly when there is unseen content (the rendering differs
    from the stored one, or something was unseen already) and the payload
    asks for the popup; the dialog shows the new rendering, which is
    stored; afterwards content is unseen exactly when there was unseen
    content and no popup.  In both revisions. *)
Theorem unseen_content_opens_dialog `{Hardened.DOMPurify}
        (n status : Z) (statusText : string) (jsonData : JSValue) :
  (forall a this,
     ok status = true ->
     run (Hardened.jsonToAnnouncementsData jsonData) = inr a ->
     Hardened.AnnouncementsData.toHtml a <> EmptyString ->
     dialogs (snd (HardenedPoller.updateAnnouncements n
                     (Response status statusText (Some jsonData)) this))
     = (if unseen (Hardened.AnnouncementsData.toHtml a)
                  (HardenedPoller.last_rendered this) (HardenedPoller.newAnnouncement this)
           && Hardened.AnnouncementsData.popup a
        then [Hardened.AnnouncementsData.toHtml a] else [])
     /\ HardenedPoller.newAnnouncement
          (fst (HardenedPoller.updateAnnouncements n
                  (Response status statusText (Some jsonData)) this))
        = unseen (Hardened.AnnouncementsData.toHtml a)
                 (HardenedPoller.last_rendered this) (HardenedPoller.newAnnouncement this)
          && negb (Hardened.AnnouncementsData.popup a)
     /\ HardenedPoller.last_rendered
          (fst (HardenedPoller.updateAnnouncements n
                  (Response status statusText (Some jsonData)) this))
        = Hardened.AnnouncementsData.toHtml a)
  /\ (forall a this,
     run (Simple.jsonToAnnouncementsData jsonData) = inr a ->
     Simple.AnnouncementsData.toHtml a <> EmptyString ->
     dialogs (snd (SimplePoller.updateAnnouncements n
                     (Response status statusText (Some jsonData)) this))
     = (if unseen (Simple.AnnouncementsData.toHtml a)
                  (SimplePoller.last_rendered this) (SimplePoller.newAnnouncement this)
           && Simple.AnnouncementsData.popup a
        then [Simple.AnnouncementsData.toHtml a] else [])
     /\ SimplePoller.newAnnouncement
          (fst (SimplePoller.updateAnnouncements n
                  (Response status statusText (Some jsonData)) this))
        = unseen (Simple.AnnouncementsData.toHtml a)
                 (SimplePoller.last_rendered this) (SimplePoller.newAnnouncement this)
          && negb (Simple.AnnouncementsData.popup a)
     /\ SimplePoller.last_rendered
          (fst (SimplePoller.updateAnnouncements n
                  (Response status statusText (Some jsonData)) this))
        = Simple.AnnouncementsData.toHtml a).
Proof.
  split.
  - intros a this Hok Hparse Hne.
    rewrite (hardened_success_cycle n status statusText jsonData a this Hok Hparse).
    rewrite (hardened_show_nonempty a this Hne). cbn [fst snd].
    rewrite !dialogs_app. repeat split.
    destruct (HardenedPoller.hasButton this),
      (HardenedPoller.isNormal (HardenedPoller.serviceState this)), (_ && _); reflexivity.
  - intros a this Hparse Hne.
    rewrite (simple_success_cycle n status statusText jsonData a this Hparse).
    rewrite (simple_show_nonempty a this Hne). cbn [fst snd].
    rewrite !dialogs_app. repeat split.
    destruct (SimplePoller.hasButton this), (_ && _); reflexivity.
Qed.

(** X23.  A click on the button shows the stored rendering in a dialog,
    leaves nothing unseen and labels the button [Announcements]; a
    successful cycle that follows with the same rendering shows no
    dialog, leaves nothing unseen and keeps that label (in the hardened
    revision, when the state is normal).  In both revisions. *)
Theorem click_marks_content_seen `{Hardened.DOMPurify}
        (n status : Z) (statusText : string) (jsonData : JSValue) :
  (forall a this,
     HardenedPoller.hasButton this = true ->
     HardenedPoller.serviceState this = HardenedPoller.normal ->
     ok status = true ->
     run (Hardened.jsonToAnnouncementsData jsonData) = inr a ->
     Hardened.AnnouncementsData.toHtml a = HardenedPoller.last_rendered this ->
     HardenedPoller.last_rendered this <> EmptyString ->
     dialogs (snd (HardenedPoller.onclick this)) = [HardenedPoller.last_rendered this]
     /\ HardenedPoller.newAnnouncement (fst (HardenedPoller.onclick this)) = false
     /\ dialogs (snd (HardenedPoller.updateAnnouncements n
                        (Response status statusText (Some jsonData))
                        (fst (HardenedPoller.onclick this))))
        = []
     /\ HardenedPoller.newAnnouncement
          (fst (HardenedPoller.updateAnnouncements n
                  (Response status statusText (Some jsonData))
                  (fst (HardenedPoller.onclick this))))
        = false
     /\ HardenedPoller.openAnnouncementButton
          (fst (HardenedPoller.updateAnnouncements n
                  (Response status statusText (Some jsonData))
                  (fst (HardenedPoller.onclick this))))
        = Some {| HardenedPoller.textContent := TextAnnouncements;
                  HardenedPoller.color := ColorNone;
                  HardenedPoller.title := TipNormal |})
  /\ (forall a this b,
     SimplePoller.openAnnouncementButton this = Some b ->
     run (Simple.jsonToAnnouncementsData jsonData) = inr a ->
     Simple.AnnouncementsData.toHtml a = SimplePoller.last_rendered this ->
     SimplePoller.last_rendered this <> EmptyString ->
     dialogs (snd (SimplePoller.onclick this)) = [SimplePoller.last_rendered this]
     /\ SimplePoller.newAnnouncement (fst (SimplePoller.onclick this)) = false
     /\ dialogs (snd (SimplePoller.updateAnnouncements n
                        (Response status statusText (Some jsonData))
                        (fst (SimplePoller.onclick this))))
        = []
     /\ SimplePoller.newAnnouncement
          (fst (SimplePoller.updateAnnouncements n
                  (Response status statusText (Some jsonData))
                  (fst (SimplePoller.onclick this))))
        = false
     /\ SimplePoller.openAnnouncementButton
          (fst (SimplePoller.updateAnnouncements n
                  (Response status statusText (Some jsonData))
                  (fst (SimplePoller.onclick this))))
        = Some {| SimplePoller.textContent := TextAnnouncements;
                  SimplePoller.isDisposed := SimplePoller.isDisposed b |}).
Proof.
  split.
  - intros a this Hb Hst Hok Hparse Hsame Hne.
    destruct (HardenedPoller.openAnnouncementButton this) as [b|] eqn:Eb;
      [| unfold HardenedPoller.hasButton in Hb; rewrite Eb in Hb; discriminate].
    rewrite (hardened_onclick this b Eb). cbn [fst snd dialogs].
    rewrite (hardened_success_cycle n status statusText jsonData a _ Hok Hparse).
    rewrite hardened_show_nonempty by (now rewrite Hsame).
    cbn [fst snd HardenedPoller.last_rendered HardenedPoller.newAnnouncement
         HardenedPoller.serviceState HardenedPoller.openAnnouncementButton
         HardenedPoller.hasButton].
    rewrite Hsame, Hst, unseen_same. repeat split.
  - intros a this b Eb Hparse Hsame Hne.
    rewrite (simple_onclick this b Eb). cbn [fst snd dialogs].
    rewrite (simple_success_cycle n status statusText jsonData a _ Hparse).
    rewrite simple_show_nonempty by (now rewrite Hsame).
    cbn [fst snd SimplePoller.last_rendered SimplePoller.newAnnouncement
         SimplePoller.openAnnouncementButton SimplePoller.hasButton].
    rewrite Hsame, unseen_same. repeat split.
Qed.

(* ===================================================================== *)
(** * Further properties: a payload without blocks *)
(* ===================================================================== *)

Section EmptyPayload.
Context `{Hardened.DOMPurify}.

Lemma hardened_toHtml_empty (a : Hardened.AnnouncementsData.t) :
  Hardened.AnnouncementsData.toHtml a = EmptyString
  <-> Hardened.AnnouncementsData.blocks a = [].
Proof.
  unfold Hardened.AnnouncementsData.toHtml.
  destruct (Hardened.AnnouncementsData.blocks a) as [|b bs]; cbn [length Nat.eqb].
  - tauto.
  - split; intros Hx; discriminate.
Qed.

Lemma simple_toHtml_empty (a : Simple.AnnouncementsData.t) :
  Simple.AnnouncementsData.toHtml a = EmptyString
  <-> Simple.AnnouncementsData.blocks a = [].
Proof.
  unfold Simple.AnnouncementsData.toHtml.
  destruct (Simple.AnnouncementsData.blocks a) as [|b bs]; cbn [length Nat.eqb].
  - tauto.
  - split; intros Hx; discriminate.
Qed.

(** The parsed data has as many blocks as the payload. *)
Lemma hardened_parse_blocks (jsonData : JSValue) (a : Hardened.AnnouncementsData.t) :
  run (Hardened.jsonToAnnouncementsData jsonData) = inr a ->
  exists blockDatas,
    get jsonData f_blocks = inr (JArr blockDatas)
    /\ length (Hardened.AnnouncementsData.blocks a) = length blockDatas.
Proof.
  unfold run, Hardened.jsonToAnnouncementsData. unfold bind at 1. unfold lift at 1.
  destruct (get jsonData f_blocks) as [e|jblocks] eqn:Eb; [discriminate |].
  destruct jblocks as [| | | | |blockDatas|]; try discriminate.
  cbn [asArray]. unfold bind at 1.
  destruct (mapM Hardened.blockOf blockDatas []) as [[e|blocks] u1] eqn:Em; [discriminate |].
  unfold bind, lift, construct.
  destruct (get jsonData f_popup) as [e|popup]; [discriminate |].
  destruct (get jsonData f_timestamp) as [e|timestamp]; [discriminate |].
  cbn [fst]. destruct popup as [| |p| | | |]; try discriminate.
  cbn [Hardened.AnnouncementsData.new].
  destruct (ToString timestamp) as [e|timestamp']; [discriminate |].
  cbn [and_then]. intros Ha. injection Ha as <-. exists blockDatas. split; [reflexivity |].
  cbn [Hardened.AnnouncementsData.blocks]. now apply mapM_length in Em.
Qed.

Lemma simple_parse_blocks (jsonData : JSValue) (a : Simple.AnnouncementsData.t) :
  run (Simple.jsonToAnnouncementsData jsonData) = inr a ->
  exists blockDatas,
    get jsonData f_blocks = inr (JArr blockDatas)
    /\ length (Simple.AnnouncementsData.blocks a) = length blockDatas.
Proof.
  unfold run, Simple.jsonToAnnouncementsData, Simple.log_and_throw.
  unfold bind at 1. unfold lift at 1.
  destruct (get jsonData f_blocks) as [e|jblocks] eqn:Eb; [discriminate |].
  destruct jblocks as [| | | | |blockDatas|]; try discriminate.
  cbn [asArray]. unfold bind at 1.
  destruct (mapM Simple.blockOf blockDatas []) as [[e|blocks] u1] eqn:Em; [discriminate |].
  unfold bind, lift, construct.
  destruct (get jsonData f_popup) as [e|popup]; [discriminate |].
  destruct (get jsonData f_timestamp) as [e|timestamp]; [discriminate |].
  cbn [fst]. destruct popup as [| |p| | | |]; try discriminate.
  cbn [Simple.AnnouncementsData.new].
  destruct (ToString timestamp) as [e|timestamp']; [discriminate |].
  cbn [and_then]. intros Ha. injection Ha as <-. exists blockDatas. split; [reflexivity |].
  cbn [Simple.AnnouncementsData.blocks]. now apply mapM_length in Em.
Qed.

(** X14.  The rendering of a parsed payload is the empty string exactly
    when the [blocks] array of the payload is empty.  In both
    revisions. *)
Theorem rendering_empty_iff_no_blocks (jsonData : JSValue) :
  (forall a,
     run (Hardened.jsonToAnnouncementsData jsonData) = inr a ->
     (Hardened.AnnouncementsData.toHtml a = EmptyString
      <-> get jsonData f_blocks = inr (JArr [])))
  /\ (forall a,
     run (Simple.jsonToAnnouncementsData jsonData) = inr a ->
     (Simple.AnnouncementsData.toHtml a = EmptyString
      <-> get jsonData f_blocks = inr (JArr []))).
Proof.
  split; intros a Hparse.
  - destruct (hardened_parse_blocks jsonData a Hparse) as (blockDatas & Hg & Hlen).
    rewrite hardened_toHtml_empty, Hg. split.
    + intros Hb. rewrite Hb in Hlen. now destruct blockDatas.
    + intros Hb. injection Hb as ->. now destruct (Hardened.AnnouncementsData.blocks a).
  - destruct (simple_parse_blocks jsonData a Hparse) as (blockDatas & Hg & Hlen).
    rewrite simple_toHtml_empty, Hg. split.
    + intros Hb. rewrite Hb in Hlen. now destruct blockDatas.
    + intros Hb. injection Hb as ->. now destruct (Simple.AnnouncementsData.blocks a).
Qed.

(** A payload with an empty [blocks] array, a boolean [popup] and a
    [timestamp] that has a string form parses. *)
Lemma hardened_parse_no_blocks (jsonData timestamp : JSValue) (p : bool) :
  get jsonData f_blocks = inr (JArr []) ->
  get jsonData f_popup = inr (JBool p) ->
  get jsonData f_timestamp = inr timestamp ->
  stringifiable timestamp = true ->
  exists a, run (Hardened.jsonToAnnouncementsData jsonData) = inr a
            /\ Hardened.AnnouncementsData.toHtml a = EmptyString.
Proof.
  intros Hb Hp Ht Hs.
  destruct (run (Hardened.jsonToAnnouncementsData jsonData)) as [e|a] eqn:Hparse.
  - pose proof (hardened_parse_isOk jsonData) as Hok. rewrite Hparse in Hok.
    unfold payload_valid in Hok. rewrite Hb, Hp, Ht, Hs in Hok. discriminate.
  - exists a. split; [reflexivity |].
    destruct (hardened_parse_blocks jsonData a Hparse) as (blockDatas & Hg & Hlen).
    rewrite Hb in Hg. injection Hg as <-. apply hardened_toHtml_empty.
    now destruct (Hardened.AnnouncementsData.blocks a).
Qed.

Lemma simple_parse_no_blocks (jsonData timestamp : JSValue) (p : bool) :
  get jsonData f_blocks = inr (JArr []) ->
  get jsonData f_popup = inr (JBool p) ->
  get jsonData f_timestamp = inr timestamp ->
  stringifiable timestamp = true ->
  exists a, run (Simple.jsonToAnnouncementsData jsonData) = inr a
            /\ Simple.AnnouncementsData.toHtml a = EmptyString.
Proof.
  intros Hb Hp Ht Hs.
  destruct (run (Simple.jsonToAnnouncementsData jsonData)) as [e|a] eqn:Hparse.
  - pose proof (simple_parse_isOk jsonData) as Hok. rewrite Hparse in Hok.
    unfold payload_valid in Hok. rewrite Hb, Hp, Ht, Hs in Hok. discriminate.
  - exists a. split; [reflexivity |].
    destruct (simple_parse_blocks jsonData a Hparse) as (blockDatas & Hg & Hlen).
    rewrite Hb in Hg. injection Hg as <-. apply simple_toHtml_empty.
    now destruct (Simple.AnnouncementsData.blocks a).
Qed.

(** X15.  A payload with an empty [blocks] array, a boolean [popup] and
    a [timestamp] that has a string form (on an ok response, for the
    hardened revision) hides the button: the stored rendering becomes the
    empty string, the label of a button that exists becomes empty, no
    button is created, no dialog is shown, and the only call to the host
    sets the next cycle after the base interval.  In both revisions. *)
Theorem empty_payload_hides_button
        (n status : Z) (statusText : string) (jsonData timestamp : JSValue) (p : bool) :
  get jsonData f_blocks = inr (JArr []) ->
  get jsonData f_popup = inr (JBool p) ->
  get jsonData f_timestamp = inr timestamp ->
  stringifiable timestamp = true ->
  (forall this,
     ok status = true ->
     snd (HardenedPoller.updateAnnouncements n
            (Response status statusText (Some jsonData)) this)
     = [SetTimeout_update n]
     /\ HardenedPoller.last_rendered
          (fst (HardenedPoller.updateAnnouncements n
                  (Response status statusText (Some jsonData)) this))
        = EmptyString
     /\ HardenedPoller.openAnnouncementButton
          (fst (HardenedPoller.updateAnnouncements n
                  (Response status statusText (Some jsonData)) this))
        = option_map (fun b => {| HardenedPoller.textContent := TextEmpty;
                                  HardenedPoller.color := HardenedPoller.color b;
                                  HardenedPoller.title := HardenedPoller.title b |})
                     (HardenedPoller.openAnnouncementButton this))
  /\ (forall this,
     snd (SimplePoller.updateAnnouncements n
            (Response status statusText (Some jsonData)) this)
     = [SetTimeout_update n]
     /\ SimplePoller.last_rendered
          (fst (SimplePoller.updateAnnouncements n
                  (Response status statusText (Some jsonData)) this))
        = EmptyString
     /\ SimplePoller.openAnnouncementButton
          (fst (SimplePoller.updateAnnouncements n
                  (Response status statusText (Some jsonData)) this))
        = option_map (fun b => {| SimplePoller.textContent := TextEmpty;
                                  SimplePoller.isDisposed := SimplePoller.isDisposed b |})
                     (SimplePoller.openAnnouncementButton this)).
Proof.
  intros Hb Hp Ht Hs. split.
  - intros this Hok.
    destruct (hardened_parse_no_blocks jsonData timestamp p Hb Hp Ht Hs)
      as (a & Hparse & Hempty).
    rewrite (hardened_success_cycle n status statusText jsonData a this Hok Hparse).
    rewrite (hardened_show_empty a this Hempty). repeat split.
  - intros this.
    destruct (simple_parse_no_blocks jsonData timestamp p Hb Hp Ht Hs)
      as (a & Hparse & Hempty).
    rewrite (simple_success_cycle n status statusText jsonData a this Hparse).
    rewrite (simple_show_empty a this Hempty). repeat split.
Qed.

End EmptyPayload.

Section HardenedNonRetryable.
Context `{Hardened.DOMPurify}.
Import HardenedPoller.

(** X25.  A response that is not ok and whose status is not retried is
    handled without reading its body: the stored rendering and the unseen
    flag stay as they were, no button is created, no dialog is shown, and
    the label of a button that exists becomes empty.  When the state was
    not normal and the button exists, the button also turns green with
    the tooltip of the recovery and the 3000 ms recovery timer is set;
    when that timer fires, the button gets the label of the normal state
    again. *)
Theorem non_retryable_response_hides_button
        (n status : Z) (statusText : string) (json : option JSValue) (this : t) :
  ok status = false ->
  shouldRetry status = false ->
  snd (updateAnnouncements n (Response status statusText json) this)
  = (if negb (isNormal (serviceState this)) && hasButton this
     then [SetTimeout_revert 3000] else [])
    ++ [SetTimeout_update n]
  /\ last_rendered (fst (updateAnnouncements n (Response status statusText json) this))
     = last_rendered this
  /\ newAnnouncement (fst (updateAnnouncements n (Response status statusText json) this))
     = newAnnouncement this
  /\ openAnnouncementButton
       (fst (updateAnnouncements n (Response status statusText json) this))
     = option_map (fun b => if isNormal (serviceState this)
                            then {| textContent := TextEmpty;
                                    color := color b;
                                    title := title b |}
                            else {| textContent := TextEmpty;
                                    color := Green;
                                    title := TipRestored |})
                  (openAnnouncementButton this)
  /\ openAnnouncementButton
       (fst (revert (fst (updateAnnouncements n (Response status statusText json) this))))
     = option_map (fun _ => {| textContent :=
                                 if newAnnouncement this
                                 then TextClickForAnnouncements else TextAnnouncements;
                               color := ColorNone;
                               title := TipNormal |})
                  (openAnnouncementButton this).
Proof.
  intros Hok Hretry.
  assert (Hcycle : updateAnnouncements n (Response status statusText json) this
                   = nonRetryable n this).
  { unfold updateAnnouncements, try_block. rewrite Hok, Hretry. reflexivity. }
  rewrite Hcycle, hardened_nonRetryable. cbn [fst snd].
  repeat split.
  destruct this as [[b|] lr na rd mx ini st]; [| reflexivity].
  destruct st, na; reflexivity.
Qed.

End HardenedNonRetryable.

(* ===================================================================== *)
(** * The theorems at concrete inputs *)
(* ===================================================================== *)

(** The row of the sample message. *)
Example sample_row :
  option_map Hardened.Message.toHtml
    (match @Hardened.messageOf escape_all sample_message [] with
     | (inr m, _) => Some m
     | _ => None
     end)
  = Some ("<tr><td class='announce-timestamp'>[2024-01-01T10:00:00]</td> "
          ++ "<td class='announce-warning'>WARNING</td> <td> &nbsp; </td> "
          ++ "<td class='announce-text'>Maintenance tonight</td></tr>")%string.
Proof. reflexivity. Qed.

(** The delays of a run of faults with a base interval of one minute, and
    the values [retryDelay] goes through: it reaches the ceiling after the
    sixth fault, and the seventh fault finds it there. *)
Example backoff_values :
  map (backoff_delay 60000) (seq 0 9)
  = [10000; 20000; 40000; 80000; 160000; 320000; 60000; 10000; 20000]%Z
  /\ map backoff_retryDelay (seq 0 9)
  = [10000; 20000; 40000; 80000; 160000; 320000; 600000; 10000; 20000]%Z.
Proof. split; reflexivity. Qed.

(** Seven faults in a row with a base interval of one minute. *)
Lemma backoff_sequence_witness :
  forallb connectivity_fault seven_faults = true
  /\ map scheduled (snd (@HardenedPoller.cycles escape_all 60000 seven_faults HardenedPoller.new))
     = [[10000]; [20000]; [40000]; [80000]; [160000]; [320000]; [60000]]%Z
  /\ HardenedPoller.retryDelay
       (fst (@HardenedPoller.cycles escape_all 60000 seven_faults HardenedPoller.new))
     = 10000%Z
  /\ HardenedPoller.serviceState
       (fst (@HardenedPoller.cycles escape_all 60000 seven_faults HardenedPoller.new))
     = HardenedPoller.failed.
Proof.
  split; [reflexivity |].
  destruct (@backoff_sequence escape_all 60000 seven_faults eq_refl) as (Hsch & Hrd & Hst).
  split; [exact Hsch |]. split; [exact Hrd |]. apply Hst. discriminate.
Defined.

(** An invalid payload arriving while the poller is degraded. *)
Lemma validation_fault_changes_nothing_witness :
  ok 200 = true
  /\ run (@Hardened.jsonToAnnouncementsData escape_all (JObj [("popup", JBool true)]))
     = inl (ValidationError "Bad blocks array.")
  /\ @HardenedPoller.updateAnnouncements escape_all 60000
       (Response 200 "OK" (Some (JObj [("popup", JBool true)])))
       (fst (@HardenedPoller.updateAnnouncements escape_all 60000 Rejected HardenedPoller.new))
     = (fst (@HardenedPoller.updateAnnouncements escape_all 60000 Rejected HardenedPoller.new),
        [SetTimeout_update 60000]).
Proof.
  split; [reflexivity |]. split; [reflexivity |].
  apply (@validation_fault_changes_nothing escape_all 60000 200 "OK"
           (JObj [("popup", JBool true)]) "Bad blocks array."); reflexivity.
Defined.

(** The sample payload, asking for the dialog, polled twice from a fresh
    poller: the first cycle shows the dialog and leaves nothing unseen. *)
Lemma identical_polls_stay_seen_witness :
  (HardenedPoller.newAnnouncement
     (fst (@HardenedPoller.updateAnnouncements escape_all 60000
             (Response 200 "OK" (Some (sample_payload true))) HardenedPoller.new))
   = false
   /\ HardenedPoller.newAnnouncement
        (fst (@HardenedPoller.updateAnnouncements escape_all 60000
                (Response 200 "OK" (Some (sample_payload true)))
                (fst (@HardenedPoller.updateAnnouncements escape_all 60000
                        (Response 200 "OK" (Some (sample_payload true)))
                        HardenedPoller.new))))
      = false
   /\ existsb isShowDialog
        (snd (@HardenedPoller.updateAnnouncements escape_all 60000
                (Response 200 "OK" (Some (sample_payload true)))
                (fst (@HardenedPoller.updateAnnouncements escape_all 60000
                        (Response 200 "OK" (Some (sample_payload true)))
                        HardenedPoller.new))))
      = false)
  /\ (SimplePoller.newAnnouncement
        (fst (SimplePoller.updateAnnouncements 60000
                (Response 200 "OK" (Some (sample_payload true))) SimplePoller.new))
      = false
      /\ SimplePoller.newAnnouncement
           (fst (SimplePoller.updateAnnouncements 60000
                   (Response 200 "OK" (Some (sample_payload true)))
                   (fst (SimplePoller.updateAnnouncements 60000
                           (Response 200 "OK" (Some (sample_payload true)))
                           SimplePoller.new))))
         = false
      /\ existsb isShowDialog
           (snd (SimplePoller.updateAnnouncements 60000
                   (Response 200 "OK" (Some (sample_payload true)))
                   (fst (SimplePoller.updateAnnouncements 60000
                           (Response 200 "OK" (Some (sample_payload true)))
                           SimplePoller.new))))
         = false).
Proof.
  split.
  - split; [reflexivity |].
    destruct (run (@Hardened.jsonToAnnouncementsData escape_all (sample_payload true)))
      as [e|a] eqn:Hp; [discriminate |].
    apply (proj1 (@identical_polls_stay_seen escape_all 60000 200 200 "OK" "OK"
                    (sample_payload true) (sample_payload true))
             a a HardenedPoller.new); reflexivity || exact Hp.
  - split; [reflexivity |].
    destruct (run (Simple.jsonToAnnouncementsData (sample_payload true)))
      as [e|a] eqn:Hp; [discriminate |].
    apply (proj2 (@identical_polls_stay_seen escape_all 60000 200 200 "OK" "OK"
                    (sample_payload true) (sample_payload true))
             a a SimplePoller.new); reflexivity || exact Hp.
Defined.

(** The first of the two cycles above shows the dialog: the payload is new
    and asks for it. *)
Example first_poll_shows_dialog :
  existsb isShowDialog
    (snd (@HardenedPoller.updateAnnouncements escape_all 60000
            (Response 200 "OK" (Some (sample_payload true))) HardenedPoller.new))
  = true.
Proof. reflexivity. Qed.

(** A block of one message whose title holds markup. *)
Lemma constructed_block_renders_rows_witness :
  (@Hardened.MessageBlock.new escape_all (JStr "<b>News</b>") [sample_Message]
   = inr {| Hardened.MessageBlock.title := "&lt;b&gt;News&lt;/b&gt;";
            Hardened.MessageBlock.messages := [sample_Message] |}
   /\ Hardened.MessageBlock.toHtml
        {| Hardened.MessageBlock.title := "&lt;b&gt;News&lt;/b&gt;";
           Hardened.MessageBlock.messages := [sample_Message] |}
      <> EmptyString
   /\ length (map Hardened.Message.toHtml [sample_Message]) = 1%nat)
  /\ (Simple.MessageBlock.new (JStr "<b>News</b>") [simple_sample_Message]
      = inr {| Simple.MessageBlock.title := "<b>News</b>";
               Simple.MessageBlock.messages := [simple_sample_Message] |}
      /\ Simple.MessageBlock.toHtml
           {| Simple.MessageBlock.title := "<b>News</b>";
              Simple.MessageBlock.messages := [simple_sample_Message] |}
         <> EmptyString
      /\ length (map Simple.Message.toHtml [simple_sample_Message]) = 1%nat).
Proof.
  split.
  - split; [reflexivity |].
    destruct (proj1 (@constructed_block_renders_rows escape_all)
                (JStr "<b>News</b>") [sample_Message]
                {| Hardened.MessageBlock.title := "&lt;b&gt;News&lt;/b&gt;";
                   Hardened.MessageBlock.messages := [sample_Message] |}
                eq_refl) as (_ & _ & Hne & _ & Hlen & _).
    split; [exact Hne | exact Hlen].
  - split; [reflexivity |].
    destruct (proj2 (@constructed_block_renders_rows escape_all)
                (JStr "<b>News</b>") [simple_sample_Message]
                {| Simple.MessageBlock.title := "<b>News</b>";
                   Simple.MessageBlock.messages := [simple_sample_Message] |}
                eq_refl) as (_ & _ & Hne & _ & Hlen & _).
    split; [exact Hne | exact Hlen].
Defined.

(** The sample payload parses, and renders to one string. *)
Lemma rendering_deterministic_witness :
  exists a,
    run (@Hardened.jsonToAnnouncementsData escape_all (sample_payload false)) = inr a
    /\ Hardened.AnnouncementsData.toHtml a = Hardened.AnnouncementsData.toHtml a.
Proof.
  destruct (run (@Hardened.jsonToAnnouncementsData escape_all (sample_payload false)))
    as [e|a] eqn:Hp; [discriminate |].
  exists a. split; [reflexivity |].
  apply (proj1 (@rendering_deterministic escape_all) (sample_payload false) a a); exact Hp.
Defined.

(* ===================================================================== *)
(** * The further properties at concrete inputs *)
(* ===================================================================== *)

(** A message with a valid username and timestamp: an expiry in words, a
    level in capitals, an empty text. *)
Lemma message_fault_order_witness :
  (@Hardened.Message.new escape_all (JStr "admin") (JStr "2024-01-01T10:00")
     (JStr "tomorrow") (JStr "warning") (JStr "Maintenance tonight")
   = inl (ValidationError "Bad expires time.")
   /\ Simple.Message.new (JStr "admin") (JStr "2024-01-01T10:00")
        (JStr "tomorrow") (JStr "warning") (JStr "Maintenance tonight")
      = inl (Error "Bad expires time."))
  /\ (@Hardened.Message.new escape_all (JStr "admin") (JStr "2024-01-01T10:00")
        (JStr "1-00:00:00") (JStr "WARNING") (JStr "Maintenance tonight")
      = inl (ValidationError "Bad level setting.")
      /\ Simple.Message.new (JStr "admin") (JStr "2024-01-01T10:00")
           (JStr "1-00:00:00") (JStr "WARNING") (JStr "Maintenance tonight")
         = inl (Error "Bad level setting."))
  /\ (@Hardened.Message.new escape_all (JStr "admin") (JStr "2024-01-01T10:00")
        (JStr "1-00:00:00") (JStr "warning") (JStr EmptyString)
      = inl (ValidationError "Bad message content.")
      /\ Simple.Message.new (JStr "admin") (JStr "2024-01-01T10:00")
           (JStr "1-00:00:00") (JStr "warning") (JStr EmptyString)
         = inl (Error "Bad message content.")).
Proof.
  split; [| split].
  - apply (proj1 (@message_fault_order escape_all (JStr "admin") (JStr "2024-01-01T10:00")
                    (JStr "tomorrow") (JStr "warning") (JStr "Maintenance tonight")
                    eq_refl eq_refl)).
    reflexivity.
  - apply (proj1 (proj2 (@message_fault_order escape_all (JStr "admin")
                           (JStr "2024-01-01T10:00") (JStr "1-00:00:00") (JStr "WARNING")
                           (JStr "Maintenance tonight") eq_refl eq_refl)));
      reflexivity.
  - apply (proj2 (proj2 (@message_fault_order escape_all (JStr "admin")
                           (JStr "2024-01-01T10:00") (JStr "1-00:00:00") (JStr "warning")
                           (JStr EmptyString) eq_refl eq_refl)));
      reflexivity.
Defined.

(** The sample message, and one whose twentieth character is not a dot:
    the pattern lets an ampersand through there, and the stored timestamp
    is the escaped one. *)
Lemma message_fields_stored_witness :
  (@Hardened.Message.new escape_all (JStr "admin") (JStr "2024-01-01T10:00:00.123456")
     (JStr "1-00:00:00") (JStr "warning") (JStr "Maintenance tonight") = inr sample_Message
   /\ Hardened.Message.timestamp sample_Message = "2024-01-01T10:00:00.123456"
   /\ Hardened.Message.username sample_Message = "admin")
  /\ (exists msg,
     @Hardened.Message.new escape_all (JStr "admin") (JStr "2024-01-01T10:00:00&123")
       (JStr "1-00:00:00") (JStr "warning") (JStr "Maintenance tonight") = inr msg
     /\ Hardened.Message.timestamp msg = "2024-01-01T10:00:00&amp;123").
Proof.
  split.
  - assert (Hnew : @Hardened.Message.new escape_all (JStr "admin")
                     (JStr "2024-01-01T10:00:00.123456") (JStr "1-00:00:00")
                     (JStr "warning") (JStr "Maintenance tonight") = inr sample_Message)
      by (vm_compute; reflexivity).
    split; [exact Hnew |].
    destruct (@message_fields_stored escape_all _ _ _ _ _ _ Hnew)
      as (us & ts & es & ls & ms & Hus & Hts & _ & _ & _ & Hu & _ & _ & _ & _ & Hdot & _).
    injection Hus as <-. injection Hts as <-.
    split; [apply Hdot; reflexivity | exact Hu].
  - eexists. split; [vm_compute; reflexivity |].
    destruct (@message_fields_stored escape_all (JStr "admin")
                (JStr "2024-01-01T10:00:00&123") (JStr "1-00:00:00") (JStr "warning")
                (JStr "Maintenance tonight") _ ltac:(vm_compute; reflexivity))
      as (us & ts & es & ls & ms & _ & Hts & _ & _ & _ & _ & _ & _ & _ & Hesc & _).
    injection Hts as <-. exact Hesc.
Defined.

(** The sample message has a fraction of six digits. *)
Lemma timestamp_cell_drops_fraction_witness :
  timestamp_shape "2024-01-01T10:00:00.123456" = true
  /\ Hardened.Message.fmtTimestamp sample_Message
     = "<td class='announce-timestamp'>[2024-01-01T10:00:00]</td>"
  /\ Simple.Message.fmtTimestamp simple_sample_Message
     = "<td class='announce-timestamp'>[2024-01-01T10:00:00]</td>".
Proof.
  split; [reflexivity |]. split.
  - apply (proj1 (@timestamp_cell_drops_fraction escape_all (JStr "admin")
                    (JStr "1-00:00:00") (JStr "warning") (JStr "Maintenance tonight")
                    "2024-01-01T10:00:00.123456" eq_refl)).
    reflexivity.
  - apply (proj2 (@timestamp_cell_drops_fraction escape_all (JStr "admin")
                    (JStr "1-00:00:00") (JStr "warning") (JStr "Maintenance tonight")
                    "2024-01-01T10:00:00.123456" eq_refl)).
    reflexivity.
Defined.

(** The sample payload parses, in both revisions, and its rendering is
    not empty. *)
Example sample_payload_parses :
  (forall popup,
     run (@Hardened.jsonToAnnouncementsData escape_all (sample_payload popup))
     = inr (sample_data popup))
  /\ (forall popup,
     run (Simple.jsonToAnnouncementsData (sample_payload popup))
     = inr (simple_sample_data popup)).
Proof. split; intros []; vm_compute; reflexivity. Qed.

Example sample_rendering_not_empty :
  (forall popup, Hardened.AnnouncementsData.toHtml (sample_data popup) <> EmptyString)
  /\ (forall popup, Simple.AnnouncementsData.toHtml (simple_sample_data popup) <> EmptyString).
Proof. split; intros popup; discriminate. Qed.

(** The sample message is rendered with the cell of a warning. *)
Lemma level_cell_is_one_of_six_witness :
  In (Hardened.Message.fmtLevel sample_Message) level_cells
  /\ Hardened.Message.fmtLevel sample_Message = "<td class='announce-warning'>WARNING</td>".
Proof.
  split; [| reflexivity].
  apply (proj1 (@level_cell_is_one_of_six escape_all (JStr "admin")
                  (JStr "2024-01-01T10:00:00.123456") (JStr "1-00:00:00")
                  (JStr "warning") (JStr "Maintenance tonight"))).
  reflexivity.
Defined.

(** The sample payload: one block, mirrored. *)
Lemma parsed_payload_is_mirrored_witness :
  exists a,
    run (@Hardened.jsonToAnnouncementsData escape_all (sample_payload true)) = inr a
    /\ Hardened.AnnouncementsData.popup a = true
    /\ exists blockDatas,
        get (sample_payload true) f_blocks = inr (JArr blockDatas)
        /\ Forall2 (@block_mirrors escape_all) blockDatas
                   (Hardened.AnnouncementsData.blocks a).
Proof.
  pose proof (proj1 sample_payload_parses true) as Hp.
  exists (sample_data true). split; [exact Hp |].
  destruct (@parsed_payload_is_mirrored escape_all (sample_payload true) _ Hp)
    as (blockDatas & Hb & Hpop & Hall).
  split; [reflexivity |].
  exists blockDatas. split; [exact Hb | exact Hall].
Defined.

(** The sample payload renders to something; the payload without blocks
    renders to the empty string. *)
Lemma rendering_empty_iff_no_blocks_witness :
  (exists a,
     run (@Hardened.jsonToAnnouncementsData escape_all empty_payload) = inr a
     /\ Hardened.AnnouncementsData.toHtml a = EmptyString)
  /\ (run (@Hardened.jsonToAnnouncementsData escape_all (sample_payload true))
      = inr (sample_data true)
      /\ Hardened.AnnouncementsData.toHtml (sample_data true) <> EmptyString).
Proof.
  split.
  - eexists. split; [vm_compute; reflexivity |].
    apply (proj1 (@rendering_empty_iff_no_blocks escape_all empty_payload)
             _ (eq_refl : run (@Hardened.jsonToAnnouncementsData escape_all empty_payload)
                          = inr {| Hardened.AnnouncementsData.popup := true;
                                   Hardened.AnnouncementsData.timestamp := "2024-01-01T10:00";
                                   Hardened.AnnouncementsData.blocks := [] |})).
    reflexivity.
  - split; [exact (proj1 sample_payload_parses true) |]. intros Hempty.
    apply (proj1 (@rendering_empty_iff_no_blocks escape_all (sample_payload true))
             _ (proj1 sample_payload_parses true)) in Hempty.
    discriminate.
Defined.

(** A payload whose [timestamp] has no string form is not valid: both
    parsers raise a [TypeError] from the conversion, and the hardened
    poller takes the cycle for a fault and backs off. *)
Example unprintable_payload_is_a_fault :
  payload_valid unprintable_payload = false
  /\ run (@Hardened.jsonToAnnouncementsData escape_all unprintable_payload)
     = inl (TypeError "Cannot convert object to primitive value")
  /\ run (Simple.jsonToAnnouncementsData unprintable_payload)
     = inl (TypeError "Cannot convert object to primitive value")
  /\ service_answers (Response 200 "OK" (Some unprintable_payload)) = false
  /\ simple_fault (Response 200 "OK" (Some unprintable_payload)) = true
  /\ @HardenedPoller.updateAnnouncements escape_all 60000
       (Response 200 "OK" (Some unprintable_payload)) HardenedPoller.new
     = (degraded_poller, [RegisterStatusItem; SetTimeout_update 10000]).
Proof. repeat split. Qed.

(** The payload without blocks, polled by the degraded poller and by the
    simple poller that shows unseen content. *)
Lemma empty_payload_hides_button_witness :
  (get empty_payload f_blocks = inr (JArr [])
   /\ get empty_payload f_popup = inr (JBool true)
   /\ get empty_payload f_timestamp = inr (JStr "2024-01-01T10:00")
   /\ stringifiable (JStr "2024-01-01T10:00") = true
   /\ ok 200 = true)
  /\ snd (@HardenedPoller.updateAnnouncements escape_all 60000
            (Response 200 "OK" (Some empty_payload)) degraded_poller)
     = [SetTimeout_update 60000]
  /\ HardenedPoller.openAnnouncementButton
       (fst (@HardenedPoller.updateAnnouncements escape_all 60000
               (Response 200 "OK" (Some empty_payload)) degraded_poller))
     = Some {| HardenedPoller.textContent := TextEmpty;
               HardenedPoller.color := Orange;
               HardenedPoller.title := TipRetrying 10000 |}
  /\ SimplePoller.openAnnouncementButton
       (fst (SimplePoller.updateAnnouncements 60000
               (Response 200 "OK" (Some empty_payload)) simple_poller_with_button))
     = Some {| SimplePoller.textContent := TextEmpty;
               SimplePoller.isDisposed := false |}.
Proof.
  split; [repeat split |].
  destruct (proj1 (@empty_payload_hides_button escape_all 60000 200 "OK" empty_payload
                     (JStr "2024-01-01T10:00") true eq_refl eq_refl eq_refl eq_refl)
              degraded_poller eq_refl) as (Hcalls & _ & Hbtn).
  destruct (proj2 (@empty_payload_hides_button escape_all 60000 200 "OK" empty_payload
                     (JStr "2024-01-01T10:00") true eq_refl eq_refl eq_refl eq_refl)
              simple_poller_with_button) as (_ & _ & Hsbtn).
  split; [exact Hcalls |]. split; [exact Hbtn | exact Hsbtn].
Defined.

(** A fault, then a response with status 404, then a fault again. *)
Lemma answer_resets_backoff_witness :
  service_answers (Response 404 "Not Found" None) = true
  /\ HardenedPoller.retryDelay degraded_poller = 20000%Z
  /\ HardenedPoller.retryDelay
       (fst (@HardenedPoller.updateAnnouncements escape_all 60000
               (Response 404 "Not Found" None) degraded_poller))
     = 10000%Z
  /\ scheduled
       (snd (@HardenedPoller.updateAnnouncements escape_all 60000 Rejected
               (fst (@HardenedPoller.updateAnnouncements escape_all 60000
                       (Response 404 "Not Found" None) degraded_poller))))
     = [10000%Z].
Proof.
  split; [reflexivity |]. split; [reflexivity |].
  destruct (@answer_resets_backoff escape_all 60000 (Response 404 "Not Found" None)
              degraded_poller eq_refl) as (_ & Hrd & _ & Hnext).
  split; [exact Hrd |].
  exact (proj1 (Hnext Rejected eq_refl eq_refl)).
Defined.

(** The sample payload arriving at the degraded poller. *)
Lemma recovery_is_shown_then_reverted_witness :
  ok 200 = true
  /\ recovery_timers
       (snd (@HardenedPoller.updateAnnouncements escape_all 60000
               (Response 200 "OK" (Some (sample_payload false))) degraded_poller))
     = [3000%Z]
  /\ HardenedPoller.openAnnouncementButton
       (fst (@HardenedPoller.updateAnnouncements escape_all 60000
               (Response 200 "OK" (Some (sample_payload false))) degraded_poller))
     = Some {| HardenedPoller.textContent := TextRestored;
               HardenedPoller.color := Green;
               HardenedPoller.title := TipRestored |}
  /\ HardenedPoller.openAnnouncementButton
       (fst (HardenedPoller.revert
               (fst (@HardenedPoller.updateAnnouncements escape_all 60000
                       (Response 200 "OK" (Some (sample_payload false))) degraded_poller))))
     = Some {| HardenedPoller.textContent := TextClickForAnnouncements;
               HardenedPoller.color := ColorNone;
               HardenedPoller.title := TipNormal |}.
Proof.
  split; [reflexivity |].
  destruct (@recovery_is_shown_then_reverted escape_all 60000 200 "OK"
              (sample_payload false) (sample_data false) degraded_poller eq_refl
              (proj1 sample_payload_parses false)
              (proj1 sample_rendering_not_empty false))
    as (Htimers & Hshown & _).
  split; [exact Htimers |].
  destruct Hshown as (Hbtn & Hrev & _); [discriminate |].
  split; [exact Hbtn | exact Hrev].
Defined.

(** The sample payload, asking for the dialog and not asking for it,
    polled from a fresh poller. *)
Lemma unseen_content_opens_dialog_witness :
  (dialogs (snd (@HardenedPoller.updateAnnouncements escape_all 60000
                   (Response 200 "OK" (Some (sample_payload true)))
                   HardenedPoller.new))
   = [Hardened.AnnouncementsData.toHtml (sample_data true)]
   /\ HardenedPoller.newAnnouncement
        (fst (@HardenedPoller.updateAnnouncements escape_all 60000
                (Response 200 "OK" (Some (sample_payload true))) HardenedPoller.new))
      = false)
  /\ (dialogs (snd (SimplePoller.updateAnnouncements 60000
                      (Response 200 "OK" (Some (sample_payload false)))
                      SimplePoller.new))
      = []
      /\ SimplePoller.newAnnouncement
           (fst (SimplePoller.updateAnnouncements 60000
                   (Response 200 "OK" (Some (sample_payload false))) SimplePoller.new))
         = true).
Proof.
  split.
  - destruct (proj1 (@unseen_content_opens_dialog escape_all 60000 200 "OK"
                       (sample_payload true))
                (sample_data true) HardenedPoller.new eq_refl
                (proj1 sample_payload_parses true)
                (proj1 sample_rendering_not_empty true)) as (Hd & Hna & _).
    split; [exact Hd | exact Hna].
  - destruct (proj2 (@unseen_content_opens_dialog escape_all 60000 200 "OK"
                       (sample_payload false))
                (simple_sample_data false) SimplePoller.new
                (proj2 sample_payload_parses false)
                (proj2 sample_rendering_not_empty false)) as (Hd & Hna & _).
    split; [exact Hd | exact Hna].
Defined.

(** The first fault of a fresh poller, and a body that is not JSON
    arriving when [retryDelay] is at the ceiling. *)
Lemma fault_is_shown_on_button_witness :
  (@HardenedPoller.try_block escape_all 60000 Rejected HardenedPoller.new
   = Threw (TypeError "Failed to fetch")
   /\ @HardenedPoller.try_block escape_all 60000 (Response 200 "OK" None)
        (HardenedPoller.set_retryDelay 600000 degraded_poller)
      = Threw (SyntaxError "Unexpected token"))
  /\ HardenedPoller.openAnnouncementButton
       (fst (@HardenedPoller.updateAnnouncements escape_all 60000 Rejected
               HardenedPoller.new))
     = Some {| HardenedPoller.textContent := TextRetrying;
               HardenedPoller.color := Orange;
               HardenedPoller.title := TipRetrying 10000 |}
  /\ scheduled (snd (@HardenedPoller.updateAnnouncements escape_all 60000 Rejected
                       HardenedPoller.new))
     = [10000%Z]
  /\ HardenedPoller.openAnnouncementButton
       (fst (@HardenedPoller.updateAnnouncements escape_all 60000 (Response 200 "OK" None)
               (HardenedPoller.set_retryDelay 600000 degraded_poller)))
     = Some {| HardenedPoller.textContent := TextUnavailable;
               HardenedPoller.color := Red;
               HardenedPoller.title := TipUnavailable |}.
Proof.
  split; [split; reflexivity |].
  destruct (proj1 (@fault_is_shown_on_button escape_all 60000 Rejected HardenedPoller.new
                     (TypeError "Failed to fetch") eq_refl eq_refl) eq_refl)
    as (Hbtn & Hsch).
  split; [exact Hbtn |]. split; [exact Hsch |].
  apply (proj1 (proj2 (@fault_is_shown_on_button escape_all 60000 (Response 200 "OK" None)
                         (HardenedPoller.set_retryDelay 600000 degraded_poller)
                         (SyntaxError "Unexpected token") eq_refl eq_refl))).
  discriminate.
Defined.

(** A response with status 404 arriving at the degraded poller. *)
Lemma non_retryable_response_hides_button_witness :
  (ok 404 = false /\ HardenedPoller.shouldRetry 404 = false)
  /\ snd (@HardenedPoller.updateAnnouncements escape_all 60000
            (Response 404 "Not Found" None) degraded_poller)
     = [SetTimeout_revert 3000; SetTimeout_update 60000]
  /\ HardenedPoller.openAnnouncementButton
       (fst (@HardenedPoller.updateAnnouncements escape_all 60000
               (Response 404 "Not Found" None) degraded_poller))
     = Some {| HardenedPoller.textContent := TextEmpty;
               HardenedPoller.color := Green;
               HardenedPoller.title := TipRestored |}
  /\ HardenedPoller.openAnnouncementButton
       (fst (HardenedPoller.revert
               (fst (@HardenedPoller.updateAnnouncements escape_all 60000
                       (Response 404 "Not Found" None) degraded_poller))))
     = Some {| HardenedPoller.textContent := TextAnnouncements;
               HardenedPoller.color := ColorNone;
               HardenedPoller.title := TipNormal |}.
Proof.
  split; [split; reflexivity |].
  destruct (@non_retryable_response_hides_button escape_all 60000 404 "Not Found" None
              degraded_poller eq_refl eq_refl) as (Hcalls & _ & _ & Hbtn & Hrev).
  split; [exact Hcalls |]. split; [exact Hbtn | exact Hrev].
Defined.

(** A fault of the simple poller that has a button, then the sample
    payload. *)
Lemma simple_button_stays_disposed_witness :
  (SimplePoller.hasButton simple_poller_with_button = true
   /\ simple_fault Rejected = true)
  /\ button_disposed
       (fst (simple_cycles 60000 [Response 200 "OK" (Some (sample_payload true))]
               (fst (SimplePoller.updateAnnouncements 60000 Rejected
                       simple_poller_with_button))))
     = true
  /\ registrations
       (concat (snd (simple_cycles 60000 [Response 200 "OK" (Some (sample_payload true))]
                       (fst (SimplePoller.updateAnnouncements 60000 Rejected
                               simple_poller_with_button)))))
     = 0%nat.
Proof.
  split; [split; reflexivity |].
  destruct (simple_button_stays_disposed 60000 Rejected
              [Response 200 "OK" (Some (sample_payload true))]
              simple_poller_with_button eq_refl eq_refl) as (_ & Hd & Hr).
  split; [exact Hd | exact Hr].
Defined.

(** A click on the button of the simple poller that shows unseen
    content. *)
Lemma click_marks_content_seen_witness :
  (dialogs (snd (SimplePoller.onclick simple_poller_with_button)) = ["<div>old</div>"]
   /\ SimplePoller.newAnnouncement (fst (SimplePoller.onclick simple_poller_with_button))
      = false)
  /\ (HardenedPoller.newAnnouncement
        (fst (HardenedPoller.show (sample_data false) HardenedPoller.new))
      = true
      /\ HardenedPoller.newAnnouncement
           (fst (@HardenedPoller.updateAnnouncements escape_all 60000
                   (Response 200 "OK" (Some (sample_payload false)))
                   (fst (HardenedPoller.onclick
                           (fst (HardenedPoller.show (sample_data false)
                                   HardenedPoller.new))))))
         = false
      /\ dialogs
           (snd (@HardenedPoller.updateAnnouncements escape_all 60000
                   (Response 200 "OK" (Some (sample_payload false)))
                   (fst (HardenedPoller.onclick
                           (fst (HardenedPoller.show (sample_data false)
                                   HardenedPoller.new))))))
         = []).
Proof.
  split; [split; reflexivity |]. split; [reflexivity |].
  destruct (proj1 (@click_marks_content_seen escape_all 60000 200 "OK"
                     (sample_payload false))
              (sample_data false)
              (fst (HardenedPoller.show (sample_data false) HardenedPoller.new))
              eq_refl eq_refl eq_refl (proj1 sample_payload_parses false) eq_refl)
    as (_ & _ & Hd & Hna & _).
  { discriminate. }
  split; [exact Hna | exact Hd].
Defined.
